(** * The workout gateway: tenant-scoped data access and its entry points

    A shallow embedding of
      - [src/db/schema.ts]                         (the three tables),
      - [src/data/workouts.ts]                     (the data-access functions),
      - [app/dashboard/workout/new/actions.ts] and
        [app/dashboard/workout/[workoutId]/actions.ts] (the server actions),
    followed by the properties the specification states about them.

    Conventions.  A JavaScript [Date] is its time value in milliseconds
    since the epoch, or the invalid date; a Postgres [timestamp] column holds
    such a millisecond count.  A workout id handed to a data-access function
    is an integer, as [parseInt] and [z.number().int()] produce them, of any
    size.  Every [await]ed expression is a computation in
    the [Async] monad below: it reads and changes a [World] (the database,
    the statements sent so far, the cache paths revalidated) and settles
    either fulfilled with a value or rejected with an error. *)

From Stdlib Require Import ZArith QArith_base Lia.
From stdpp Require Import base list strings sorting pretty.

Local Open Scope Z_scope.

(** ** Rows of [src/db/schema.ts] *)

Module Workout.
Record t := mk {
  id : Z;                 (* integer, primary key, generated always as identity *)
  userId : string;        (* varchar(255) not null *)
  name : string;          (* varchar(255) not null *)
  date : Z;               (* timestamp not null *)
  notes : option string;  (* text, nullable *)
  createdAt : Z;          (* timestamp not null default now() *)
  updatedAt : Z           (* timestamp not null default now() *)
}.
End Workout.

Module Exercise.
Record t := mk {
  id : Z;
  workoutId : Z;                   (* references workouts.id *)
  exerciseLibraryId : option Z;
  name : string;
  order : Z;
  notes : option string;
  createdAt : Z
}.
End Exercise.

Module Sets.
Record t := mk {
  id : Z;
  exerciseId : Z;                  (* references exercises.id *)
  setNumber : Z;
  reps : Z;
  weight : option Z;
  createdAt : Z
}.
End Sets.

Global Instance Workout_eq_dec : EqDecision Workout.t.
Proof. solve_decision. Defined.

Global Instance Exercise_eq_dec : EqDecision Exercise.t.
Proof. solve_decision. Defined.

Global Instance Sets_eq_dec : EqDecision Sets.t.
Proof. solve_decision. Defined.

(** The database: the three tables in their physical order, and the next
    value of the identity sequence behind [workouts.id]. *)
Record Database := mkDatabase {
  workouts : list Workout.t;
  exercises : list Exercise.t;
  sets : list Sets.t;
  workouts_id_seq : Z
}.

Definition with_workouts (d : Database) (ws : list Workout.t) (next : Z) : Database :=
  {| workouts := ws; exercises := exercises d; sets := sets d;
     workouts_id_seq := next |}.

(** ** JavaScript dates *)

Inductive JsDate :=
| Instant (ms : Z)
| InvalidDate.

Global Instance JsDate_eq_dec : EqDecision JsDate.
Proof. solve_decision. Defined.

Definition msPerDay : Z := 86400000.

(** The time zone of a host, as the runtime consults it, in milliseconds:
    [offsetAt t] is the offset from UTC in force at the instant [t]
    ([LocalTZA(t, true)]), and [offsetOfLocal t] the offset by which a local
    time value [t] is read back into an instant ([LocalTZA(t, false)]).
    The two agree away from a clock change; around one, the day between a
    local midnight and the next lasts 23 or 25 hours. *)
Record TimeZone := mkTimeZone {
  offsetAt : Z → Z;
  offsetOfLocal : Z → Z
}.

(** A zone whose clocks never change: UTC is [fixedZone 0]. *)
Definition fixedZone (tzOffset : Z) : TimeZone :=
  mkTimeZone (fun _ => tzOffset) (fun _ => tzOffset).

Section LocalTime.
Variable zone : TimeZone.

(** [d.setHours(0, 0, 0, 0)] on a copy of [d]: the local time of [d], its
    time within the day replaced, read back into an instant. *)
Definition startOfDay (d : JsDate) : JsDate :=
  match d with
  | Instant ms =>
      let local := ms + offsetAt zone ms in
      let midnight := local - local mod msPerDay in
      Instant (midnight - offsetOfLocal zone midnight)
  | InvalidDate => InvalidDate
  end.

(** [d.setHours(23, 59, 59, 999)] on a copy of [d]. *)
Definition endOfDay (d : JsDate) : JsDate :=
  match d with
  | Instant ms =>
      let local := ms + offsetAt zone ms in
      let last := local - local mod msPerDay
                  + (23 * 3600000 + 59 * 60000 + 59 * 1000 + 999) in
      Instant (last - offsetOfLocal zone last)
  | InvalidDate => InvalidDate
  end.
End LocalTime.

(** Days from 1970-01-01 to the civil date [y]-[m]-[d] (proleptic
    Gregorian calendar), used to write calendar dates in statements. *)
Definition days_from_civil (y m d : Z) : Z :=
  let y' := if m <=? 2 then y - 1 else y in
  let era := y' / 400 in
  let yoe := y' - era * 400 in
  let mp := (m + 9) mod 12 in
  let doy := (153 * mp + 2) / 5 + d - 1 in
  let doe := yoe * 365 + yoe / 4 - yoe / 100 + doy in
  era * 146097 + doe - 719468.

(** The instant at which local clocks of offset [tzOffset] show
    [y]-[m]-[d]T[hh]:[mi]:[ss].[ms]. *)
Definition localInstant (tzOffset y m d hh mi ss ms : Z) : Z :=
  days_from_civil y m d * msPerDay
  + hh * 3600000 + mi * 60000 + ss * 1000 + ms - tzOffset.

(** [new Date(y, m - 1, d, hh, mi, ss, ms)] in a zone: the local time value
    of the fields, read back into an instant. *)
Definition zoneInstant (zone : TimeZone) (y m d hh mi ss ms : Z) : Z :=
  let local := days_from_civil y m d * msPerDay
               + hh * 3600000 + mi * 60000 + ss * 1000 + ms in
  local - offsetOfLocal zone local.

(** ** The world of one request and the [Async] monad *)

Inductive table := Tworkouts | Texercises | Tsets.

Inductive statement :=
| Select (t : table)
| Insert (t : table)
| Update (t : table).

Inductive path :=
| DashboardPath                       (* "/dashboard" *)
| WorkoutPath (workoutId : Z).        (* `/dashboard/workout/${id}` *)

Inductive issue_code := invalid_type | too_small | too_big.

(** One issue of a [ZodError]: the field it is about, its code and the
    message the schema attaches to the check ([None]: the library's own). *)
Record issue := mkIssue {
  issue_path : string;
  issue_code_of : issue_code;
  issue_message : option string
}.

Inductive error :=
| StoreError                          (* the driver rejected a statement *)
| RangeError                          (* [toISOString] of an invalid date *)
| ZodError (issues : list issue).

Record World := mkWorld {
  db : Database;
  sent : list statement;              (* statements sent to the store, oldest first *)
  faulty : nat → bool;                (* [faulty n]: the store fails statement number [n] *)
  clock : Z;                          (* what [new Date()] reads *)
  pg_now : Z;                         (* what the store's [now()] reads *)
  session : option string;            (* [(await auth()).userId] *)
  revalidated : list path             (* arguments of [revalidatePath], oldest first *)
}.

Inductive Settled (A : Type) :=
| Fulfilled (a : A)
| Rejected (e : error).
Arguments Fulfilled {A} a.
Arguments Rejected {A} e.

Definition Async (A : Type) : Type := World → Settled A * World.

(** [return a] and [const x = await m; k x], written [x ← m; k x]. *)
Global Instance Async_ret : MRet Async :=
  fun A a w => (Fulfilled a, w).

Global Instance Async_bind : MBind Async :=
  fun A B k m w =>
    match m w with
    | (Fulfilled a, w') => k a w'
    | (Rejected e, w') => (Rejected e, w')
    end.

Definition throw {A} (e : error) : Async A := fun w => (Rejected e, w).

(** [try { body } catch (error) { handler }]. *)
Definition try_catch {A} (body : Async A) (handler : error → Async A) : Async A :=
  fun w =>
    match body w with
    | (Fulfilled a, w') => (Fulfilled a, w')
    | (Rejected e, w') => handler e w'
    end.

(** [await Promise.all(ps)] where every element of [ps] is an async
    callback with a single [await]: all callbacks are started, in list
    order, so every one of them sends its statement; the result is the list
    of their values when all are fulfilled and a rejection otherwise (the
    first in list order: the store's rejections all carry the same error). *)
Fixpoint Promise_all {A} (ps : list (Async A)) : Async (list A) :=
  fun w =>
    match ps with
    | [] => (Fulfilled [], w)
    | p :: ps' =>
        let '(r, w1) := p w in
        let '(rs, w2) := Promise_all ps' w1 in
        match r, rs with
        | Fulfilled a, Fulfilled l => (Fulfilled (a :: l), w2)
        | Rejected e, _ => (Rejected e, w2)
        | Fulfilled _, Rejected e => (Rejected e, w2)
        end
    end.

(** ** The store *)

Definition log_statement (st : statement) (w : World) : World :=
  {| db := db w; sent := sent w ++ [st]; faulty := faulty w; clock := clock w;
     pg_now := pg_now w; session := session w; revalidated := revalidated w |}.

Definition set_db (d : Database) (w : World) : World :=
  {| db := d; sent := sent w; faulty := faulty w; clock := clock w;
     pg_now := pg_now w; session := session w; revalidated := revalidated w |}.

(** The id columns are 32-bit [integer]s. *)
Definition int4 (n : Z) : Prop := -2147483648 ≤ n ≤ 2147483647.

Global Instance int4_dec n : Decision (int4 n).
Proof. unfold int4. apply _. Defined.

(** What the store accepts as a workout id to compare [workouts.id] or
    [exercises.workoutId] with: a value of the column's type.  The rows are
    kept here with ids in [Z], so the id of a stored row counts as one. *)
Definition column_holds (d : Database) (workoutId : Z) : Prop :=
  int4 workoutId ∨ workoutId ∈ Workout.id <$> workouts d.

Global Instance column_holds_dec d workoutId : Decision (column_holds d workoutId).
Proof. unfold column_holds. apply _. Defined.

(** Awaiting a query with the workout ids [ids] among its parameters: the
    statement is sent; the store either fails it, leaving the tables as they
    were, or runs it.  It fails every statement with an id parameter outside
    the column's range ("value out of range for type integer"), and the
    statements the fault schedule names: those it fails for any other reason
    (a lost connection, a string too long for its column). *)
Definition execute {A} (st : statement) (ids : list Z)
    (run : World → A * Database) : Async A :=
  fun w =>
    let w' := log_statement st w in
    if faulty w (length (sent w)) then (Rejected StoreError, w')
    else if decide (Forall (column_holds (db w)) ids)
         then let '(a, d) := run w in (Fulfilled a, set_db d w')
         else (Rejected StoreError, w').

(** A timestamp parameter is encoded with [toISOString], which throws on
    the invalid date. *)
Definition toISOString (d : JsDate) : Async Z :=
  match d with
  | Instant ms => mret ms
  | InvalidDate => throw RangeError
  end.

(** [ORDER BY key] (ascending). *)
Definition key_le {A} (key : A → Z) : relation A :=
  fun a b => key a ≤ key b.

Global Instance key_le_dec {A} (key : A → Z) a b : Decision (key_le key a b).
Proof. unfold key_le. apply _. Defined.

Definition orderBy {A} (key : A → Z) (rows : list A) : list A :=
  merge_sort (key_le key) rows.

(** [WHERE id = workoutId AND userId = userId]. *)
Definition owned (workoutId : Z) (userId : string) (r : Workout.t) : Prop :=
  Workout.id r = workoutId ∧ Workout.userId r = userId.

Global Instance owned_dec workoutId userId r : Decision (owned workoutId userId r).
Proof. unfold owned. apply _. Defined.

(** ** The data-access functions of [src/data/workouts.ts] *)

Module CreateData.
Record t := mk {
  name : string;
  date : JsDate;
  notes : option string;          (* [notes?: string] *)
  userId : string
}.
End CreateData.

Module UpdateData.
Record t := mk {
  name : option string;           (* [name?: string] *)
  date : option JsDate;           (* [date?: Date] *)
  notes : option string           (* [notes?: string] *)
}.
End UpdateData.

(** [{ ...exercise, sets: exerciseSets }] *)
Record ExerciseWithSets := mkExerciseWithSets {
  exercise_row : Exercise.t;
  exercise_sets : list Sets.t
}.

(** [{ ...workout[0], exercises: exercisesWithSets }] *)
Record WorkoutWithExercises := mkWorkoutWithExercises {
  workout_row : Workout.t;
  workout_exercises : list ExerciseWithSets
}.

Definition getUserWorkouts (userId : string) : Async (list Workout.t) :=
  execute (Select Tworkouts) [] (fun w =>
    (orderBy Workout.date
       (filter (fun r => Workout.userId r = userId) (workouts (db w))),
     db w)).

Section ByDate.
(** The zone of the host the function runs on. *)
Variable zone : TimeZone.

Definition getUserWorkoutsByDate (userId : string) (date : JsDate)
  : Async (list Workout.t) :=
  let startOfDay := startOfDay zone date in
  let endOfDay := endOfDay zone date in
  lo ← toISOString startOfDay;
  hi ← toISOString endOfDay;
  execute (Select Tworkouts) [] (fun w =>
    (orderBy Workout.date
       (filter (fun r => Workout.userId r = userId
                         ∧ lo ≤ Workout.date r ∧ Workout.date r ≤ hi)
               (workouts (db w))),
     db w)).
End ByDate.

(** The callback of [workoutExercises.map(async (exercise) => ...)]; its
    parameter [exercise.id] is a value the store has just returned. *)
Definition exerciseWithSets (exercise : Exercise.t) : Async ExerciseWithSets :=
  exerciseSets ← execute (Select Tsets) [] (fun w =>
    (orderBy Sets.setNumber
       (filter (fun s => Sets.exerciseId s = Exercise.id exercise) (sets (db w))),
     db w));
  mret (mkExerciseWithSets exercise exerciseSets).

Definition getUserWorkoutWithExercises (workoutId : Z) (userId : string)
  : Async (option WorkoutWithExercises) :=
  workout ← execute (Select Tworkouts) [workoutId] (fun w =>
    (take 1 (filter (owned workoutId userId) (workouts (db w))), db w));
  match head workout with
  | None => mret None
  | Some workout0 =>
      workoutExercises ← execute (Select Texercises) [workoutId] (fun w =>
        (orderBy Exercise.order
           (filter (fun e => Exercise.workoutId e = workoutId) (exercises (db w))),
         db w));
      exercisesWithSets ← Promise_all (exerciseWithSets <$> workoutExercises);
      mret (Some (mkWorkoutWithExercises workout0 exercisesWithSets))
  end.

(** The row [INSERT INTO workouts (name, date, notes, userId)] stores: the
    identity column takes the next value of its sequence, an absent [notes]
    is stored as NULL, and both timestamp defaults evaluate [now()]. *)
Definition inserted_row (w : World) (name : string) (date : Z)
    (notes : option string) (userId : string) : Workout.t :=
  {| Workout.id := workouts_id_seq (db w);
     Workout.userId := userId;
     Workout.name := name;
     Workout.date := date;
     Workout.notes := notes;
     Workout.createdAt := pg_now w;
     Workout.updatedAt := pg_now w |}.

Definition createWorkout (data : CreateData.t) : Async (option Workout.t) :=
  date ← toISOString (CreateData.date data);
  returning ← execute (Insert Tworkouts) [] (fun w =>
    let row := inserted_row w (CreateData.name data) date
                 (CreateData.notes data) (CreateData.userId data) in
    ([row],
     with_workouts (db w) (workouts (db w) ++ [row]) (workouts_id_seq (db w) + 1)));
  mret (head returning).

(** [SET] of [{ ...data, updatedAt: new Date() }]: a key whose value is
    [undefined] is left out of the statement. *)
Definition set_columns (name : option string) (date : option Z)
    (notes : option string) (updatedAt : Z) (r : Workout.t) : Workout.t :=
  {| Workout.id := Workout.id r;
     Workout.userId := Workout.userId r;
     Workout.name := default (Workout.name r) name;
     Workout.date := default (Workout.date r) date;
     Workout.notes := match notes with Some n => Some n | None => Workout.notes r end;
     Workout.createdAt := Workout.createdAt r;
     Workout.updatedAt := updatedAt |}.

Definition update_where (workoutId : Z) (userId : string)
    (f : Workout.t → Workout.t) (r : Workout.t) : Workout.t :=
  if decide (owned workoutId userId r) then f r else r.

(** The encoded [date] of the [SET] clause, when [data] has one. *)
Definition encode_optional (d : option JsDate) : Async (option Z) :=
  match d with
  | None => mret None
  | Some d' => ms ← toISOString d'; mret (Some ms)
  end.

Definition newDate : Async Z := fun w => (Fulfilled (clock w), w).

Definition updateWorkout (workoutId : Z) (userId : string) (data : UpdateData.t)
  : Async (option Workout.t) :=
  updatedAt ← newDate;
  date ← encode_optional (UpdateData.date data);
  returning ← execute (Update Tworkouts) [workoutId] (fun w =>
    let f := set_columns (UpdateData.name data) date (UpdateData.notes data)
               updatedAt in
    (f <$> filter (owned workoutId userId) (workouts (db w)),
     with_workouts (db w)
       (update_where workoutId userId f <$> workouts (db w))
       (workouts_id_seq (db w))));
  mret (head returning).

Definition getUserWorkout (workoutId : Z) (userId : string)
  : Async (option Workout.t) :=
  result ← execute (Select Tworkouts) [workoutId] (fun w =>
    (take 1 (filter (owned workoutId userId) (workouts (db w))), db w));
  mret (head result).

(** ** Payloads and the validation schemas of the two [actions.ts] *)

(** The payload a server action receives is an object; [Input.t] below
    records what it holds under the four keys the schemas read ([z.object]
    drops every other key).  A [value] is what one key holds. *)
Inductive value :=
| VUndefined                  (* the key is absent, or holds [undefined] *)
| VNull
| VString (s : string)
| VNumber (q : Q)             (* a finite number *)
| VOther.                     (* any other value: boolean, object, array, NaN, ... *)

Module Input.
Record t := mk {
  id : value;
  name : value;
  date : value;
  notes : value
}.
End Input.

(** A field either yields its validated value or its issues. *)
Definition checked (A : Type) : Type := list issue + A.

Definition issues_of {A} (c : checked A) : list issue :=
  match c with inl issues => issues | inr _ => [] end.

(** [z.string()] with optional [.min(n, message)] and [.max(n, message)];
    both length checks run. *)
Definition z_string (key : string) (min max : option (nat * string)) (v : value)
  : checked string :=
  match v with
  | VString s =>
      let small :=
        match min with
        | Some (n, message) =>
            if (String.length s <? n)%nat
            then [mkIssue key too_small (Some message)] else []
        | None => []
        end in
      let big :=
        match max with
        | Some (n, message) =>
            if (n <? String.length s)%nat
            then [mkIssue key too_big (Some message)] else []
        | None => []
        end in
      match small ++ big with
      | [] => inr s
      | issues => inl issues
      end
  | _ => inl [mkIssue key invalid_type None]
  end.

(** [schema.optional()]: [undefined] passes as it is. *)
Definition z_optional {A} (schema : value → checked A) (v : value)
  : checked (option A) :=
  match v with
  | VUndefined => inr None
  | _ => match schema v with
         | inl issues => inl issues
         | inr a => inr (Some a)
         end
  end.

(** [Number.isInteger] on a finite number. *)
Definition isInteger (q : Q) : bool := Qnum q mod Z.pos (Qden q) =? 0.

(** [z.number().int().positive()]. *)
Definition z_number_int_positive (key : string) (v : value) : checked Z :=
  match v with
  | VNumber q =>
      let not_int :=
        if isInteger q then [] else [mkIssue key invalid_type None] in
      let not_positive :=
        if 0 <? Qnum q then [] else [mkIssue key too_small None] in
      match not_int ++ not_positive with
      | [] => inr (Qnum q / Z.pos (Qden q))
      | issues => inl issues
      end
  | _ => inl [mkIssue key invalid_type None]
  end.

Module CreateInput.
Record t := mk { name : string; date : string; notes : option string }.
End CreateInput.

Module UpdateInput.
Record t := mk { id : Z; name : string; date : string; notes : option string }.
End UpdateInput.

Definition name_schema : value → checked string :=
  z_string "name" (Some (1%nat, "Name is required")) (Some (255%nat, "Name too long")).

Definition date_schema : value → checked string :=
  z_string "date" (Some (1%nat, "Date is required")) None.

Definition notes_schema : value → checked (option string) :=
  z_optional (z_string "notes" None (Some (1000%nat, "Notes too long"))).

Definition createWorkoutSchema (input : Input.t) : checked CreateInput.t :=
  match name_schema (Input.name input), date_schema (Input.date input),
        notes_schema (Input.notes input) with
  | inr name, inr date, inr notes => inr (CreateInput.mk name date notes)
  | n, d, o => inl (issues_of n ++ issues_of d ++ issues_of o)
  end.

Definition updateWorkoutSchema (input : Input.t) : checked UpdateInput.t :=
  match z_number_int_positive "id" (Input.id input),
        name_schema (Input.name input), date_schema (Input.date input),
        notes_schema (Input.notes input) with
  | inr id, inr name, inr date, inr notes => inr (UpdateInput.mk id name date notes)
  | i, n, d, o => inl (issues_of i ++ issues_of n ++ issues_of d ++ issues_of o)
  end.

(** [schema.parse(input)]: the validated data, or a thrown [ZodError]. *)
Definition parse {A} (schema : Input.t → checked A) (input : Input.t) : Async A :=
  match schema input with
  | inr data => mret data
  | inl issues => throw (ZodError issues)
  end.

(** ** The server actions *)

Inductive ActionResult :=
| Success (data : option Workout.t)   (* [{ success: true, data }] *)
| Failure (error : string).           (* [{ success: false, error }] *)

(** [const { userId } = await auth()], and [userId] only when it is
    truthy. *)
Definition auth : Async (option string) := fun w => (Fulfilled (session w), w).

Definition truthy (userId : option string) : option string :=
  match userId with
  | Some EmptyString => None
  | other => other
  end.

Definition revalidatePath (p : path) : Async unit :=
  fun w =>
    (Fulfilled (),
     {| db := db w; sent := sent w; faulty := faulty w; clock := clock w;
        pg_now := pg_now w; session := session w;
        revalidated := revalidated w ++ [p] |}).

Section Actions.
(** [new Date(s)] for a string [s], as the runtime parses it. *)
Variable dateFromString : string → JsDate.

Definition createWorkoutAction (input : Input.t) : Async ActionResult :=
  validatedData ← parse createWorkoutSchema input;
  userId ← auth;
  match truthy userId with
  | None => mret (Failure "Unauthorized")
  | Some userId =>
      try_catch
        (let workoutDate :=
           dateFromString (CreateInput.date validatedData +:+ "T00:00:00") in
         workout ← createWorkout
           {| CreateData.name := CreateInput.name validatedData;
              CreateData.date := workoutDate;
              CreateData.notes := CreateInput.notes validatedData;
              CreateData.userId := userId |};
         _ ← revalidatePath DashboardPath;
         mret (Success workout))
        (fun _ => mret (Failure "Failed to create workout"))
  end.

Definition updateWorkoutAction (input : Input.t) : Async ActionResult :=
  validatedData ← parse updateWorkoutSchema input;
  userId ← auth;
  match truthy userId with
  | None => mret (Failure "Unauthorized")
  | Some userId =>
      try_catch
        (let workoutDate :=
           dateFromString (UpdateInput.date validatedData +:+ "T00:00:00") in
         workout ← updateWorkout (UpdateInput.id validatedData) userId
           {| UpdateData.name := Some (UpdateInput.name validatedData);
              UpdateData.date := Some workoutDate;
              UpdateData.notes := UpdateInput.notes validatedData |};
         match workout with
         | None => mret (Failure "Workout not found")
         | Some row =>
             _ ← revalidatePath DashboardPath;
             _ ← revalidatePath (WorkoutPath (UpdateInput.id validatedData));
             mret (Success (Some row))
         end)
        (fun _ => mret (Failure "Failed to update workout"))
  end.
End Actions.

(** ** The pages that call the data-access functions *)

(** What a page function gives back: the properties of the component it
    renders, or the URL [redirect] was called with ([redirect] never
    returns, and no page calls it inside a [try]). *)
Inductive PageResult (A : Type) :=
| Rendered (props : A)
| Redirected (url : string).
Arguments Rendered {A} props.
Arguments Redirected {A} url.

Section Pages.
(** [parseInt(s, 10)]; [None] is [NaN]. *)
Variable parseInt : string → option Z.
Variable dateFromString : string → JsDate.
(** The zone of the server. *)
Variable zone : TimeZone.

(** [app/dashboard/workout/[workoutId]/page.tsx] *)
Definition EditWorkoutPage (workoutId : string) : Async (PageResult Workout.t) :=
  userId ← auth;
  match truthy userId with
  | None => mret (Redirected "/sign-in")
  | Some userId =>
      match parseInt workoutId with
      | None => mret (Redirected "/dashboard")
      | Some workoutIdNum =>
          workout ← getUserWorkout workoutIdNum userId;
          match workout with
          | None => mret (Redirected "/dashboard")
          | Some workout => mret (Rendered workout)
          end
      end
  end.

(** [app/dashboard/workout/new/page.tsx] *)
Definition NewWorkoutPage : Async (PageResult ()) :=
  userId ← auth;
  match truthy userId with
  | None => mret (Redirected "/sign-in")
  | Some _ => mret (Rendered ())
  end.

(** [app/dashboard/page.tsx]; [dateParam] is [searchParams.date], and a
    missing or empty one is falsy. *)
Definition DashboardPage (dateParam : option string)
  : Async (PageResult (list Workout.t * JsDate)) :=
  userId ← auth;
  match truthy userId with
  | None => mret (Redirected "/sign-in")
  | Some userId =>
      selectedDate ←
        match truthy dateParam with
        | Some dateParam => mret (dateFromString (dateParam +:+ "T00:00:00"))
        | None => now ← newDate; mret (Instant now)
        end;
      workouts ← getUserWorkoutsByDate zone userId selectedDate;
      mret (Rendered (workouts, selectedDate))
  end.
End Pages.

(** ** The client components *)

(** The civil date of a day number (days since 1970-01-01), the inverse
    of [days_from_civil]. *)
Definition civil_from_days (z : Z) : Z * Z * Z :=
  let z := z + 719468 in
  let era := z / 146097 in
  let doe := z - era * 146097 in
  let yoe := (doe - doe / 1460 + doe / 36524 - doe / 146096) / 365 in
  let y := yoe + era * 400 in
  let doy := doe - (365 * yoe + yoe / 4 - yoe / 100) in
  let mp := (5 * doy + 2) / 153 in
  let d := doy - (153 * mp + 2) / 5 + 1 in
  let m := if mp <? 10 then mp + 3 else mp - 9 in
  (if m <=? 2 then y + 1 else y, m, d).

Section LocalFields.
(** The zone of the browser. *)
Variable zone : TimeZone.

(** The local civil date of a valid date. *)
Definition localCivil (ms : Z) : Z * Z * Z :=
  civil_from_days ((ms + offsetAt zone ms) / msPerDay).

(** [date.getFullYear()], [date.getMonth()] (from 0) and [date.getDate()];
    [None] is [NaN]. *)
Definition getFullYear (d : JsDate) : option Z :=
  match d with
  | Instant ms => Some (localCivil ms).1.1
  | InvalidDate => None
  end.

Definition getMonth (d : JsDate) : option Z :=
  match d with
  | Instant ms => Some ((localCivil ms).1.2 - 1)
  | InvalidDate => None
  end.

Definition getDate (d : JsDate) : option Z :=
  match d with
  | Instant ms => Some (localCivil ms).2
  | InvalidDate => None
  end.
End LocalFields.

(** [String(n)], also what a template literal does, for an integer or
    [NaN]. *)
Definition String_of (n : option Z) : string :=
  match n with
  | Some z => pretty z
  | None => "NaN"
  end.

(** [s.padStart(2, '0')]. *)
Definition padStart2 (s : string) : string :=
  match String.length s with
  | 0%nat => "00"
  | 1%nat => "0" +:+ s
  | _ => s
  end.

(** [handleDateSelect] of [dashboard-client.tsx]: the URL handed to
    [router.push], or [None] when it returns without navigating. *)
Definition handleDateSelect (zone : TimeZone) (date : option JsDate) : option string :=
  match date with
  | None => None
  | Some date =>
      let year := getFullYear zone date in
      let month := padStart2 (String_of ((fun m => m + 1) <$> getMonth zone date)) in
      let day := padStart2 (String_of (getDate zone date)) in
      let dateString := String_of year +:+ "-" +:+ month +:+ "-" +:+ day in
      Some ("/dashboard?date=" +:+ dateString)
  end.

(** The text fields of a submitted form, in document order
    ([new FormData(form)]), and [formData.get(name)]. *)
Definition FormData : Type := list (string * string).

Definition FormData_get (formData : FormData) (name : string) : value :=
  match list_find (fun entry => entry.1 = name) formData with
  | Some (_, entry) => VString entry.2
  | None => VNull
  end.

(** What submitting the form of [workout-form.tsx] leaves behind: the
    [error] state and the URLs handed to [router.push]. *)
Record FormState := mkFormState {
  form_error : option string;
  form_pushed : list string
}.

Section Form.
Variable dateFromString : string → JsDate.

(** The async callback [handleSubmit] hands to [startTransition]. *)
Definition submitTransition (formData : FormData) : Async FormState :=
  result ← createWorkoutAction dateFromString
    {| Input.id := VUndefined;
       Input.name := FormData_get formData "name";
       Input.date := FormData_get formData "date";
       Input.notes := FormData_get formData "notes" |};
  match result with
  | Success _ => mret (mkFormState None ["/dashboard"])
  | Failure error =>
      mret (mkFormState
              (Some (if decide (error = "") then "Failed to create workout"
                     else error))
              [])
  end.

(** [handleSubmit]: [setError(null)], then [startTransition(callback)].
    It awaits nothing: it returns at once, with the error cleared and
    nothing pushed, and leaves the transition it started to settle on its
    own; a rejection of the transition is not one of [handleSubmit]. *)
Definition handleSubmit (formData : FormData) : FormState * Async FormState :=
  (mkFormState None [], submitTransition formData).
End Form.

(** * Vocabulary of the properties *)

(** The [date] column a valid [data.date] sets. *)
Definition date_column (d : option JsDate) : option Z :=
  match d with
  | Some (Instant ms) => Some ms
  | _ => None
  end.

(** [id] is a primary key drawn from an identity sequence: no two rows
    share an id, and every id in use is below the sequence's next value. *)
Record primary_key (d : Database) : Prop := {
  pk_unique : NoDup (Workout.id <$> workouts d);
  pk_below_seq : Forall (fun r => Workout.id r < workouts_id_seq d) (workouts d)
}.

(** [refused w workoutId]: the store fails the statement [w] sends next
    when [workoutId] is its id parameter. *)
Definition refused (w : World) (workoutId : Z) : bool :=
  faulty w (length (sent w)) || bool_decide (¬ column_holds (db w) workoutId).

(** ** Tenant isolation *)

(** The rows of the other tenants: every workout whose [userId] is not
    [A], in table order. *)
Definition others (A : string) (d : Database) : list Workout.t :=
  filter (fun r => Workout.userId r ≠ A) (workouts d).

(** A data-access call made for identity [A] is tenant-scoped when every
    workout in a value it is fulfilled with belongs to [A], and when,
    however it settles, the rows of the other tenants are what they
    were. *)
Record tenant_scoped {T} (A : string) (rows_in : T → list Workout.t) (m : Async T)
  : Prop := {
  returns_own : ∀ w t w', m w = (Fulfilled t, w') →
                ∀ r, r ∈ rows_in t → Workout.userId r = A;
  keeps_others : ∀ w, others A (db (m w).2) = others A (db w)
}.

(** The workouts in the results of the data-access functions. *)
Definition one_row (o : option Workout.t) : list Workout.t :=
  match o with Some r => [r] | None => [] end.

Definition aggregate_row (o : option WorkoutWithExercises) : list Workout.t :=
  match o with Some a => [workout_row a] | None => [] end.

(** ** The aggregate fetch *)

(** The world after the statements [sts] were sent, in that order. *)
Definition log_statements (sts : list statement) (w : World) : World :=
  foldl (fun w' st => log_statement st w') w sts.

(** Whether the store fails one of the [count] statements numbered from
    [from]. *)
Definition any_faulty (w : World) (from count : nat) : bool :=
  existsb (faulty w) (seq from count).

(** What the store holds for a workout id and for an exercise, in the order
    the aggregate asks for. *)
Definition exercises_of (d : Database) (workoutId : Z) : list Exercise.t :=
  orderBy Exercise.order
    (filter (fun e => Exercise.workoutId e = workoutId) (exercises d)).

Definition sets_of (d : Database) (e : Exercise.t) : list Sets.t :=
  orderBy Sets.setNumber
    (filter (fun s => Sets.exerciseId s = Exercise.id e) (sets d)).

(** ** A small database for the worked examples *)

Definition alice : string := "user_alice".
Definition bob : string := "user_bob".

Definition leg_day : Workout.t :=
  {| Workout.id := 1; Workout.userId := alice; Workout.name := "Leg Day";
     Workout.date := localInstant 0 2025 3 1 0 0 0 0;
     Workout.notes := Some "heavy";
     Workout.createdAt := 1740787200000; Workout.updatedAt := 1740787200000 |}.

Definition late_run : Workout.t :=
  {| Workout.id := 2; Workout.userId := bob; Workout.name := "Late run";
     Workout.date := localInstant 0 2025 3 1 23 59 59 0;
     Workout.notes := None;
     Workout.createdAt := 1740873599000; Workout.updatedAt := 1740873599000 |}.

Definition gym : Database :=
  {| workouts := [leg_day; late_run]; exercises := []; sets := [];
     workouts_id_seq := 3 |}.

(** A request on [d] by [userId] during which the store answers every
    statement; both clocks read [now]. *)
Definition request (d : Database) (userId : option string) (now : Z) : World :=
  {| db := d; sent := []; faulty := fun _ => false; clock := now; pg_now := now;
     session := userId; revalidated := [] |}.

Definition no_fields : UpdateData.t :=
  {| UpdateData.name := None; UpdateData.date := None; UpdateData.notes := None |}.

Definition rename_to_push_day : UpdateData.t :=
  {| UpdateData.name := Some "Push Day"; UpdateData.date := None;
     UpdateData.notes := None |}.


Definition new_leg_day : CreateData.t :=
  {| CreateData.name := "Leg Day";
     CreateData.date := Instant (localInstant 0 2025 3 1 0 0 0 0);
     CreateData.notes := Some "heavy";
     CreateData.userId := alice |}.

(** Alice's workout 1 with three exercises stored in the order 2, 1, 3 and,
    for each, two sets stored in the order 2, 1. *)
Definition exercise_at (id order : Z) (name : string) : Exercise.t :=
  {| Exercise.id := id; Exercise.workoutId := 1; Exercise.exerciseLibraryId := None;
     Exercise.name := name; Exercise.order := order; Exercise.notes := None;
     Exercise.createdAt := 1740787200000 |}.

Definition set_at (id exerciseId setNumber : Z) : Sets.t :=
  {| Sets.id := id; Sets.exerciseId := exerciseId; Sets.setNumber := setNumber;
     Sets.reps := 8; Sets.weight := None; Sets.createdAt := 1740787200000 |}.

Definition plan : Database :=
  {| workouts := [leg_day; late_run];
     exercises := [exercise_at 10 2 "Lunge"; exercise_at 11 1 "Squat";
                   exercise_at 12 3 "Calf raise"];
     sets := [set_at 100 10 2; set_at 101 10 1; set_at 102 11 2;
              set_at 103 11 1; set_at 104 12 2; set_at 105 12 1];
     workouts_id_seq := 3 |}.

(** A zone that keeps UTC-5 until its clocks go forward by one hour at
    2025-03-09T02:00 local time (07:00 UTC), as America/New_York does, and
    UTC-4 from then on; a local time of the skipped hour is read with the
    offset in force before the change. *)
Definition eastern : TimeZone :=
  {| offsetAt := fun t =>
       if t <? localInstant 0 2025 3 9 7 0 0 0 then -18000000 else -14400000;
     offsetOfLocal := fun t =>
       if t <? localInstant 0 2025 3 9 3 0 0 0 then -18000000 else -14400000 |}.

(** Bob's workout of the evening of 2025-03-01 in [eastern], a week before
    the clocks change there. *)
Definition evening_row : Workout.t :=
  {| Workout.id := 1; Workout.userId := bob; Workout.name := "Evening row";
     Workout.date := zoneInstant eastern 2025 3 1 23 59 59 0;
     Workout.notes := None;
     Workout.createdAt := 1740891599000; Workout.updatedAt := 1740891599000 |}.

Definition boathouse : Database :=
  {| workouts := [evening_row]; exercises := []; sets := [];
     workouts_id_seq := 2 |}.

(** A request during which the store fails statement number [k] and
    answers every other one. *)
Definition request_failing (d : Database) (userId : option string) (now : Z)
    (k : nat) : World :=
  {| db := d; sent := []; faulty := fun n => bool_decide (n = k); clock := now;
     pg_now := now; session := userId; revalidated := [] |}.

(** ** Validation *)

(** A field fails its schema. *)
Definition fails {A} (c : checked A) : Prop :=
  match c with inl _ => True | inr _ => False end.

(** The issues of a failed field are about that field, and there is at
    least one. *)
Definition reports {A} (key : string) (c : checked A) : Prop :=
  match c with
  | inl issues => issues ≠ [] ∧ Forall (fun i => issue_path i = key) issues
  | inr _ => True
  end.

(** A runtime that parses the one string the examples use. *)
Definition dateFromString_2025_03_01 (s : string) : JsDate :=
  if decide (s = "2025-03-01T00:00:00")
  then Instant (localInstant 0 2025 3 1 0 0 0 0)
  else InvalidDate.

Definition empty_name : Input.t :=
  {| Input.id := VUndefined; Input.name := VString "";
     Input.date := VString "2025-03-01"; Input.notes := VUndefined |}.

Definition only_id : Input.t :=
  {| Input.id := VNumber (Qmake 1 1); Input.name := VUndefined;
     Input.date := VUndefined; Input.notes := VUndefined |}.

Definition push_day_input : Input.t :=
  {| Input.id := VNumber (Qmake 1 1); Input.name := VString "Push Day";
     Input.date := VString "2025-03-01"; Input.notes := VUndefined |}.

(** ** Vocabulary of the further properties *)

(** The world after [revalidatePath p]. *)
Definition revalidate (p : path) (w : World) : World :=
  (revalidatePath p w).2.

(** The [data] the two actions hand to the data-access functions. *)
Definition create_data (dateFromString : string → JsDate) (userId : string)
    (validatedData : CreateInput.t) : CreateData.t :=
  {| CreateData.name := CreateInput.name validatedData;
     CreateData.date := dateFromString (CreateInput.date validatedData +:+ "T00:00:00");
     CreateData.notes := CreateInput.notes validatedData;
     CreateData.userId := userId |}.

Definition update_data (dateFromString : string → JsDate)
    (validatedData : UpdateInput.t) : UpdateData.t :=
  {| UpdateData.name := Some (UpdateInput.name validatedData);
     UpdateData.date :=
       Some (dateFromString (UpdateInput.date validatedData +:+ "T00:00:00"));
     UpdateData.notes := UpdateInput.notes validatedData |}.

(** The payload of [push_day_input] for another workout id. *)
Definition push_day_for (id : Z) : Input.t :=
  {| Input.id := VNumber (Qmake id 1); Input.name := VString "Push Day";
     Input.date := VString "2025-03-01"; Input.notes := VUndefined |}.

Definition unparsable_date_input : Input.t :=
  {| Input.id := VNumber (Qmake 1 1); Input.name := VString "Push Day";
     Input.date := VString "tomorrow"; Input.notes := VUndefined |}.

(** A [parseInt] for the route parameters of the examples. *)
Definition parseInt_example (s : string) : option Z :=
  if decide (s = "2") then Some 2
  else if decide (s = "7") then Some 7
  else None.

(** ** The calendar *)

(** The two halves of the civil-date conversion inside one 400-year era:
    from a day of the era to year of the era, month and day, and back. *)
Definition civil_of_doe (doe : Z) : Z * Z * Z :=
  let yoe := (doe - doe / 1460 + doe / 36524 - doe / 146096) / 365 in
  let doy := doe - (365 * yoe + yoe / 4 - yoe / 100) in
  let mp := (5 * doy + 2) / 153 in
  let d := doy - (153 * mp + 2) / 5 + 1 in
  let m := if mp <? 10 then mp + 3 else mp - 9 in
  (yoe, m, d).

Definition doe_of_civil (yoe m d : Z) : Z :=
  let mp := (m + 9) mod 12 in
  let doy := (153 * mp + 2) / 5 + d - 1 in
  yoe * 365 + yoe / 4 - yoe / 100 + doy.

(** The [dateString] of [handleDateSelect] for a valid date. *)
Definition dateString_of (zone : TimeZone) (ms : Z) : string :=
  pretty (localCivil zone ms).1.1 +:+ "-"
  +:+ padStart2 (pretty (localCivil zone ms).1.2) +:+ "-"
  +:+ padStart2 (pretty (localCivil zone ms).2).

(** Two submitted forms: one with its three fields, the notes left empty,
    and one from which the notes field is missing. *)
Definition filled_form : FormData :=
  [("name", "Leg Day"); ("date", "2025-03-01"); ("notes", "")].

Definition form_without_notes : FormData :=
  [("name", "Leg Day"); ("date", "2025-03-01")].

(** * Properties *)

(** ** Running one statement *)

Lemma head_take_1 {A} (l : list A) : head (take 1 l) = head l.
Proof. by destruct l. Qed.

Lemma execute_run {A} (st : statement) (run : World → A * Database) (w : World) :
  execute st [] run w =
    if faulty w (length (sent w))
    then (Rejected StoreError, log_statement st w)
    else (Fulfilled (run w).1, set_db (run w).2 (log_statement st w)).
Proof.
  unfold execute. destruct (faulty w _); [done|].
  rewrite decide_True by constructor. by destruct (run w).
Qed.

Lemma execute_id_run {A} (st : statement) (workoutId : Z)
    (run : World → A * Database) (w : World) :
  execute st [workoutId] run w =
    if refused w workoutId
    then (Rejected StoreError, log_statement st w)
    else (Fulfilled (run w).1, set_db (run w).2 (log_statement st w)).
Proof.
  unfold execute, refused. destruct (faulty w _); [done|]. cbn [orb].
  destruct (decide (Forall _ _)) as [Hall|Hall].
  - apply (proj1 (Forall_singleton _ _)) in Hall.
    rewrite bool_decide_eq_false_2 by (intros Hno; by apply Hno).
    by destruct (run w).
  - rewrite bool_decide_eq_true_2; [done|].
    intros Hholds. apply Hall. by apply Forall_singleton.
Qed.

Lemma refused_false (w : World) (workoutId : Z) :
  refused w workoutId = false ↔
  faulty w (length (sent w)) = false ∧ column_holds (db w) workoutId.
Proof.
  unfold refused. rewrite orb_false_iff, bool_decide_eq_false. split.
  - intros [Hf Hholds]. split; [done|].
    by destruct (decide (column_holds (db w) workoutId)).
  - intros [Hf Hholds]. split; [done|]. by intros Hno.
Qed.

Lemma stored_column_holds (d : Database) (r : Workout.t) :
  r ∈ workouts d → column_holds d (Workout.id r).
Proof. intros Hr. right. by apply list_elem_of_fmap_2. Qed.

Lemma refused_stored (w : World) (r : Workout.t) :
  r ∈ workouts (db w) → faulty w (length (sent w)) = false →
  refused w (Workout.id r) = false.
Proof. intros Hr Hf. apply refused_false. split; [done|]. by apply stored_column_holds. Qed.

Lemma refused_int4 (w : World) (workoutId : Z) :
  int4 workoutId → refused w workoutId = faulty w (length (sent w)).
Proof.
  intros Hint. unfold refused.
  rewrite bool_decide_eq_false_2; [by rewrite orb_false_r|].
  intros Hno. apply Hno. by left.
Qed.

Lemma getUserWorkout_run (workoutId : Z) (userId : string) (w : World) :
  getUserWorkout workoutId userId w =
    (if refused w workoutId then Rejected StoreError
     else Fulfilled (head (filter (owned workoutId userId) (workouts (db w)))),
     log_statement (Select Tworkouts) w).
Proof.
  unfold getUserWorkout, mbind, Async_bind. rewrite execute_id_run.
  destruct (refused w _); [done|]. cbn. by rewrite head_take_1.
Qed.

Lemma getUserWorkouts_run (userId : string) (w : World) :
  getUserWorkouts userId w =
    (if faulty w (length (sent w)) then Rejected StoreError
     else Fulfilled (orderBy Workout.date
            (filter (fun r => Workout.userId r = userId) (workouts (db w)))),
     log_statement (Select Tworkouts) w).
Proof.
  unfold getUserWorkouts. rewrite execute_run. by destruct (faulty w _).
Qed.

(** The two bounds [getUserWorkoutsByDate] computes for a valid date. *)
Lemma day_bounds (zone : TimeZone) (ms : Z) :
  let local := ms + offsetAt zone ms in
  let midnight := local - local `mod` msPerDay in
  let last := midnight + (msPerDay - 1) in
  startOfDay zone (Instant ms) = Instant (midnight - offsetOfLocal zone midnight)
  ∧ endOfDay zone (Instant ms) = Instant (last - offsetOfLocal zone last).
Proof. done. Qed.

Lemma getUserWorkoutsByDate_run (zone : TimeZone) (userId : string) (ms : Z)
    (w : World) :
  let local := ms + offsetAt zone ms in
  let midnight := local - local `mod` msPerDay in
  let last := midnight + (msPerDay - 1) in
  getUserWorkoutsByDate zone userId (Instant ms) w =
    (if faulty w (length (sent w)) then Rejected StoreError
     else Fulfilled (orderBy Workout.date
            (filter (fun r => Workout.userId r = userId
                       ∧ midnight - offsetOfLocal zone midnight ≤ Workout.date r
                       ∧ Workout.date r ≤ last - offsetOfLocal zone last)
                    (workouts (db w)))),
     log_statement (Select Tworkouts) w).
Proof.
  intros local midnight last.
  unfold getUserWorkoutsByDate, mbind, Async_bind. cbn.
  rewrite execute_run. by destruct (faulty w _).
Qed.

(** In a zone whose clocks never change the bounds are those of the local
    calendar day. *)
Lemma getUserWorkoutsByDate_fixed (tzOffset : Z) (userId : string) (ms : Z)
    (w : World) :
  getUserWorkoutsByDate (fixedZone tzOffset) userId (Instant ms) w =
    (if faulty w (length (sent w)) then Rejected StoreError
     else Fulfilled (orderBy Workout.date
            (filter (fun r => Workout.userId r = userId
                       ∧ (ms + tzOffset) `div` msPerDay * msPerDay - tzOffset
                           ≤ Workout.date r
                       ∧ Workout.date r
                           ≤ (ms + tzOffset) `div` msPerDay * msPerDay - tzOffset
                             + (msPerDay - 1))
                    (workouts (db w)))),
     log_statement (Select Tworkouts) w).
Proof.
  rewrite getUserWorkoutsByDate_run. cbn [fixedZone offsetAt offsetOfLocal].
  destruct (faulty w _); [done|].
  do 2 f_equal. f_equal.
  apply list_filter_iff. intros r.
  pose proof (Z.div_mod (ms + tzOffset) msPerDay ltac:(done)) as E.
  unfold msPerDay in *. intuition lia.
Qed.

Lemma createWorkout_run (data : CreateData.t) (ms : Z) (w : World) :
  CreateData.date data = Instant ms →
  let row := inserted_row w (CreateData.name data) ms (CreateData.notes data)
               (CreateData.userId data) in
  createWorkout data w =
    if faulty w (length (sent w))
    then (Rejected StoreError, log_statement (Insert Tworkouts) w)
    else (Fulfilled (Some row),
          set_db (with_workouts (db w) (workouts (db w) ++ [row])
                    (workouts_id_seq (db w) + 1))
                 (log_statement (Insert Tworkouts) w)).
Proof.
  intros Hdate. unfold createWorkout, mbind, Async_bind. rewrite Hdate. cbn.
  rewrite execute_run. by destruct (faulty w _).
Qed.

Lemma createWorkout_invalid (data : CreateData.t) (w : World) :
  CreateData.date data = InvalidDate →
  createWorkout data w = (Rejected RangeError, w).
Proof. intros Hdate. unfold createWorkout, mbind, Async_bind. by rewrite Hdate. Qed.

Lemma updateWorkout_run (workoutId : Z) (userId : string) (data : UpdateData.t)
    (w : World) :
  UpdateData.date data ≠ Some InvalidDate →
  let f := set_columns (UpdateData.name data) (date_column (UpdateData.date data))
             (UpdateData.notes data) (clock w) in
  updateWorkout workoutId userId data w =
    if refused w workoutId
    then (Rejected StoreError, log_statement (Update Tworkouts) w)
    else (Fulfilled (head (f <$> filter (owned workoutId userId) (workouts (db w)))),
          set_db (with_workouts (db w)
                    (update_where workoutId userId f <$> workouts (db w))
                    (workouts_id_seq (db w)))
                 (log_statement (Update Tworkouts) w)).
Proof.
  intros Hdate. unfold updateWorkout, encode_optional, mbind, Async_bind, newDate.
  destruct (UpdateData.date data) as [[ms|]|]; [| done |];
    cbn [date_column toISOString mret Async_ret]; rewrite execute_id_run;
    by destruct (refused w _).
Qed.

Lemma updateWorkout_invalid (workoutId : Z) (userId : string) (data : UpdateData.t)
    (w : World) :
  UpdateData.date data = Some InvalidDate →
  updateWorkout workoutId userId data w = (Rejected RangeError, w).
Proof.
  intros Hdate. unfold updateWorkout, mbind, Async_bind, newDate. by rewrite Hdate.
Qed.


(** ** The primary key of [workouts] *)

Lemma primary_key_inj (rows : list Workout.t) (x y : Workout.t) :
  NoDup (Workout.id <$> rows) → x ∈ rows → y ∈ rows →
  Workout.id x = Workout.id y → x = y.
Proof.
  induction rows as [|r rows IH]; intros Hnd Hx Hy Hid; [by inversion Hx|].
  cbn in Hnd. apply NoDup_cons in Hnd as [Hr Hnd].
  apply elem_of_cons in Hx as [->|Hx]; apply elem_of_cons in Hy as [->|Hy];
    [done | | | by apply IH].
  - exfalso. apply Hr. rewrite Hid. by apply list_elem_of_fmap_2.
  - exfalso. apply Hr. rewrite <- Hid. by apply list_elem_of_fmap_2.
Qed.

Lemma filter_empty {A} (P : A → Prop) `{∀ x, Decision (P x)} (l : list A) :
  (∀ x, x ∈ l → ¬ P x) → filter P l = [].
Proof.
  intros Hno. destruct (filter P l) as [|x l'] eqn:E; [done|].
  assert (x ∈ filter P l) as Hx by (rewrite E; left).
  apply list_elem_of_filter in Hx as [HP Hx]. by destruct (Hno x Hx).
Qed.

(** Under the primary key, an id owned by [B] selects nothing for any
    other identity. *)
Lemma foreign_id_selects_nothing (d : Database) (r : Workout.t) (A : string) :
  primary_key d → r ∈ workouts d → Workout.userId r ≠ A →
  filter (owned (Workout.id r) A) (workouts d) = [].
Proof.
  intros [Hnd _] Hr HA. apply filter_empty. intros x Hx [Hid Hu].
  apply HA. by rewrite <- (primary_key_inj _ _ _ Hnd Hx Hr Hid).
Qed.

Lemma absent_id_selects_nothing (d : Database) (workoutId : Z) (A : string) :
  (∀ x, x ∈ workouts d → Workout.id x ≠ workoutId) →
  filter (owned workoutId A) (workouts d) = [].
Proof. intros Hno. apply filter_empty. intros x Hx [Hid _]. by apply (Hno x). Qed.

Lemma update_where_nothing (workoutId : Z) (userId : string)
    (f : Workout.t → Workout.t) (rows : list Workout.t) :
  filter (owned workoutId userId) rows = [] →
  update_where workoutId userId f <$> rows = rows.
Proof.
  intros Hnone. rewrite <- (list_fmap_id rows) at 2.
  apply list_fmap_ext. intros i x Hx%list_elem_of_lookup_2.
  unfold update_where. case_decide as Ho; [|done].
  by destruct (filter_nil_not_elem_of _ _ _ Hnone Ho).
Qed.

Lemma owned_selects_itself (d : Database) (r : Workout.t) :
  primary_key d → r ∈ workouts d →
  filter (owned (Workout.id r) (Workout.userId r)) (workouts d) = [r].
Proof.
  intros [Hnd _] Hr. revert Hnd Hr.
  induction (workouts d) as [|x rows IH]; intros Hnd Hr; [by inversion Hr|].
  cbn in Hnd. apply NoDup_cons in Hnd as [Hx Hnd].
  rewrite filter_cons. apply elem_of_cons in Hr as [<-|Hr].
  - rewrite decide_True by done. f_equal. apply filter_empty.
    intros y Hy [Hid _]. apply Hx. rewrite <- Hid. by apply list_elem_of_fmap_2.
  - rewrite decide_False; [by apply IH|].
    intros [Hid _]. apply Hx. rewrite Hid. by apply list_elem_of_fmap_2.
Qed.

Lemma updateWorkout_fulfilled_row (workoutId : Z) (userId : string)
    (data : UpdateData.t) (w : World) (r' : Workout.t) :
  (updateWorkout workoutId userId data w).1 = Fulfilled (Some r') →
  UpdateData.date data ≠ Some InvalidDate
  ∧ ∃ r, r ∈ workouts (db w) ∧ owned workoutId userId r
      ∧ r' = set_columns (UpdateData.name data) (date_column (UpdateData.date data))
               (UpdateData.notes data) (clock w) r
      ∧ r' ∈ workouts (db (updateWorkout workoutId userId data w).2).
Proof.
  destruct (decide (UpdateData.date data = Some InvalidDate)) as [Hd|Hd].
  { by rewrite (updateWorkout_invalid _ _ _ _ Hd). }
  rewrite (updateWorkout_run _ _ _ _ Hd).
  destruct (refused w _); [done|]. cbn [fst snd]. intros Hres.
  destruct (filter _ _) as [|r l] eqn:Hsel; [done|].
  injection Hres as <-. split; [done|].
  assert (r ∈ filter (owned workoutId userId) (workouts (db w))) as Hr
    by (rewrite Hsel; left).
  apply list_elem_of_filter in Hr as [Ho Hr].
  exists r. split; [done|]. split; [done|]. split; [done|].
  cbn. apply list_elem_of_fmap. exists r. split; [|done].
  unfold update_where. by rewrite decide_True.
Qed.

Lemma gym_primary_key : primary_key gym.
Proof.
  split; compute_done.
Qed.


(** ** The primary key is an invariant of the data-access functions *)

Lemma update_where_id (workoutId : Z) (userId : string)
    (name : option string) (date : option Z) (notes : option string)
    (updatedAt : Z) (rows : list Workout.t) :
  Workout.id <$> (update_where workoutId userId
                    (set_columns name date notes updatedAt) <$> rows)
  = Workout.id <$> rows.
Proof.
  rewrite <- list_fmap_compose. apply list_fmap_ext. intros i r _. cbn.
  unfold update_where. by case_decide.
Qed.

Lemma update_where_userId (workoutId : Z) (userId : string)
    (name : option string) (date : option Z) (notes : option string)
    (updatedAt : Z) (rows : list Workout.t) :
  Workout.userId <$> (update_where workoutId userId
                        (set_columns name date notes updatedAt) <$> rows)
  = Workout.userId <$> rows.
Proof.
  rewrite <- list_fmap_compose. apply list_fmap_ext. intros i r _. cbn.
  unfold update_where. by case_decide.
Qed.

Lemma update_where_createdAt (workoutId : Z) (userId : string)
    (name : option string) (date : option Z) (notes : option string)
    (updatedAt : Z) (rows : list Workout.t) :
  Workout.createdAt <$> (update_where workoutId userId
                           (set_columns name date notes updatedAt) <$> rows)
  = Workout.createdAt <$> rows.
Proof.
  rewrite <- list_fmap_compose. apply list_fmap_ext. intros i r _. cbn.
  unfold update_where. by case_decide.
Qed.

Lemma primary_key_empty (w : World) :
  workouts (db w) = [] → 0 ≤ workouts_id_seq (db w) → primary_key (db w).
Proof. intros Hnil _. split; rewrite Hnil; constructor. Qed.

Lemma primary_key_createWorkout (data : CreateData.t) (w : World) :
  primary_key (db w) → primary_key (db (createWorkout data w).2).
Proof.
  intros [Hnd Hlt]. destruct (CreateData.date data) as [ms|] eqn:Hdate.
  - rewrite (createWorkout_run _ _ _ Hdate).
    destruct (faulty w _); [by split|]. split; cbn.
    + rewrite fmap_app. apply NoDup_app. split; [done|]. split.
      * intros i Hi Hin. apply list_elem_of_singleton in Hin as ->.
        apply list_elem_of_fmap in Hi as [x [Hx Hin]].
        rewrite Forall_forall in Hlt. specialize (Hlt x Hin). cbn in Hx. lia.
      * apply NoDup_singleton.
    + apply Forall_app. split.
      * eapply Forall_impl; [exact Hlt|]. intros x Hx. cbn in Hx. lia.
      * constructor; [cbn; lia | constructor].
  - rewrite (createWorkout_invalid _ _ Hdate). by split.
Qed.

Lemma primary_key_updateWorkout (workoutId : Z) (userId : string)
    (data : UpdateData.t) (w : World) :
  primary_key (db w) → primary_key (db (updateWorkout workoutId userId data w).2).
Proof.
  intros [Hnd Hlt].
  destruct (decide (UpdateData.date data = Some InvalidDate)) as [Hd|Hd].
  - rewrite (updateWorkout_invalid _ _ _ _ Hd). by split.
  - rewrite (updateWorkout_run _ _ _ _ Hd).
    destruct (refused w _); [by split|]. split; cbn.
    + by rewrite update_where_id.
    + apply Forall_fmap. eapply Forall_impl; [exact Hlt|].
      intros x Hx. cbn. unfold update_where. by case_decide.
Qed.


(** ** [ORDER BY] sorts and keeps every row *)

Global Instance key_le_total {A} (key : A → Z) : Total (key_le key).
Proof. intros a b. unfold key_le. lia. Qed.

Global Instance key_le_trans {A} (key : A → Z) : Transitive (key_le key).
Proof. intros a b c. unfold key_le. lia. Qed.

Lemma orderBy_sorted {A} (key : A → Z) (rows : list A) :
  StronglySorted (key_le key) (orderBy key rows).
Proof. unfold orderBy. apply StronglySorted_merge_sort; apply _. Qed.

Lemma orderBy_Permutation {A} (key : A → Z) (rows : list A) :
  orderBy key rows ≡ₚ rows.
Proof. unfold orderBy. apply merge_sort_Permutation. Qed.

Lemma orderBy_elem_of {A} (key : A → Z) (rows : list A) (x : A) :
  x ∈ orderBy key rows ↔ x ∈ rows.
Proof. unfold orderBy. by rewrite merge_sort_Permutation. Qed.


(** ** Running the aggregate fetch *)

Lemma exerciseWithSets_run (e : Exercise.t) (w : World) :
  exerciseWithSets e w =
    (if faulty w (length (sent w)) then Rejected StoreError
     else Fulfilled (mkExerciseWithSets e (sets_of (db w) e)),
     log_statement (Select Tsets) w).
Proof.
  unfold exerciseWithSets, mbind, Async_bind. rewrite execute_run.
  by destruct (faulty w _).
Qed.

Lemma log_statement_length (st : statement) (w : World) :
  length (sent (log_statement st w)) = S (length (sent w)).
Proof. cbn. rewrite length_app. cbn. lia. Qed.

Lemma log_statements_db (sts : list statement) (w : World) :
  db (log_statements sts w) = db w.
Proof.
  revert w. induction sts as [|st sts IH]; intros w; [done|].
  change (db (log_statements sts (log_statement st w)) = db w). by rewrite IH.
Qed.

Lemma log_statements_sent (sts : list statement) (w : World) :
  sent (log_statements sts w) = sent w ++ sts.
Proof.
  revert w. induction sts as [|st sts IH]; intros w; [by rewrite app_nil_r|].
  change (sent (log_statements sts (log_statement st w)) = sent w ++ st :: sts).
  rewrite IH. cbn. by rewrite <- app_assoc.
Qed.

Lemma any_faulty_true (w : World) (from count : nat) :
  any_faulty w from count = true ↔
  ∃ k, (k < count)%nat ∧ faulty w (from + k) = true.
Proof.
  unfold any_faulty. rewrite existsb_exists. split.
  - intros (x & Hx%in_seq & Hf). exists (x - from)%nat.
    split; [lia|]. by replace (from + (x - from))%nat with x by lia.
  - intros (k & Hk & Hf). exists (from + k)%nat. split; [|done].
    apply in_seq. lia.
Qed.

Lemma Promise_all_exerciseWithSets (es : list Exercise.t) (w : World) :
  Promise_all (exerciseWithSets <$> es) w =
    (if any_faulty w (length (sent w)) (length es) then Rejected StoreError
     else Fulfilled ((fun e => mkExerciseWithSets e (sets_of (db w) e)) <$> es),
     log_statements (replicate (length es) (Select Tsets)) w).
Proof.
  revert w. induction es as [|e es IH]; intros w; [done|].
  cbn [fmap list_fmap Promise_all].
  change (list_fmap _ _ exerciseWithSets es) with (exerciseWithSets <$> es).
  rewrite exerciseWithSets_run, IH, log_statement_length.
  unfold any_faulty. cbn [length seq existsb replicate log_statements foldl].
  change (faulty (log_statement (Select Tsets) w)) with (faulty w).
  change (db (log_statement (Select Tsets) w)) with (db w).
  destruct (faulty w (length (sent w))); [by destruct (existsb _ _)|].
  by destruct (existsb _ _).
Qed.

Lemma getUserWorkoutWithExercises_run (workoutId : Z) (userId : string) (w : World) :
  let n := length (sent w) in
  let w1 := log_statement (Select Tworkouts) w in
  let w2 := log_statement (Select Texercises) w1 in
  let es := exercises_of (db w) workoutId in
  getUserWorkoutWithExercises workoutId userId w =
    if refused w workoutId then (Rejected StoreError, w1)
    else match head (filter (owned workoutId userId) (workouts (db w))) with
         | None => (Fulfilled None, w1)
         | Some workout0 =>
             if faulty w (S n) then (Rejected StoreError, w2)
             else (if any_faulty w (S (S n)) (length es) then Rejected StoreError
                   else Fulfilled (Some (mkWorkoutWithExercises workout0
                          ((fun e => mkExerciseWithSets e (sets_of (db w) e)) <$> es))),
                   log_statements (replicate (length es) (Select Tsets)) w2)
         end.
Proof.
  intros n w1 w2 es.
  unfold getUserWorkoutWithExercises, mbind, Async_bind. rewrite execute_id_run.
  destruct (refused w workoutId) eqn:F0; [done|].
  apply refused_false in F0 as [F0 Hholds].
  cbn [fst snd]. rewrite head_take_1.
  destruct (head _) as [workout0|]; [|done].
  change (set_db (db w) (log_statement (Select Tworkouts) w)) with w1.
  rewrite execute_id_run. cbn [fst snd].
  assert (refused w1 workoutId = faulty w (S n)) as ->.
  { unfold refused. change (db w1) with (db w). change (faulty w1) with (faulty w).
    unfold w1. rewrite (log_statement_length _ w). fold n.
    rewrite bool_decide_eq_false_2; [by rewrite orb_false_r|].
    intros Hno. by apply Hno. }
  destruct (faulty w (S n)) eqn:F1; [done|].
  change (set_db (db w1) (log_statement (Select Texercises) w1)) with w2.
  change (db w1) with (db w).
  fold (exercises_of (db w) workoutId). fold es.
  rewrite Promise_all_exerciseWithSets.
  change (db w2) with (db w). change (faulty w2) with (faulty w).
  replace (length (sent w2)) with (S (S n))
    by (unfold w2, w1; by rewrite !log_statement_length).
  change (any_faulty w2) with (any_faulty w).
  by destruct (any_faulty w _ _).
Qed.

Lemma getUserWorkoutWithExercises_db (workoutId : Z) (userId : string) (w : World) :
  db (getUserWorkoutWithExercises workoutId userId w).2 = db w.
Proof.
  rewrite getUserWorkoutWithExercises_run.
  destruct (refused w _); [done|]. destruct (head _); [|done].
  destruct (faulty w _); [done|]. cbn. by rewrite log_statements_db.
Qed.


(** ** Every data-access function is tenant-scoped *)

Lemma others_update_where (workoutId : Z) (A : string) (f : Workout.t → Workout.t)
    (rows : list Workout.t) :
  (∀ r, Workout.userId (f r) = Workout.userId r) →
  filter (fun r => Workout.userId r ≠ A) (update_where workoutId A f <$> rows)
  = filter (fun r => Workout.userId r ≠ A) rows.
Proof.
  intros Hf. induction rows as [|r rows IH]; [done|].
  rewrite fmap_cons, !filter_cons, IH. unfold update_where.
  destruct (decide (owned workoutId A r)) as [[_ Hu]|_]; [|done].
  rewrite Hf. by repeat case_decide.
Qed.

Lemma getUserWorkout_scoped (workoutId : Z) (A : string) :
  tenant_scoped A one_row (getUserWorkout workoutId A).
Proof.
  split; intros w.
  - intros t w' Hrun r Hr. rewrite getUserWorkout_run in Hrun.
    destruct (refused w _); [done|]. injection Hrun as <- _.
    destruct (head _) as [x|] eqn:Hhead; [|by inversion Hr].
    apply list_elem_of_singleton in Hr as ->.
    apply head_Some_elem_of, list_elem_of_filter in Hhead as [[_ Hu] _]. done.
  - by rewrite getUserWorkout_run.
Qed.

Lemma getUserWorkouts_scoped (A : string) :
  tenant_scoped A (fun rows => rows) (getUserWorkouts A).
Proof.
  split; intros w.
  - intros t w' Hrun r Hr. rewrite getUserWorkouts_run in Hrun.
    destruct (faulty w _); [done|]. injection Hrun as <- _.
    by apply orderBy_elem_of, list_elem_of_filter in Hr as [Hu _].
  - by rewrite getUserWorkouts_run.
Qed.

Lemma getUserWorkoutsByDate_scoped (zone : TimeZone) (A : string) (date : JsDate) :
  tenant_scoped A (fun rows => rows) (getUserWorkoutsByDate zone A date).
Proof.
  destruct date as [ms|].
  - split; intros w.
    + intros t w' Hrun r Hr. rewrite getUserWorkoutsByDate_run in Hrun.
      cbn zeta in Hrun.
      destruct (faulty w _); [done|]. injection Hrun as <- _.
      by apply orderBy_elem_of, list_elem_of_filter in Hr as [[Hu _] _].
    + by rewrite getUserWorkoutsByDate_run.
  - split; intros w; [intros t w' Hrun; discriminate Hrun | done].
Qed.

Lemma getUserWorkoutWithExercises_scoped (workoutId : Z) (A : string) :
  tenant_scoped A aggregate_row (getUserWorkoutWithExercises workoutId A).
Proof.
  split; intros w.
  - intros t w' Hrun r Hr. rewrite getUserWorkoutWithExercises_run in Hrun.
    destruct (refused w _); [done|].
    destruct (head _) as [workout0|] eqn:Hhead.
    + destruct (faulty w _); [done|]. destruct (any_faulty w _ _); [done|].
      injection Hrun as <- _. cbn in Hr.
      apply list_elem_of_singleton in Hr as ->.
      by apply head_Some_elem_of, list_elem_of_filter in Hhead as [[_ Hu] _].
    + injection Hrun as <- _. by inversion Hr.
  - by rewrite getUserWorkoutWithExercises_db.
Qed.

Lemma createWorkout_scoped (data : CreateData.t) :
  tenant_scoped (CreateData.userId data) one_row (createWorkout data).
Proof.
  destruct (CreateData.date data) as [ms|] eqn:Hdate.
  - split; intros w.
    + intros t w' Hrun r Hr. rewrite (createWorkout_run _ _ _ Hdate) in Hrun.
      destruct (faulty w _); [done|]. injection Hrun as <- _.
      by apply list_elem_of_singleton in Hr as ->.
    + rewrite (createWorkout_run _ _ _ Hdate).
      destruct (faulty w _); [done|]. unfold others. cbn.
      rewrite filter_app, filter_cons. cbn.
      case_decide; [done|]. by rewrite app_nil_r.
  - split; intros w; rewrite (createWorkout_invalid _ _ Hdate); [done..].
Qed.

Lemma updateWorkout_scoped (workoutId : Z) (A : string) (data : UpdateData.t) :
  tenant_scoped A one_row (updateWorkout workoutId A data).
Proof.
  destruct (decide (UpdateData.date data = Some InvalidDate)) as [Hdate|Hdate].
  - split; intros w; rewrite (updateWorkout_invalid _ _ _ _ Hdate); [done..].
  - split; intros w.
    + intros t w' Hrun r Hr. rewrite (updateWorkout_run _ _ _ _ Hdate) in Hrun.
      destruct (refused w _); [done|]. injection Hrun as <- _.
      destruct (filter _ _) as [|x l] eqn:Hsel; [by inversion Hr|].
      cbn in Hr. apply list_elem_of_singleton in Hr as ->. cbn.
      assert (x ∈ filter (owned workoutId A) (workouts (db w))) as Hx
        by (rewrite Hsel; left).
      by apply list_elem_of_filter in Hx as [[_ Hu] _].
    + rewrite (updateWorkout_run _ _ _ _ Hdate).
      destruct (refused w _); [done|]. unfold others. cbn.
      by apply others_update_where.
Qed.


(** ** Validation: what each schema reports and accepts *)

Lemma z_string_reports (key : string) (min max : option (nat * string)) (v : value) :
  reports key (z_string key min max v).
Proof.
  destruct v as [| |s|q|]; cbn; try (split; [done|by repeat constructor]).
  destruct min as [[n message]|], max as [[n' message']|];
    repeat case_match; simplify_eq/=; try done;
    split; try done; by repeat constructor.
Qed.

Lemma z_optional_reports {A} (key : string) (schema : value → checked A) (v : value) :
  (∀ v', reports key (schema v')) → reports key (z_optional schema v).
Proof.
  intros Hschema. destruct v; cbn; try done;
    match goal with |- context [schema ?x] =>
      specialize (Hschema x); by destruct (schema x) end.
Qed.

Lemma z_number_int_positive_reports (key : string) (v : value) :
  reports key (z_number_int_positive key v).
Proof.
  destruct v as [| |s|q|]; cbn; try (split; [done|by repeat constructor]).
  repeat case_match; simplify_eq/=; try done;
    split; try done; by repeat constructor.
Qed.

Lemma reports_paths {A} (key : string) (c : checked A) (k : string) :
  reports key c → k ∈ issue_path <$> issues_of c ↔ k = key ∧ fails c.
Proof.
  destruct c as [issues|a]; cbn.
  - intros [Hne Hall]. split.
    + intros (i & -> & Hi)%list_elem_of_fmap. rewrite Forall_forall in Hall.
      split; [by apply Hall | done].
    + intros [-> _]. destruct issues as [|i issues]; [done|].
      apply Forall_cons in Hall as [<- _]. cbn. left.
  - intros _. split; [by intros ?%elem_of_nil | by intros [_ []]].
Qed.

Lemma createWorkoutSchema_issues (input : Input.t) (issues : list issue) :
  createWorkoutSchema input = inl issues →
  issues ≠ []
  ∧ issues = issues_of (name_schema (Input.name input))
             ++ issues_of (date_schema (Input.date input))
             ++ issues_of (notes_schema (Input.notes input)).
Proof.
  unfold createWorkoutSchema.
  pose proof (z_string_reports "name" (Some (1%nat, "Name is required"))
                (Some (255%nat, "Name too long")) (Input.name input)) as Hn.
  pose proof (z_string_reports "date" (Some (1%nat, "Date is required")) None
                (Input.date input)) as Hd.
  pose proof (z_optional_reports "notes" _ (Input.notes input)
                (z_string_reports "notes" None (Some (1000%nat, "Notes too long"))))
    as Ho.
  fold name_schema in Hn. fold date_schema in Hd. fold notes_schema in Ho.
  destruct (name_schema _) as [n|n], (date_schema _) as [d|d],
    (notes_schema _) as [o|o]; cbn in *; intros [= <-]; (split; [|done]).
  all: repeat match goal with H : _ ≠ [] ∧ _ |- _ => destruct H as [? _] end.
  all: intros Hnil; repeat (apply app_eq_nil in Hnil as [? Hnil]); done.
Qed.

Lemma updateWorkoutSchema_issues (input : Input.t) (issues : list issue) :
  updateWorkoutSchema input = inl issues →
  issues ≠ []
  ∧ issues = issues_of (z_number_int_positive "id" (Input.id input))
             ++ issues_of (name_schema (Input.name input))
             ++ issues_of (date_schema (Input.date input))
             ++ issues_of (notes_schema (Input.notes input)).
Proof.
  unfold updateWorkoutSchema.
  pose proof (z_number_int_positive_reports "id" (Input.id input)) as Hi.
  pose proof (z_string_reports "name" (Some (1%nat, "Name is required"))
                (Some (255%nat, "Name too long")) (Input.name input)) as Hn.
  pose proof (z_string_reports "date" (Some (1%nat, "Date is required")) None
                (Input.date input)) as Hd.
  pose proof (z_optional_reports "notes" _ (Input.notes input)
                (z_string_reports "notes" None (Some (1000%nat, "Notes too long"))))
    as Ho.
  fold name_schema in Hn. fold date_schema in Hd. fold notes_schema in Ho.
  destruct (z_number_int_positive _ _) as [i|i], (name_schema _) as [n|n],
    (date_schema _) as [d|d], (notes_schema _) as [o|o];
    cbn in *; intros [= <-]; (split; [|done]).
  all: repeat match goal with H : _ ≠ [] ∧ _ |- _ => destruct H as [? _] end.
  all: intros Hnil; repeat (apply app_eq_nil in Hnil as [? Hnil]); done.
Qed.

Lemma z_string_accepts (key : string) (min max : option (nat * string))
    (v : value) (s : string) :
  z_string key min max v = inr s ↔
  v = VString s
  ∧ (∀ n message, min = Some (n, message) → (n ≤ String.length s)%nat)
  ∧ (∀ n message, max = Some (n, message) → (String.length s ≤ n)%nat).
Proof.
  destruct v as [| |s'|q|]; try (split; [done | by intros [? _]]).
  unfold z_string.
  match goal with |- context [?a ++ ?b] => set (small := a); set (big := b) end.
  assert (small = [] ↔
          ∀ n message, min = Some (n, message) → (n ≤ String.length s')%nat) as Hs.
  { unfold small. destruct min as [[n message]|]; [|by split].
    destruct (String.length s' <? n)%nat eqn:E.
    - apply Nat.ltb_lt in E. split; [done|].
      intros Hmin. specialize (Hmin _ _ eq_refl). lia.
    - apply Nat.ltb_ge in E. split; [|done]. by intros _ ? ? [= <- <-]. }
  assert (big = [] ↔
          ∀ n message, max = Some (n, message) → (String.length s' ≤ n)%nat) as Hb.
  { unfold big. destruct max as [[n message]|]; [|by split].
    destruct (n <? String.length s')%nat eqn:E.
    - apply Nat.ltb_lt in E. split; [done|].
      intros Hmax. specialize (Hmax _ _ eq_refl). lia.
    - apply Nat.ltb_ge in E. split; [|done]. by intros _ ? ? [= <- <-]. }
  clearbody small big.
  destruct small as [|i small]; cbn.
  - destruct big as [|i big]; cbn.
    + split; [intros [= ->]; split; [done|]; split; [by apply Hs | by apply Hb]|].
      by intros ([= ->] & _).
    + split; [done|]. intros ([= ->] & _ & Hmax). by apply Hb in Hmax.
  - split; [done|]. intros ([= ->] & Hmin & _). by apply Hs in Hmin.
Qed.

Lemma z_number_int_positive_accepts (key : string) (v : value) (z : Z) :
  z_number_int_positive key v = inr z ↔
  ∃ q, v = VNumber q ∧ isInteger q = true ∧ 0 < Qnum q
       ∧ z = Qnum q `div` Z.pos (Qden q).
Proof.
  destruct v as [| |s|q|]; cbn; try (split; [done | by intros (? & ? & _)]).
  destruct (isInteger q) eqn:Hint, (0 <? Qnum q) eqn:Hpos; cbn.
  - apply Z.ltb_lt in Hpos. split.
    + intros [= <-]. by exists q.
    + by intros (q' & [= <-] & _ & _ & ->).
  - apply Z.ltb_ge in Hpos. split; [done|].
    intros (q' & [= <-] & _ & ? & _). lia.
  - split; [done|]. intros (q' & [= <-] & ? & _). congruence.
  - split; [done|]. intros (q' & [= <-] & ? & _). congruence.
Qed.

Lemma notes_schema_accepts (v : value) (o : option string) :
  notes_schema v = inr o ↔
  (v = VUndefined ∧ o = None)
  ∨ ∃ s, v = VString s ∧ o = Some s ∧ (String.length s ≤ 1000)%nat.
Proof.
  unfold notes_schema, z_optional.
  destruct v as [| |s|q|];
    try (split; [done | by intros [[? _]|(? & ? & _)]]).
  - split; [intros [= <-]; by left | by intros [[_ ->]|(? & ? & _)]].
  - destruct (z_string "notes" None (Some (1000%nat, "Notes too long")) (VString s))
      as [issues|s'] eqn:E.
    + split; [done|]. intros [[? _]|(s' & [= <-] & -> & Hlen)]; [done|].
      assert (z_string "notes" None (Some (1000%nat, "Notes too long")) (VString s)
              = inr s) as E'.
      { apply z_string_accepts. split; [done|]. split; [done|].
        by intros ? ? [= <- <-]. }
      congruence.
    + apply z_string_accepts in E as ([= <-] & _ & Hmax).
      specialize (Hmax _ _ eq_refl).
      split; [intros [= <-]; right; by exists s|].
      by intros [[? _]|(s' & [= <-] & -> & _)].
Qed.

Lemma updateWorkoutSchema_accepts (input : Input.t) (data : UpdateInput.t) :
  updateWorkoutSchema input = inr data ↔
  z_number_int_positive "id" (Input.id input) = inr (UpdateInput.id data)
  ∧ name_schema (Input.name input) = inr (UpdateInput.name data)
  ∧ date_schema (Input.date input) = inr (UpdateInput.date data)
  ∧ notes_schema (Input.notes input) = inr (UpdateInput.notes data).
Proof.
  unfold updateWorkoutSchema.
  destruct (z_number_int_positive _ _) as [i|i], (name_schema _) as [n|n],
    (date_schema _) as [d|d], (notes_schema _) as [o|o]; destruct data;
    cbn; split; try done; try (by intros (? & ? & ? & ?)).
  - by intros [= -> -> -> ->].
  - by intros ([= ->] & [= ->] & [= ->] & [= ->]).
Qed.

Lemma try_catch_returns (body : Async ActionResult) (message : string) (w : World) :
  ∃ result,
    (try_catch body (fun _ => mret (Failure message)) w).1 = Fulfilled result.
Proof. unfold try_catch. destruct (body w) as [[a|e] w']; by eexists. Qed.

Lemma updateWorkoutAction_success (dateFromString : string → JsDate)
    (input : Input.t) (w : World) (r' : Workout.t) :
  (updateWorkoutAction dateFromString input w).1 = Fulfilled (Success (Some r')) →
  ∃ data userId,
    updateWorkoutSchema input = inr data
    ∧ truthy (session w) = Some userId
    ∧ (updateWorkout (UpdateInput.id data) userId
         {| UpdateData.name := Some (UpdateInput.name data);
            UpdateData.date :=
              Some (dateFromString (UpdateInput.date data +:+ "T00:00:00"));
            UpdateData.notes := UpdateInput.notes data |} w).1
      = Fulfilled (Some r').
Proof.
  unfold updateWorkoutAction, parse, mbind, Async_bind.
  destruct (updateWorkoutSchema input) as [issues|data]; [done|]. cbn.
  destruct (truthy (session w)) as [userId|]; [|done].
  unfold try_catch. intros Hrun. exists data, userId.
  split; [done|]. split; [done|].
  destruct (updateWorkout _ _ _ w) as [[[row|]|e] w']; cbn in *; [|done..].
  by injection Hrun as ->.
Qed.


(** ** C1: tenant isolation *)

(** C1.  Let [r] be a stored workout whose [userId] is not [A].  Then
    [getUserWorkout (id r) A] is never fulfilled with a row, is fulfilled
    with [null] whenever the store answers, and leaves the database as it
    was; [updateWorkout (id r) A data] is never fulfilled with a row, is
    fulfilled with [undefined] (not found) whenever the store answers and
    [data.date] is a valid date, and leaves the table, hence [r], entirely
    unchanged.  Moreover every data-access function, called for any
    identity, is tenant-scoped: the workouts it returns are owned by that
    identity and the rows of every other owner are untouched. *)
Theorem isolation (w : World) (r : Workout.t) (A : string) (data : UpdateData.t) :
  primary_key (db w) → r ∈ workouts (db w) → Workout.userId r ≠ A →
  ((∀ x, (getUserWorkout (Workout.id r) A w).1 ≠ Fulfilled (Some x))
   ∧ (faulty w (length (sent w)) = false →
      (getUserWorkout (Workout.id r) A w).1 = Fulfilled None)
   ∧ db (getUserWorkout (Workout.id r) A w).2 = db w)
  ∧ ((∀ x, (updateWorkout (Workout.id r) A data w).1 ≠ Fulfilled (Some x))
     ∧ (faulty w (length (sent w)) = false →
        UpdateData.date data ≠ Some InvalidDate →
        (updateWorkout (Workout.id r) A data w).1 = Fulfilled None)
     ∧ db (updateWorkout (Workout.id r) A data w).2 = db w
     ∧ r ∈ workouts (db (updateWorkout (Workout.id r) A data w).2))
  ∧ (∀ (B : string) (workoutId : Z) (zone : TimeZone) (date : JsDate)
       (created : CreateData.t) (patch : UpdateData.t),
       tenant_scoped B (fun rows => rows) (getUserWorkouts B)
       ∧ tenant_scoped B (fun rows => rows) (getUserWorkoutsByDate zone B date)
       ∧ tenant_scoped B aggregate_row (getUserWorkoutWithExercises workoutId B)
       ∧ tenant_scoped (CreateData.userId created) one_row (createWorkout created)
       ∧ tenant_scoped B one_row (updateWorkout workoutId B patch)
       ∧ tenant_scoped B one_row (getUserWorkout workoutId B)).
Proof.
  intros Hpk Hr HA.
  pose proof (foreign_id_selects_nothing _ _ _ Hpk Hr HA) as Hnone.
  assert (db (updateWorkout (Workout.id r) A data w).2 = db w) as Hdb.
  { destruct (decide (UpdateData.date data = Some InvalidDate)) as [Hd|Hd].
    - by rewrite (updateWorkout_invalid _ _ _ _ Hd).
    - rewrite (updateWorkout_run _ _ _ _ Hd). destruct (refused w _); [done|].
      cbn. rewrite (update_where_nothing _ _ _ _ Hnone). by destruct (db w). }
  split; [|split].
  - rewrite getUserWorkout_run, Hnone. cbn.
    split; [|split]; [| |done].
    + intros x. by destruct (refused w _).
    + intros Hf. by rewrite (refused_stored _ _ Hr Hf).
  - split; [|split; [|split]]; [| |done|by rewrite Hdb].
    + intros x.
      destruct (decide (UpdateData.date data = Some InvalidDate)) as [Hd|Hd].
      * by rewrite (updateWorkout_invalid _ _ _ _ Hd).
      * rewrite (updateWorkout_run _ _ _ _ Hd), Hnone.
        by destruct (refused w _).
    + intros Hf Hd.
      by rewrite (updateWorkout_run _ _ _ _ Hd), (refused_stored _ _ Hr Hf), Hnone.
  - intros B workoutId zone date created patch.
    repeat split.
    all: first [ apply getUserWorkouts_scoped | apply getUserWorkoutsByDate_scoped
               | apply getUserWorkoutWithExercises_scoped | apply createWorkout_scoped
               | apply updateWorkout_scoped | apply getUserWorkout_scoped ].
Qed.

Lemma isolation_witness :
  primary_key (db (request gym (Some alice) 1740900000000))
  ∧ late_run ∈ workouts (db (request gym (Some alice) 1740900000000))
  ∧ Workout.userId late_run ≠ alice
  ∧ (getUserWorkout 2 alice (request gym (Some alice) 1740900000000)).1
    = Fulfilled None
  ∧ db (updateWorkout 2 alice no_fields (request gym (Some alice) 1740900000000)).2
    = gym.
Proof.
  assert (late_run ∈ workouts gym) as Hin by (right; left).
  assert (Workout.userId late_run ≠ alice) as Hne by done.
  pose proof (isolation (request gym (Some alice) 1740900000000) late_run alice
                no_fields gym_primary_key Hin Hne) as [[_ [Hget _]] [[_ [_ [Hdb _]]] _]].
  split; [exact gym_primary_key|]. split; [exact Hin|]. split; [exact Hne|].
  split; [by apply Hget | exact Hdb].
Defined.


(** ** C2: a foreign id and an absent id cannot be told apart *)

(** C2, as the code has it.  Let [id1] be a 32-bit integer that is the id
    of no workout and [id2] the id of a workout owned by somebody other than
    [A].  Then [getUserWorkout id1 A] and [getUserWorkout id2 A] settle
    identically and leave identical worlds, and so do
    [updateWorkout id1 A data] and [updateWorkout id2 A data]; whenever the
    store answers (and [data.date] is a valid date) all four are fulfilled
    with the bare not-found value. *)
Theorem not_found_indistinguishable (w : World) (A : string) (id1 id2 : Z)
    (r : Workout.t) (data : UpdateData.t) :
  primary_key (db w) →
  int4 id1 →
  (∀ x, x ∈ workouts (db w) → Workout.id x ≠ id1) →
  r ∈ workouts (db w) → Workout.id r = id2 → Workout.userId r ≠ A →
  getUserWorkout id1 A w = getUserWorkout id2 A w
  ∧ updateWorkout id1 A data w = updateWorkout id2 A data w
  ∧ (faulty w (length (sent w)) = false →
     (getUserWorkout id1 A w).1 = Fulfilled None
     ∧ (getUserWorkout id2 A w).1 = Fulfilled None)
  ∧ (faulty w (length (sent w)) = false →
     UpdateData.date data ≠ Some InvalidDate →
     (updateWorkout id1 A data w).1 = Fulfilled None
     ∧ (updateWorkout id2 A data w).1 = Fulfilled None).
Proof.
  intros Hpk Hint Habsent Hr <- HA.
  pose proof (foreign_id_selects_nothing _ _ _ Hpk Hr HA) as H2.
  pose proof (absent_id_selects_nothing _ _ A Habsent) as H1.
  assert (refused w id1 = refused w (Workout.id r)) as Hsame.
  { rewrite (refused_int4 _ _ Hint). unfold refused.
    rewrite bool_decide_eq_false_2; [by rewrite orb_false_r|].
    intros Hno. by apply Hno, stored_column_holds. }
  assert (updateWorkout id1 A data w = updateWorkout (Workout.id r) A data w) as Hupd.
  { destruct (decide (UpdateData.date data = Some InvalidDate)) as [Hd|Hd].
    - by rewrite !(updateWorkout_invalid _ _ _ _ Hd).
    - rewrite !(updateWorkout_run _ _ _ _ Hd), H1, H2, Hsame.
      by rewrite !update_where_nothing. }
  split; [by rewrite !getUserWorkout_run, H1, H2, Hsame|].
  split; [exact Hupd|]. split.
  - intros Hf.
    by rewrite !getUserWorkout_run, Hsame, (refused_stored _ _ Hr Hf), H1, H2.
  - intros Hf Hd. rewrite <- Hupd.
    by rewrite (updateWorkout_run _ _ _ _ Hd), Hsame, (refused_stored _ _ Hr Hf), H1.
Qed.

Lemma not_found_indistinguishable_witness :
  primary_key (db (request gym (Some alice) 1740900000000))
  ∧ int4 7
  ∧ (∀ x, x ∈ workouts (db (request gym (Some alice) 1740900000000)) →
          Workout.id x ≠ 7)
  ∧ late_run ∈ workouts (db (request gym (Some alice) 1740900000000))
  ∧ Workout.id late_run = 2
  ∧ Workout.userId late_run ≠ alice
  ∧ getUserWorkout 7 alice (request gym (Some alice) 1740900000000)
    = getUserWorkout 2 alice (request gym (Some alice) 1740900000000)
  ∧ updateWorkout 7 alice no_fields (request gym (Some alice) 1740900000000)
    = updateWorkout 2 alice no_fields (request gym (Some alice) 1740900000000).
Proof.
  assert (int4 7) as Hint by (unfold int4; lia).
  assert (∀ x, x ∈ workouts gym → Workout.id x ≠ 7) as Habsent.
  { intros x Hx. apply elem_of_cons in Hx as [->|Hx]; [done|].
    apply list_elem_of_singleton in Hx as ->. done. }
  assert (late_run ∈ workouts gym) as Hin by (right; left).
  assert (Workout.userId late_run ≠ alice) as Hne by done.
  pose proof (not_found_indistinguishable (request gym (Some alice) 1740900000000)
                alice 7 2 late_run no_fields gym_primary_key Hint Habsent Hin eq_refl
                Hne)
    as [Hget [Hupd _]].
  split; [exact gym_primary_key|]. split; [exact Hint|]. split; [exact Habsent|].
  split; [exact Hin|]. split; [reflexivity|]. split; [exact Hne|].
  split; [exact Hget | exact Hupd].
Defined.

(** C2 as stated fails: [id1] = 2 147 483 648 is the id of no workout, and
    the store rejects the statement that carries it, because the value does
    not fit the [integer] column, while for the id of Bob's workout Alice
    gets the bare not-found value.  The two results differ. *)
Lemma id_beyond_the_column_is_told_apart :
  let w := request gym (Some alice) 1740900000000 in
  primary_key (db w)
  ∧ (∀ x, x ∈ workouts (db w) → Workout.id x ≠ 2147483648)
  ∧ late_run ∈ workouts (db w) ∧ Workout.id late_run = 2
  ∧ Workout.userId late_run ≠ alice
  ∧ faulty w (length (sent w)) = false
  ∧ (getUserWorkout 2147483648 alice w).1 = Rejected StoreError
  ∧ (getUserWorkout 2 alice w).1 = Fulfilled None
  ∧ getUserWorkout 2147483648 alice w ≠ getUserWorkout 2 alice w
  ∧ (updateWorkout 2147483648 alice no_fields w).1 = Rejected StoreError
  ∧ (updateWorkout 2 alice no_fields w).1 = Fulfilled None
  ∧ updateWorkout 2147483648 alice no_fields w ≠ updateWorkout 2 alice no_fields w.
Proof.
  cbn zeta. split; [exact gym_primary_key|]. split.
  { intros x Hx. apply elem_of_cons in Hx as [->|Hx]; [done|].
    apply list_elem_of_singleton in Hx as ->. done. }
  split; [by right; left|]. by repeat split.
Qed.


(** ** C3: what the server actions give back *)

(** C3, as the code has it.  Each server action first parses its payload.
    When the payload fails the schema, [parse] throws: the action is
    rejected with a [ZodError] before the session is read and before any
    statement is sent; the error has at least one issue, and its issues
    name exactly the fields that failed.  When the payload passes the
    schema, the action is always fulfilled with a structured result and
    never raises, whatever the session, the runtime's date parser and the
    store do. *)
Theorem actions_parse_then_return (dateFromString : string → JsDate)
    (input : Input.t) (w : World) :
  match createWorkoutSchema input with
  | inl issues =>
      createWorkoutAction dateFromString input w = (Rejected (ZodError issues), w)
      ∧ issues ≠ []
      ∧ ∀ key, key ∈ issue_path <$> issues ↔
               key = "name" ∧ fails (name_schema (Input.name input))
               ∨ key = "date" ∧ fails (date_schema (Input.date input))
               ∨ key = "notes" ∧ fails (notes_schema (Input.notes input))
  | inr _ =>
      ∃ result, (createWorkoutAction dateFromString input w).1 = Fulfilled result
  end
  ∧ match updateWorkoutSchema input with
    | inl issues =>
        updateWorkoutAction dateFromString input w = (Rejected (ZodError issues), w)
        ∧ issues ≠ []
        ∧ ∀ key, key ∈ issue_path <$> issues ↔
                 key = "id" ∧ fails (z_number_int_positive "id" (Input.id input))
                 ∨ key = "name" ∧ fails (name_schema (Input.name input))
                 ∨ key = "date" ∧ fails (date_schema (Input.date input))
                 ∨ key = "notes" ∧ fails (notes_schema (Input.notes input))
    | inr _ =>
        ∃ result, (updateWorkoutAction dateFromString input w).1 = Fulfilled result
    end.
Proof.
  pose proof (z_number_int_positive_reports "id" (Input.id input)) as Hi.
  pose proof (z_string_reports "name" (Some (1%nat, "Name is required"))
                (Some (255%nat, "Name too long")) (Input.name input)) as Hn.
  pose proof (z_string_reports "date" (Some (1%nat, "Date is required")) None
                (Input.date input)) as Hd.
  pose proof (z_optional_reports "notes" _ (Input.notes input)
                (z_string_reports "notes" None (Some (1000%nat, "Notes too long"))))
    as Ho.
  fold name_schema in Hn. fold date_schema in Hd. fold notes_schema in Ho.
  split.
  - unfold createWorkoutAction, parse, mbind, Async_bind.
    destruct (createWorkoutSchema input) as [issues|data] eqn:Hschema.
    + split; [done|].
      apply createWorkoutSchema_issues in Hschema as [Hne ->].
      split; [done|]. intros key.
      rewrite !fmap_app, !elem_of_app.
      rewrite (reports_paths "name"), (reports_paths "date"),
        (reports_paths "notes") by done. done.
    + cbn. destruct (truthy (session w)); [|by eexists].
      apply try_catch_returns.
  - unfold updateWorkoutAction, parse, mbind, Async_bind.
    destruct (updateWorkoutSchema input) as [issues|data] eqn:Hschema.
    + split; [done|].
      apply updateWorkoutSchema_issues in Hschema as [Hne ->].
      split; [done|]. intros key.
      rewrite !fmap_app, !elem_of_app.
      rewrite (reports_paths "id"), (reports_paths "name"), (reports_paths "date"),
        (reports_paths "notes") by done. done.
    + cbn. destruct (truthy (session w)); [|by eexists].
      apply try_catch_returns.
Qed.

(** C3 as stated fails: an empty name makes [createWorkoutAction] raise a
    [ZodError] instead of returning a result. *)
Lemma empty_name_raises :
  createWorkoutAction dateFromString_2025_03_01 empty_name
    (request gym (Some alice) 1740900000000)
  = (Rejected (ZodError [mkIssue "name" too_small (Some "Name is required")]),
     request gym (Some alice) 1740900000000)
  ∧ ¬ (∃ result,
         (createWorkoutAction dateFromString_2025_03_01 empty_name
            (request gym (Some alice) 1740900000000)).1 = Fulfilled result).
Proof. split; [done|]. by intros [result Hresult]. Qed.

Example valid_create_returns_success :
  ∃ row,
    (createWorkoutAction dateFromString_2025_03_01
       {| Input.id := VUndefined; Input.name := VString "Leg Day";
          Input.date := VString "2025-03-01"; Input.notes := VString "heavy" |}
       (request gym (Some alice) 1740900000000)).1
    = Fulfilled (Success (Some row))
    ∧ Workout.id row = 3 ∧ Workout.userId row = alice.
Proof. eexists. by vm_compute. Qed.

Example unparsable_date_returns_failure :
  (createWorkoutAction dateFromString_2025_03_01
     {| Input.id := VUndefined; Input.name := VString "Leg Day";
        Input.date := VString "tomorrow"; Input.notes := VUndefined |}
     (request gym (Some alice) 1740900000000)).1
  = Fulfilled (Failure "Failed to create workout").
Proof. by vm_compute. Qed.

Example signed_out_returns_unauthorized :
  (updateWorkoutAction dateFromString_2025_03_01 push_day_input
     (request gym None 1740900000000)).1
  = Fulfilled (Failure "Unauthorized").
Proof. by vm_compute. Qed.

Example foreign_update_returns_not_found :
  (updateWorkoutAction dateFromString_2025_03_01 push_day_input
     (request gym (Some bob) 1740900000000)).1
  = Fulfilled (Failure "Workout not found").
Proof. by vm_compute. Qed.


(** ** C4: what the update schema requires *)

(** C4, as the code has it.  [updateWorkoutSchema] accepts a payload
    exactly when [id] is a positive integer, [name] is a string of 1 to 255
    characters, [date] is a string of at least one character, and [notes]
    is absent or a string of at most 1000 characters: only [notes] is
    optional, and a payload without [name] or without [date] is rejected.
    When [notes] is absent and [updateWorkoutAction] succeeds, the row it
    returns has the [notes] the stored row had. *)
Theorem update_schema_requires (input : Input.t) :
  ((∃ data, updateWorkoutSchema input = inr data) ↔
   (∃ q, Input.id input = VNumber q ∧ isInteger q = true ∧ 0 < Qnum q)
   ∧ (∃ s, Input.name input = VString s ∧ (1 ≤ String.length s ≤ 255)%nat)
   ∧ (∃ s, Input.date input = VString s ∧ (1 ≤ String.length s)%nat)
   ∧ (Input.notes input = VUndefined
      ∨ ∃ s, Input.notes input = VString s ∧ (String.length s ≤ 1000)%nat))
  ∧ (Input.name input = VUndefined ∨ Input.date input = VUndefined →
     ∃ issues, updateWorkoutSchema input = inl issues)
  ∧ (∀ (dateFromString : string → JsDate) (w : World) (r' : Workout.t),
       Input.notes input = VUndefined →
       (updateWorkoutAction dateFromString input w).1
         = Fulfilled (Success (Some r')) →
       ∃ r, r ∈ workouts (db w) ∧ Workout.id r = Workout.id r'
            ∧ Workout.notes r' = Workout.notes r).
Proof.
  assert ((∃ data, updateWorkoutSchema input = inr data) ↔
          (∃ q, Input.id input = VNumber q ∧ isInteger q = true ∧ 0 < Qnum q)
          ∧ (∃ s, Input.name input = VString s ∧ (1 ≤ String.length s ≤ 255)%nat)
          ∧ (∃ s, Input.date input = VString s ∧ (1 ≤ String.length s)%nat)
          ∧ (Input.notes input = VUndefined
             ∨ ∃ s, Input.notes input = VString s ∧ (String.length s ≤ 1000)%nat))
    as Hiff.
  { split.
    - intros [data (Hi & Hn & Hd & Ho)%updateWorkoutSchema_accepts].
      apply z_number_int_positive_accepts in Hi as (q & Hq & Hint & Hpos & _).
      apply z_string_accepts in Hn as (Hn & Hmin & Hmax).
      apply z_string_accepts in Hd as (Hd & Hmin' & _).
      apply notes_schema_accepts in Ho as [[Ho _]|(s & Ho & _ & Hlen)].
      + split; [by exists q|]. split.
        { eexists. split; [done|].
          specialize (Hmin _ _ eq_refl). specialize (Hmax _ _ eq_refl). lia. }
        split; [|by left]. eexists. split; [done|]. by apply (Hmin' _ _ eq_refl).
      + split; [by exists q|]. split.
        { eexists. split; [done|].
          specialize (Hmin _ _ eq_refl). specialize (Hmax _ _ eq_refl). lia. }
        split; [|right; by exists s]. eexists. split; [done|].
        by apply (Hmin' _ _ eq_refl).
    - intros ((q & Hq & Hint & Hpos) & (n & Hn & Hlen) & (d & Hd & Hlen') & Ho).
      assert (∃ o, notes_schema (Input.notes input) = inr o) as [o Ho'].
      { destruct Ho as [Ho|(s & Ho & Hs)].
        - exists None. apply notes_schema_accepts. by left.
        - exists (Some s). apply notes_schema_accepts. right. by exists s. }
      exists (UpdateInput.mk (Qnum q `div` Z.pos (Qden q)) n d o).
      apply updateWorkoutSchema_accepts. cbn. split; [|split; [|split; [|done]]].
      + apply z_number_int_positive_accepts. by exists q.
      + apply z_string_accepts. split; [done|].
        split; intros ? ? [= <- <-]; lia.
      + apply z_string_accepts. split; [done|]. split; [|done].
        intros ? ? [= <- <-]. lia. }
  split; [exact Hiff|]. split.
  - intros Homitted.
    destruct (updateWorkoutSchema input) as [issues|data] eqn:E; [by eexists|].
    destruct (proj1 Hiff (ex_intro _ data eq_refl))
      as (_ & (n & Hn & _) & (d & Hd & _) & _).
    destruct Homitted; congruence.
  - intros dateFromString w r' Hnotes Hrun.
    apply updateWorkoutAction_success in Hrun as (data & userId & Hschema & _ & Hupd).
    apply updateWorkoutSchema_accepts in Hschema as (_ & _ & _ & Ho).
    apply notes_schema_accepts in Ho as [[_ Ho]|(s & Hs & _)]; [|congruence].
    rewrite Ho in Hupd.
    apply updateWorkout_fulfilled_row in Hupd as (_ & r & Hr & _ & -> & _).
    exists r. by repeat split.
Qed.

(** C4 as stated fails: a payload that carries only [id] is rejected, with
    one issue for the missing [name] and one for the missing [date]. *)
Lemma only_id_is_rejected :
  updateWorkoutSchema only_id
  = inl [mkIssue "name" invalid_type None; mkIssue "date" invalid_type None]
  ∧ ¬ (∃ data, updateWorkoutSchema only_id = inr data).
Proof. split; [done|]. by intros [data Hdata]. Qed.

Lemma update_schema_requires_witness :
  Input.notes push_day_input = VUndefined
  ∧ (∃ data, updateWorkoutSchema push_day_input = inr data)
  ∧ ∃ r', (updateWorkoutAction dateFromString_2025_03_01 push_day_input
             (request gym (Some alice) 1740900000000)).1
          = Fulfilled (Success (Some r'))
          ∧ ∃ r, r ∈ workouts gym ∧ Workout.id r = Workout.id r'
                 ∧ Workout.notes r' = Workout.notes r.
Proof.
  destruct (update_schema_requires push_day_input) as (Hiff & _ & Hnotes).
  split; [reflexivity|]. split.
  - apply Hiff. split; [by exists (Qmake 1 1)|]. split.
    + exists "Push Day". split; [reflexivity|]. cbn. lia.
    + split; [|by left]. exists "2025-03-01". split; [reflexivity|]. cbn. lia.
  - eexists. split; [by vm_compute|].
    apply (Hnotes dateFromString_2025_03_01 (request gym (Some alice) 1740900000000));
      [reflexivity | by vm_compute].
Defined.


(** ** C5: what an update leaves alone *)

(** C5.  Whatever [data] is and however the call settles, [updateWorkout]
    leaves the [id], [userId] and [createdAt] columns of the whole table as
    they were.  When it is fulfilled with a row [r'], that row is a stored
    row [r] matching both [workoutId] and [userId], rewritten in place:
    [name], [date] and [notes] take the value [data] supplies and keep
    their prior value when [data] has none, [updatedAt] is the current
    time, and [id], [userId] and [createdAt] are those of [r]. *)
Theorem update_frame (w : World) (workoutId : Z) (userId : string)
    (data : UpdateData.t) :
  let w' := (updateWorkout workoutId userId data w).2 in
  (Workout.id <$> workouts (db w') = Workout.id <$> workouts (db w)
   ∧ Workout.userId <$> workouts (db w') = Workout.userId <$> workouts (db w)
   ∧ Workout.createdAt <$> workouts (db w') = Workout.createdAt <$> workouts (db w))
  ∧ ∀ r', (updateWorkout workoutId userId data w).1 = Fulfilled (Some r') →
      ∃ r, r ∈ workouts (db w)
        ∧ Workout.id r = workoutId ∧ Workout.userId r = userId
        ∧ r' ∈ workouts (db w')
        ∧ Workout.id r' = Workout.id r
        ∧ Workout.userId r' = Workout.userId r
        ∧ Workout.createdAt r' = Workout.createdAt r
        ∧ Workout.updatedAt r' = clock w
        ∧ Workout.name r' = match UpdateData.name data with
                            | Some name => name
                            | None => Workout.name r
                            end
        ∧ Workout.date r' = match UpdateData.date data with
                            | Some (Instant ms) => ms
                            | _ => Workout.date r
                            end
        ∧ Workout.notes r' = match UpdateData.notes data with
                             | Some notes => Some notes
                             | None => Workout.notes r
                             end.
Proof.
  intros w'. unfold w'. split.
  - destruct (decide (UpdateData.date data = Some InvalidDate)) as [Hd|Hd].
    { by rewrite (updateWorkout_invalid _ _ _ _ Hd). }
    rewrite (updateWorkout_run _ _ _ _ Hd).
    destruct (refused w _); [done|]. cbn.
    by rewrite update_where_id, update_where_userId, update_where_createdAt.
  - intros r' Hres.
    destruct (updateWorkout_fulfilled_row _ _ _ _ _ Hres)
      as (Hd & r & Hr & [Hid Hu] & -> & Hin).
    exists r. split; [done|]. split; [done|]. split; [done|]. split; [done|].
    cbn. repeat split; try done.
    by destruct (UpdateData.date data) as [[ms|]|].
Qed.

Lemma update_frame_witness :
  ∃ r', (updateWorkout 1 alice rename_to_push_day
           (request gym (Some alice) 1740900000000)).1 = Fulfilled (Some r')
        ∧ Workout.name r' = "Push Day"
        ∧ Workout.notes r' = Some "heavy"
        ∧ Workout.userId r' = alice
        ∧ Workout.createdAt r' = 1740787200000
        ∧ Workout.updatedAt r' = 1740900000000.
Proof.
  pose proof (update_frame (request gym (Some alice) 1740900000000) 1 alice
                rename_to_push_day) as [_ Hrow].
  eexists. split; [reflexivity|].
  destruct (Hrow _ eq_refl)
    as (r & Hin & Hid & _ & _ & _ & Hu & Hc & Hup & Hn & _ & Hnotes).
  assert (r = leg_day) as ->.
  { apply elem_of_cons in Hin as [->|Hin]; [done|].
    apply list_elem_of_singleton in Hin as ->. discriminate Hid. }
  split; [exact Hn|]. split; [exact Hnotes|]. split; [exact Hu|].
  split; [exact Hc | exact Hup].
Defined.


(** ** C6: the aggregate is all or nothing *)

(** C6.  [getUserWorkoutWithExercises] sends the owner-checked select of
    the workout before anything else.  When that select finds no row for
    this id and owner it is fulfilled with [null], exactly when
    [getUserWorkout] is, and when the select does not yield a row for any
    reason no other statement is sent.  When the fetch of the exercises or
    the fetch of the sets of any one exercise fails, the whole call is
    rejected.  When the call is fulfilled with an aggregate, the workout is
    the one [getUserWorkout] yields, the exercises are all the exercises of
    that workout, each once, and every exercise carries all of its sets,
    each once: no partial aggregate is ever returned.  The database is
    never changed. *)
Theorem aggregate_all_or_nothing (workoutId : Z) (userId : string) (w : World) :
  let n := length (sent w) in
  let run := getUserWorkoutWithExercises workoutId userId w in
  let stored := filter (fun e => Exercise.workoutId e = workoutId)
                       (exercises (db w)) in
  (∃ rest, sent run.2 = sent w ++ Select Tworkouts :: rest)
  ∧ db run.2 = db w
  ∧ (run.1 = Fulfilled None ↔ (getUserWorkout workoutId userId w).1 = Fulfilled None)
  ∧ ((∀ x, (getUserWorkout workoutId userId w).1 ≠ Fulfilled (Some x)) →
     run.2 = (getUserWorkout workoutId userId w).2
     ∧ sent run.2 = sent w ++ [Select Tworkouts]
     ∧ ∀ e, (getUserWorkout workoutId userId w).1 = Rejected e → run.1 = Rejected e)
  ∧ (∀ x, (getUserWorkout workoutId userId w).1 = Fulfilled (Some x) →
       (faulty w (S n) = true → ∃ e, run.1 = Rejected e)
       ∧ (∀ k, (k < length stored)%nat → faulty w (S (S n) + k) = true →
               ∃ e, run.1 = Rejected e))
  ∧ (∀ a, run.1 = Fulfilled (Some a) →
       (getUserWorkout workoutId userId w).1 = Fulfilled (Some (workout_row a))
       ∧ exercise_row <$> workout_exercises a ≡ₚ stored
       ∧ Forall (fun e =>
                   exercise_sets e ≡ₚ
                   filter (fun s => Sets.exerciseId s = Exercise.id (exercise_row e))
                          (sets (db w)))
                (workout_exercises a)
       ∧ sent run.2 = sent w ++ Select Tworkouts :: Select Texercises
                        :: replicate (length stored) (Select Tsets)).
Proof.
  intros n run stored.
  assert (length (exercises_of (db w) workoutId) = length stored) as Hlen
    by (unfold exercises_of; by rewrite orderBy_Permutation).
  unfold run. rewrite getUserWorkoutWithExercises_run, getUserWorkout_run.
  fold n. cbn [fst snd].
  destruct (refused w workoutId) eqn:F0.
  { split; [by exists []|]. repeat split; intros; try done.
    cbn. congruence. }
  destruct (head _) as [workout0|] eqn:Hhead.
  2: { split; [by exists []|]. repeat split; intros; done. }
  destruct (faulty w (S n)) eqn:F1.
  { split; [exists [Select Texercises]; cbn; by rewrite <- app_assoc|].
    repeat split; intros; try done; try (by eexists).
    all: match goal with H : ∀ x, _ ≠ Fulfilled (Some x) |- _ =>
           by destruct (H workout0) end. }
  cbn [fst snd]. rewrite log_statements_db, log_statements_sent, Hlen.
  cbn [sent db log_statement]. rewrite <- !app_assoc. cbn [app].
  split; [by eexists|]. split; [done|].
  destruct (any_faulty w (S (S n)) (length stored)) eqn:FA.
  - repeat split; intros; try done; try (by eexists).
    all: match goal with H : ∀ x, _ ≠ Fulfilled (Some x) |- _ =>
           by destruct (H workout0) end.
  - split; [done|].
    split; [intros Hno; by destruct (Hno workout0)|].
    split.
    + intros x _. split; [done|]. intros k Hk Hf.
      assert (any_faulty w (S (S n)) (length stored) = true)
        as Habs by (apply any_faulty_true; exists k; split; [lia|done]).
      congruence.
    + intros a [= <-]. cbn [workout_row workout_exercises].
      split; [done|]. split; [|split; [|done]].
      * rewrite <- list_fmap_compose.
        rewrite (list_fmap_ext _ id (exercises_of (db w) workoutId)) by (by intros).
        rewrite list_fmap_id. apply orderBy_Permutation.
      * apply Forall_fmap, Forall_forall. intros e _. apply orderBy_Permutation.
Qed.

Lemma aggregate_all_or_nothing_witness :
  (∃ e, (getUserWorkoutWithExercises 1 alice
           (request_failing plan (Some alice) 1740900000000 3)).1 = Rejected e)
  ∧ (getUserWorkoutWithExercises 2 alice
       (request plan (Some alice) 1740900000000)).1 = Fulfilled None.
Proof.
  split.
  - destruct (aggregate_all_or_nothing 1 alice
                (request_failing plan (Some alice) 1740900000000 3))
      as (_ & _ & _ & _ & Hfail & _).
    destruct (Hfail leg_day eq_refl) as [_ Hsets].
    apply (Hsets 1%nat); [vm_compute; lia | reflexivity].
  - destruct (aggregate_all_or_nothing 2 alice
                (request plan (Some alice) 1740900000000))
      as (_ & _ & Hnone & _).
    by apply Hnone.
Defined.

Example aggregate_sends_three_kinds :
  sent (getUserWorkoutWithExercises 1 alice
          (request_failing plan (Some alice) 1740900000000 3)).2
  = [Select Tworkouts; Select Texercises; Select Tsets; Select Tsets; Select Tsets].
Proof. by vm_compute. Qed.


(** ** C7: the workouts of one calendar day *)



Example by_date_boundary :
  (getUserWorkoutsByDate (fixedZone 0) bob (Instant (localInstant 0 2025 3 1 0 0 0 0))
     (request gym (Some bob) 1740900000000)).1 = Fulfilled [late_run]
  ∧ (getUserWorkoutsByDate (fixedZone 0) bob
       (Instant (localInstant 0 2025 3 2 0 0 0 0))
       (request gym (Some bob) 1740900000000)).1 = Fulfilled [].
Proof. by vm_compute. Qed.

(** On the day the clocks go forward the interval queried is 23 hours
    long: for noon of 2025-03-09 in [eastern] it runs from 05:00:00.000 UTC
    of that day to 03:59:59.999 UTC of the next. *)
Example by_date_short_day :
  startOfDay eastern (Instant (zoneInstant eastern 2025 3 9 12 0 0 0))
  = Instant (localInstant 0 2025 3 9 5 0 0 0)
  ∧ endOfDay eastern (Instant (zoneInstant eastern 2025 3 9 12 0 0 0))
    = Instant (localInstant 0 2025 3 10 3 59 59 999)
  ∧ localInstant 0 2025 3 10 3 59 59 999 - localInstant 0 2025 3 9 5 0 0 0
    = 23 * 3600000 - 1.
Proof. by vm_compute. Qed.


(** ** C8: the order of the results *)



Example aggregate_ordering :
  match (getUserWorkoutWithExercises 1 alice (request plan (Some alice) 1740900000000)).1
  with
  | Fulfilled (Some a) =>
      Exercise.order ∘ exercise_row <$> workout_exercises a = [1; 2; 3]
      ∧ (fun e => Sets.setNumber <$> exercise_sets e) <$> workout_exercises a
        = [[1; 2]; [1; 2]; [1; 2]]
  | _ => False
  end.
Proof. by vm_compute. Qed.

Example no_workouts_is_empty :
  (getUserWorkouts "user_carol" (request gym (Some "user_carol") 1740900000000)).1
  = Fulfilled [].
Proof. by vm_compute. Qed.


(** ** C9: create, then read back *)

(** C9.  On a database that respects the primary key, when the store
    answers both statements and [data.date] is a valid date,
    [createWorkout data] is fulfilled with a row [r], and
    [getUserWorkout (id r) data.userId] run next is fulfilled with that
    same row: its [name], [date] and [notes] are those of [data], its
    [userId] is [data.userId], and its [createdAt] equals its
    [updatedAt]. *)
Theorem create_then_get (w : World) (data : CreateData.t) (ms : Z) :
  primary_key (db w) →
  CreateData.date data = Instant ms →
  faulty w (length (sent w)) = false →
  faulty w (S (length (sent w))) = false →
  ∃ r w1 w2,
    createWorkout data w = (Fulfilled (Some r), w1)
    ∧ getUserWorkout (Workout.id r) (CreateData.userId data) w1
      = (Fulfilled (Some r), w2)
    ∧ Workout.name r = CreateData.name data
    ∧ Workout.date r = ms
    ∧ Workout.notes r = CreateData.notes data
    ∧ Workout.userId r = CreateData.userId data
    ∧ Workout.createdAt r = Workout.updatedAt r.
Proof.
  intros [Hnd Hlt] Hdate Hf0 Hf1.
  rewrite (createWorkout_run _ _ _ Hdate), Hf0. cbn zeta.
  eexists _, _, _. split; [reflexivity|]. split; [|by cbn].
  rewrite getUserWorkout_run.
  match goal with |- context [refused ?w1 ?id] =>
    assert (refused w1 id = false) as ->
  end.
  { apply refused_false. split.
    - cbn [sent faulty set_db log_statement].
      by rewrite length_app, Nat.add_1_r.
    - right. cbn. rewrite fmap_app. apply elem_of_app. right. left. }
  cbn [sent faulty db workouts with_workouts set_db log_statement].
  rewrite filter_app, filter_empty.
  - rewrite filter_cons, decide_True by done. reflexivity.
  - intros x Hx [Hid _]. rewrite Forall_forall in Hlt.
    specialize (Hlt x Hx). cbn in Hid. lia.
Qed.

Lemma create_then_get_witness :
  primary_key (db (request gym (Some alice) 1740900000000))
  ∧ CreateData.date new_leg_day = Instant 1740787200000
  ∧ ∃ r w1 w2,
      createWorkout new_leg_day (request gym (Some alice) 1740900000000)
        = (Fulfilled (Some r), w1)
      ∧ getUserWorkout (Workout.id r) alice w1 = (Fulfilled (Some r), w2)
      ∧ Workout.name r = "Leg Day"
      ∧ Workout.date r = 1740787200000
      ∧ Workout.notes r = Some "heavy"
      ∧ Workout.createdAt r = Workout.updatedAt r.
Proof.
  split; [exact gym_primary_key|]. split; [reflexivity|].
  destruct (create_then_get (request gym (Some alice) 1740900000000) new_leg_day
              1740787200000 gym_primary_key eq_refl eq_refl eq_refl)
    as (r & w1 & w2 & Hc & Hg & Hn & Hd & Ho & _ & Ht).
  exists r, w1, w2. repeat split; done.
Defined.


(** ** C10: an update that supplies no field *)

(** C10, as the code has it.  [updateWorkout workoutId userId {}] on a
    stored workout [r] the caller owns, answered by the store, is fulfilled
    with a row [r'] that is [r] with [updatedAt] set to what the clock
    reads: [name], [date], [notes], [id], [userId] and [createdAt] are those
    of [r], and [r'] is in the table afterwards.  [updatedAt] has strictly
    advanced exactly when the clock reads later than the stored value. *)
Theorem update_without_fields (w : World) (r : Workout.t) :
  primary_key (db w) → r ∈ workouts (db w) →
  faulty w (length (sent w)) = false →
  ∃ r' w',
    updateWorkout (Workout.id r) (Workout.userId r) no_fields w
      = (Fulfilled (Some r'), w')
    ∧ r' ∈ workouts (db w')
    ∧ Workout.name r' = Workout.name r
    ∧ Workout.date r' = Workout.date r
    ∧ Workout.notes r' = Workout.notes r
    ∧ Workout.id r' = Workout.id r
    ∧ Workout.userId r' = Workout.userId r
    ∧ Workout.createdAt r' = Workout.createdAt r
    ∧ Workout.updatedAt r' = clock w
    ∧ (Workout.updatedAt r < Workout.updatedAt r' ↔ Workout.updatedAt r < clock w).
Proof.
  intros Hpk Hr Hf.
  rewrite (updateWorkout_run _ _ no_fields w) by done.
  rewrite (refused_stored _ _ Hr Hf), (owned_selects_itself _ _ Hpk Hr).
  cbn [fmap list_fmap head].
  eexists _, _. split; [reflexivity|]. split; [|by cbn].
  cbn. apply list_elem_of_fmap. exists r. split; [|done].
  unfold update_where. by rewrite decide_True.
Qed.

Lemma update_without_fields_witness :
  primary_key (db (request gym (Some bob) 1740900000000))
  ∧ late_run ∈ workouts (db (request gym (Some bob) 1740900000000))
  ∧ ∃ r', (updateWorkout 2 bob no_fields (request gym (Some bob) 1740900000000)).1
            = Fulfilled (Some r')
          ∧ Workout.name r' = "Late run"
          ∧ Workout.updatedAt r' = 1740900000000.
Proof.
  assert (late_run ∈ workouts gym) as Hin by (right; left).
  destruct (update_without_fields (request gym (Some bob) 1740900000000) late_run
              gym_primary_key Hin eq_refl)
    as (r' & w' & Hrun & _ & Hname & _ & _ & _ & _ & _ & Hup & _).
  split; [exact gym_primary_key|]. split; [exact Hin|].
  exists r'. split; [|split; [exact Hname | exact Hup]].
  change (Workout.id late_run) with 2 in Hrun.
  change (Workout.userId late_run) with bob in Hrun.
  by rewrite Hrun.
Defined.

(** C10 as stated fails: when the clock reads what [updatedAt] already
    holds, the call succeeds, returns the stored row as it was and leaves
    the table as it was; [updatedAt] has not advanced. *)
Lemma same_millisecond_update_changes_nothing :
  let w := request gym (Some bob) (Workout.updatedAt late_run) in
  late_run ∈ workouts (db w)
  ∧ owned 2 bob late_run
  ∧ faulty w (length (sent w)) = false
  ∧ (updateWorkout 2 bob no_fields w).1 = Fulfilled (Some late_run)
  ∧ db (updateWorkout 2 bob no_fields w).2 = db w
  ∧ ¬ (∃ r', (updateWorkout 2 bob no_fields w).1 = Fulfilled (Some r')
             ∧ Workout.updatedAt late_run < Workout.updatedAt r').
Proof.
  cbn zeta. split; [by right; left|]. split; [done|]. split; [done|].
  split; [done|]. split; [done|].
  intros (r' & Hrun & Hlt). injection Hrun as <-. cbn in Hlt. lia.
Qed.

(** * Further properties of the data-access functions, the actions and
      the pages *)

(** ** Running the two actions *)

Lemma createWorkoutAction_run (dateFromString : string → JsDate) (input : Input.t)
    (data : CreateInput.t) (userId : string) (w : World) :
  createWorkoutSchema input = inr data →
  truthy (session w) = Some userId →
  createWorkoutAction dateFromString input w =
    match createWorkout (create_data dateFromString userId data) w with
    | (Fulfilled workout, w1) => (Fulfilled (Success workout), revalidate DashboardPath w1)
    | (Rejected _, w1) => (Fulfilled (Failure "Failed to create workout"), w1)
    end.
Proof.
  intros Hschema Hsession.
  unfold createWorkoutAction, parse, mbind, Async_bind. rewrite Hschema. cbn.
  rewrite Hsession. unfold try_catch, create_data.
  by destruct (createWorkout _ w) as [[workout|e] w1].
Qed.

Lemma updateWorkoutAction_run (dateFromString : string → JsDate) (input : Input.t)
    (data : UpdateInput.t) (userId : string) (w : World) :
  updateWorkoutSchema input = inr data →
  truthy (session w) = Some userId →
  updateWorkoutAction dateFromString input w =
    match updateWorkout (UpdateInput.id data) userId
            (update_data dateFromString data) w with
    | (Fulfilled (Some row), w1) =>
        (Fulfilled (Success (Some row)),
         revalidate (WorkoutPath (UpdateInput.id data)) (revalidate DashboardPath w1))
    | (Fulfilled None, w1) => (Fulfilled (Failure "Workout not found"), w1)
    | (Rejected _, w1) => (Fulfilled (Failure "Failed to update workout"), w1)
    end.
Proof.
  intros Hschema Hsession.
  unfold updateWorkoutAction, parse, mbind, Async_bind. rewrite Hschema. cbn.
  rewrite Hsession. unfold try_catch, update_data.
  by destruct (updateWorkout _ _ _ w) as [[[row|]|e] w1].
Qed.

Lemma action_unauthorized (dateFromString : string → JsDate) (input : Input.t)
    (w : World) :
  truthy (session w) = None →
  (∀ data, createWorkoutSchema input = inr data →
     createWorkoutAction dateFromString input w = (Fulfilled (Failure "Unauthorized"), w))
  ∧ (∀ data, updateWorkoutSchema input = inr data →
       updateWorkoutAction dateFromString input w
       = (Fulfilled (Failure "Unauthorized"), w)).
Proof.
  intros Hsession. split; intros data Hschema.
  - unfold createWorkoutAction, parse, mbind, Async_bind. rewrite Hschema. cbn.
    by rewrite Hsession.
  - unfold updateWorkoutAction, parse, mbind, Async_bind. rewrite Hschema. cbn.
    by rewrite Hsession.
Qed.

Lemma action_rejected (dateFromString : string → JsDate) (input : Input.t)
    (w : World) :
  (∀ issues, createWorkoutSchema input = inl issues →
     createWorkoutAction dateFromString input w = (Rejected (ZodError issues), w))
  ∧ (∀ issues, updateWorkoutSchema input = inl issues →
       updateWorkoutAction dateFromString input w = (Rejected (ZodError issues), w)).
Proof.
  split; intros issues Hschema.
  - unfold createWorkoutAction, parse, mbind, Async_bind. by rewrite Hschema.
  - unfold updateWorkoutAction, parse, mbind, Async_bind. by rewrite Hschema.
Qed.

(** ** The database under writes *)

Lemma revalidate_db (p : path) (w : World) : db (revalidate p w) = db w.
Proof. done. Qed.

Lemma createWorkoutAction_db (dateFromString : string → JsDate) (input : Input.t)
    (w : World) :
  db (createWorkoutAction dateFromString input w).2 = db w
  ∨ ∃ data userId,
      createWorkoutSchema input = inr data
      ∧ truthy (session w) = Some userId
      ∧ db (createWorkoutAction dateFromString input w).2
        = db (createWorkout (create_data dateFromString userId data) w).2.
Proof.
  destruct (createWorkoutSchema input) as [issues|data] eqn:Hschema.
  { left. by rewrite (proj1 (action_rejected _ _ _) _ Hschema). }
  destruct (truthy (session w)) as [userId|] eqn:Hsession.
  - right. exists data, userId. split; [done|]. split; [done|].
    rewrite (createWorkoutAction_run _ _ _ _ _ Hschema Hsession).
    by destruct (createWorkout _ w) as [[workout|e] w1].
  - left. by rewrite (proj1 (action_unauthorized _ _ _ Hsession) _ Hschema).
Qed.

Lemma updateWorkoutAction_db (dateFromString : string → JsDate) (input : Input.t)
    (w : World) :
  db (updateWorkoutAction dateFromString input w).2 = db w
  ∨ ∃ data userId,
      updateWorkoutSchema input = inr data
      ∧ truthy (session w) = Some userId
      ∧ db (updateWorkoutAction dateFromString input w).2
        = db (updateWorkout (UpdateInput.id data) userId
                (update_data dateFromString data) w).2.
Proof.
  destruct (updateWorkoutSchema input) as [issues|data] eqn:Hschema.
  { left. by rewrite (proj2 (action_rejected _ _ _) _ Hschema). }
  destruct (truthy (session w)) as [userId|] eqn:Hsession.
  - right. exists data, userId. split; [done|]. split; [done|].
    rewrite (updateWorkoutAction_run _ _ _ _ _ Hschema Hsession).
    by destruct (updateWorkout _ _ _ w) as [[[row|]|e] w1].
  - left. by rewrite (proj2 (action_unauthorized _ _ _ Hsession) _ Hschema).
Qed.

(** X1.  The primary key of [workouts] is an invariant: when ids are
    unique and below the next value of the identity sequence before
    [createWorkout], [updateWorkout], [createWorkoutAction] or
    [updateWorkoutAction] runs, they are so afterwards, however the call
    settles. *)
Theorem primary_key_preserved (w : World) :
  primary_key (db w) →
  (∀ data, primary_key (db (createWorkout data w).2))
  ∧ (∀ workoutId userId data,
       primary_key (db (updateWorkout workoutId userId data w).2))
  ∧ (∀ dateFromString input,
       primary_key (db (createWorkoutAction dateFromString input w).2))
  ∧ (∀ dateFromString input,
       primary_key (db (updateWorkoutAction dateFromString input w).2)).
Proof.
  intros Hpk. split; [|split; [|split]].
  - intros data. by apply primary_key_createWorkout.
  - intros workoutId userId data. by apply primary_key_updateWorkout.
  - intros dateFromString input.
    destruct (createWorkoutAction_db dateFromString input w)
      as [->|(data & userId & _ & _ & ->)]; [done|].
    by apply primary_key_createWorkout.
  - intros dateFromString input.
    destruct (updateWorkoutAction_db dateFromString input w)
      as [->|(data & userId & _ & _ & ->)]; [done|].
    by apply primary_key_updateWorkout.
Qed.

Lemma primary_key_preserved_witness :
  primary_key gym
  ∧ primary_key (db (createWorkout new_leg_day
                       (request gym (Some alice) 1740900000000)).2)
  ∧ primary_key (db (updateWorkoutAction dateFromString_2025_03_01 push_day_input
                       (request gym (Some alice) 1740900000000)).2).
Proof.
  destruct (primary_key_preserved (request gym (Some alice) 1740900000000)
              gym_primary_key) as (Hc & _ & _ & Hu).
  split; [exact gym_primary_key|]. split; [apply Hc | apply Hu].
Defined.

(** X2.  [createWorkout] only ever appends: the exercises and sets are
    never touched; when it is fulfilled, it is with a row, the table is the
    old table followed by that row, the row's id is the value the identity
    sequence had, the sequence has advanced by one, and under the primary
    key no stored workout had that id; when it is rejected the database is
    what it was. *)
Theorem createWorkout_appends (data : CreateData.t) (w : World) :
  exercises (db (createWorkout data w).2) = exercises (db w)
  ∧ sets (db (createWorkout data w).2) = sets (db w)
  ∧ match (createWorkout data w).1 with
    | Fulfilled (Some row) =>
        workouts (db (createWorkout data w).2) = workouts (db w) ++ [row]
        ∧ Workout.id row = workouts_id_seq (db w)
        ∧ workouts_id_seq (db (createWorkout data w).2) = workouts_id_seq (db w) + 1
        ∧ (primary_key (db w) → Workout.id row ∉ Workout.id <$> workouts (db w))
    | Fulfilled None => False
    | Rejected _ => db (createWorkout data w).2 = db w
    end.
Proof.
  destruct (CreateData.date data) as [ms|] eqn:Hdate.
  - rewrite (createWorkout_run _ _ _ Hdate). cbn zeta.
    destruct (faulty w _); [done|]. cbn.
    split; [done|]. split; [done|]. split; [done|]. split; [done|].
    split; [done|]. intros [_ Hlt] (x & Hid & Hx)%list_elem_of_fmap.
    rewrite Forall_forall in Hlt. specialize (Hlt x Hx). lia.
  - by rewrite (createWorkout_invalid _ _ Hdate).
Qed.

Lemma createWorkout_appends_witness :
  primary_key gym
  ∧ ∃ row,
      (createWorkout new_leg_day (request gym (Some alice) 1740900000000)).1
        = Fulfilled (Some row)
      ∧ Workout.id row = 3
      ∧ Workout.id row ∉ Workout.id <$> workouts gym.
Proof.
  split; [exact gym_primary_key|].
  pose proof (createWorkout_appends new_leg_day
                (request gym (Some alice) 1740900000000)) as (_ & _ & Hrow).
  destruct (createWorkout new_leg_day (request gym (Some alice) 1740900000000)).1
    as [[row|]|e] eqn:Hrun; [|done|discriminate Hrun].
  destruct Hrow as (_ & Hid & _ & Hfresh).
  exists row. split; [done|]. split; [exact Hid | exact (Hfresh gym_primary_key)].
Defined.

Lemma set_columns_twice (name : option string) (date : option Z)
    (notes : option string) (updatedAt : Z) (r : Workout.t) :
  set_columns name date notes updatedAt (set_columns name date notes updatedAt r)
  = set_columns name date notes updatedAt r.
Proof. unfold set_columns. cbn. by destruct name, date, notes. Qed.

Lemma owned_set_columns (workoutId : Z) (userId : string) (name : option string)
    (date : option Z) (notes : option string) (updatedAt : Z) (r : Workout.t) :
  owned workoutId userId (set_columns name date notes updatedAt r)
  ↔ owned workoutId userId r.
Proof. done. Qed.

Lemma filter_update_where (workoutId : Z) (userId : string) (name : option string)
    (date : option Z) (notes : option string) (updatedAt : Z)
    (rows : list Workout.t) :
  filter (owned workoutId userId)
    (update_where workoutId userId (set_columns name date notes updatedAt) <$> rows)
  = set_columns name date notes updatedAt <$> filter (owned workoutId userId) rows.
Proof.
  induction rows as [|r rows IH]; [done|].
  rewrite fmap_cons, !filter_cons, IH. unfold update_where.
  destruct (decide (owned workoutId userId r)) as [Ho|Ho].
  - rewrite decide_True by by apply owned_set_columns. done.
  - by rewrite decide_False.
Qed.

Lemma update_where_twice (workoutId : Z) (userId : string) (name : option string)
    (date : option Z) (notes : option string) (updatedAt : Z)
    (rows : list Workout.t) :
  update_where workoutId userId (set_columns name date notes updatedAt)
    <$> (update_where workoutId userId (set_columns name date notes updatedAt)
           <$> rows)
  = update_where workoutId userId (set_columns name date notes updatedAt) <$> rows.
Proof.
  rewrite <- list_fmap_compose. apply list_fmap_ext. intros k r _. cbn.
  unfold update_where.
  destruct (decide (owned workoutId userId r)) as [Ho|Ho].
  - rewrite decide_True by by apply owned_set_columns. apply set_columns_twice.
  - by rewrite decide_False.
Qed.

Lemma with_workouts_same (d : Database) :
  with_workouts d (workouts d) (workouts_id_seq d) = d.
Proof. by destruct d. Qed.

(** X3.  Under the primary key [updateWorkout] rewrites one row at most:
    the exercises, the sets and the identity sequence are never touched;
    when it is fulfilled with a row [r'], there is a stored row [r] with
    this id and owner, and the table afterwards is the old table with [r']
    in the place of [r] and every other row as it was; when it is fulfilled
    with nothing or rejected, the database is what it was. *)
Theorem updateWorkout_one_row (workoutId : Z) (userId : string)
    (data : UpdateData.t) (w : World) :
  primary_key (db w) →
  exercises (db (updateWorkout workoutId userId data w).2) = exercises (db w)
  ∧ sets (db (updateWorkout workoutId userId data w).2) = sets (db w)
  ∧ workouts_id_seq (db (updateWorkout workoutId userId data w).2)
    = workouts_id_seq (db w)
  ∧ match (updateWorkout workoutId userId data w).1 with
    | Fulfilled (Some r') =>
        ∃ r, r ∈ workouts (db w) ∧ owned workoutId userId r
          ∧ workouts (db (updateWorkout workoutId userId data w).2)
            = (fun x => if decide (x = r) then r' else x) <$> workouts (db w)
    | _ => db (updateWorkout workoutId userId data w).2 = db w
    end.
Proof.
  intros Hpk.
  destruct (decide (UpdateData.date data = Some InvalidDate)) as [Hd|Hd].
  { by rewrite (updateWorkout_invalid _ _ _ _ Hd). }
  rewrite (updateWorkout_run _ _ _ _ Hd). cbn zeta.
  destruct (refused w _); [done|]. cbn [fst snd].
  split; [done|]. split; [done|]. split; [done|].
  destruct (filter (owned workoutId userId) (workouts (db w))) as [|r l] eqn:Hsel.
  - cbn. rewrite (update_where_nothing _ _ _ _ Hsel). apply with_workouts_same.
  - cbn [fmap list_fmap head].
    assert (r ∈ filter (owned workoutId userId) (workouts (db w))) as Hr
      by (rewrite Hsel; left).
    apply list_elem_of_filter in Hr as [Ho Hr].
    exists r. split; [done|]. split; [done|]. cbn.
    apply list_fmap_ext. intros k x Hx%list_elem_of_lookup_2.
    unfold update_where. destruct Ho as [Hid Hu].
    destruct (decide (x = r)) as [->|Hne].
    + by rewrite decide_True.
    + rewrite decide_False; [done|]. intros [Hid' _]. apply Hne.
      apply (primary_key_inj (workouts (db w))); [by destruct Hpk|done..|congruence].
Qed.

Lemma updateWorkout_one_row_witness :
  primary_key gym
  ∧ ∃ r', (updateWorkout 1 alice rename_to_push_day
             (request gym (Some alice) 1740900000000)).1 = Fulfilled (Some r')
          ∧ workouts (db (updateWorkout 1 alice rename_to_push_day
                            (request gym (Some alice) 1740900000000)).2)
            = [r'; late_run].
Proof.
  split; [exact gym_primary_key|].
  pose proof (updateWorkout_one_row 1 alice rename_to_push_day
                (request gym (Some alice) 1740900000000) gym_primary_key)
    as (_ & _ & _ & Hrow).
  destruct (updateWorkout 1 alice rename_to_push_day
              (request gym (Some alice) 1740900000000)).1
    as [[r'|]|e] eqn:Hrun; [|discriminate Hrun..].
  destruct Hrow as (r & Hin & [Hid _] & Htable).
  exists r'. split; [done|]. rewrite Htable.
  assert (r = leg_day) as ->.
  { apply elem_of_cons in Hin as [->|Hin]; [done|].
    apply list_elem_of_singleton in Hin as ->. discriminate Hid. }
  done.
Defined.

(** X4.  Under the primary key, once [updateWorkout] has been fulfilled
    with a row, [getUserWorkout] for the same id and owner, answered by the
    store, is fulfilled with that very row. *)
Theorem update_then_get (workoutId : Z) (userId : string) (data : UpdateData.t)
    (w w1 : World) (r' : Workout.t) :
  primary_key (db w) →
  updateWorkout workoutId userId data w = (Fulfilled (Some r'), w1) →
  faulty w1 (length (sent w1)) = false →
  (getUserWorkout workoutId userId w1).1 = Fulfilled (Some r').
Proof.
  intros Hpk Hrun Hf.
  pose proof (primary_key_updateWorkout workoutId userId data w Hpk) as Hpk1.
  assert ((updateWorkout workoutId userId data w).1 = Fulfilled (Some r')) as Hres
    by by rewrite Hrun.
  apply updateWorkout_fulfilled_row in Hres as (_ & r & _ & [Hid Hu] & Hr' & Hin).
  rewrite Hrun in Hpk1, Hin. cbn [snd] in Hpk1, Hin.
  assert (Workout.id r' = workoutId ∧ Workout.userId r' = userId) as [<- <-]
    by by rewrite Hr'.
  rewrite getUserWorkout_run, (refused_stored _ _ Hin Hf). cbn [fst].
  by rewrite (owned_selects_itself _ _ Hpk1 Hin).
Qed.

Lemma update_then_get_witness :
  primary_key gym
  ∧ ∃ r' w1,
      updateWorkout 1 alice rename_to_push_day (request gym (Some alice) 1740900000000)
        = (Fulfilled (Some r'), w1)
      ∧ (getUserWorkout 1 alice w1).1 = Fulfilled (Some r')
      ∧ Workout.name r' = "Push Day".
Proof.
  split; [exact gym_primary_key|]. eexists _, _. split; [reflexivity|].
  split; [|reflexivity].
  by apply (update_then_get 1 alice rename_to_push_day
              (request gym (Some alice) 1740900000000) _ _ gym_primary_key eq_refl).
Defined.

(** X5.  [updateWorkout] is idempotent while the clock reads the same:
    when the store answers both statements, running the same update a
    second time settles as the first did and leaves the database as the
    first left it. *)
Theorem updateWorkout_twice (workoutId : Z) (userId : string) (data : UpdateData.t)
    (w : World) :
  faulty w (length (sent w)) = false →
  faulty w (S (length (sent w))) = false →
  (updateWorkout workoutId userId data
     (updateWorkout workoutId userId data w).2).1
  = (updateWorkout workoutId userId data w).1
  ∧ db (updateWorkout workoutId userId data
          (updateWorkout workoutId userId data w).2).2
    = db (updateWorkout workoutId userId data w).2.
Proof.
  intros Hf0 Hf1.
  destruct (decide (UpdateData.date data = Some InvalidDate)) as [Hd|Hd].
  { by rewrite !(updateWorkout_invalid _ _ _ _ Hd). }
  rewrite (updateWorkout_run _ _ _ w Hd). cbn zeta.
  destruct (refused w workoutId) eqn:Hrefused; cbn [fst snd];
    rewrite (updateWorkout_run _ _ _ _ Hd); cbn zeta.
  - assert (refused (log_statement (Update Tworkouts) w) workoutId = true) as ->;
      [|done].
    unfold refused in *. rewrite Hf0 in Hrefused.
    cbn [sent faulty db log_statement orb] in *.
    by rewrite length_app, Nat.add_1_r, Hf1.
  - apply refused_false in Hrefused as [_ Hholds].
    match goal with |- context [refused ?w1 _] =>
      assert (refused w1 workoutId = false) as ->
    end.
    { apply refused_false. split.
      - cbn [sent faulty set_db log_statement]. by rewrite length_app, Nat.add_1_r.
      - unfold column_holds in *. cbn [db set_db workouts with_workouts].
        by rewrite update_where_id. }
    cbn [sent faulty clock db workouts workouts_id_seq with_workouts set_db
         log_statement fst snd].
    rewrite filter_update_where, update_where_twice. split; [|done].
    rewrite <- list_fmap_compose.
    do 2 f_equal. apply list_fmap_ext. intros k r _. cbn. apply set_columns_twice.
Qed.

Lemma updateWorkout_twice_witness :
  (updateWorkout 1 alice rename_to_push_day
     (updateWorkout 1 alice rename_to_push_day
        (request gym (Some alice) 1740900000000)).2).1
  = (updateWorkout 1 alice rename_to_push_day
       (request gym (Some alice) 1740900000000)).1.
Proof.
  by apply (updateWorkout_twice 1 alice rename_to_push_day
              (request gym (Some alice) 1740900000000) eq_refl eq_refl).
Defined.

(** ** The date query and the list query *)

(** X6.  [getUserWorkoutsByDate] looks at the local calendar day of its
    date only: in any zone, two dates that the zone puts on the same local
    day give the same outcome; and in a zone whose clocks never change, two
    dates of different local days never return a common workout. *)
Theorem by_date_day_only (userId : string) (ms1 ms2 : Z) (w : World) :
  (∀ zone : TimeZone,
     (ms1 + offsetAt zone ms1) `div` msPerDay
     = (ms2 + offsetAt zone ms2) `div` msPerDay →
     getUserWorkoutsByDate zone userId (Instant ms1) w
     = getUserWorkoutsByDate zone userId (Instant ms2) w)
  ∧ (∀ tzOffset : Z,
       (ms1 + tzOffset) `div` msPerDay ≠ (ms2 + tzOffset) `div` msPerDay →
       ∀ rows1 rows2 r,
         (getUserWorkoutsByDate (fixedZone tzOffset) userId (Instant ms1) w).1
           = Fulfilled rows1 →
         (getUserWorkoutsByDate (fixedZone tzOffset) userId (Instant ms2) w).1
           = Fulfilled rows2 →
         r ∈ rows1 → r ∉ rows2).
Proof.
  split.
  - intros zone Hday. rewrite !getUserWorkoutsByDate_run. cbn zeta.
    pose proof (Z.div_mod (ms1 + offsetAt zone ms1) msPerDay ltac:(done)) as E1.
    pose proof (Z.div_mod (ms2 + offsetAt zone ms2) msPerDay ltac:(done)) as E2.
    rewrite Hday in E1.
    by replace (ms1 + offsetAt zone ms1 - (ms1 + offsetAt zone ms1) `mod` msPerDay)
      with (ms2 + offsetAt zone ms2 - (ms2 + offsetAt zone ms2) `mod` msPerDay)
      by lia.
  - intros tzOffset Hne rows1 rows2 r. rewrite !getUserWorkoutsByDate_fixed.
    destruct (faulty w _); [done|]. cbn [fst].
    intros [= <-] [= <-].
    rewrite !orderBy_elem_of, !list_elem_of_filter.
    intros [(_ & Hlo1 & Hhi1) _] [(_ & Hlo2 & Hhi2) _].
    unfold msPerDay in *. lia.
Qed.

Lemma by_date_day_only_witness :
  getUserWorkoutsByDate eastern bob (Instant (zoneInstant eastern 2025 3 9 1 0 0 0))
    (request gym (Some bob) 1740900000000)
  = getUserWorkoutsByDate eastern bob (Instant (zoneInstant eastern 2025 3 9 18 30 0 0))
      (request gym (Some bob) 1740900000000)
  ∧ ∀ rows, (getUserWorkoutsByDate (fixedZone 0) bob
               (Instant (localInstant 0 2025 3 2 0 0 0 0))
               (request gym (Some bob) 1740900000000)).1 = Fulfilled rows →
            late_run ∉ rows.
Proof.
  destruct (by_date_day_only bob (zoneInstant eastern 2025 3 9 1 0 0 0)
              (zoneInstant eastern 2025 3 9 18 30 0 0)
              (request gym (Some bob) 1740900000000)) as [Hsame _].
  destruct (by_date_day_only bob (localInstant 0 2025 3 1 0 0 0 0)
              (localInstant 0 2025 3 2 0 0 0 0)
              (request gym (Some bob) 1740900000000)) as [_ Hother].
  split; [by apply Hsame|].
  intros rows Hrows.
  apply (Hother 0 ltac:(done) [late_run] rows late_run); [done | exact Hrows | left].
Defined.

(** X7.  Whenever the store answers, every workout [getUserWorkoutsByDate]
    returns, in any zone, is one [getUserWorkouts] returns for the same
    user; and in a zone whose clocks never change every workout
    [getUserWorkouts] returns is returned by [getUserWorkoutsByDate] for
    that workout's own date. *)
Theorem by_date_within_all (tzOffset : Z) (userId : string) (w : World) :
  faulty w (length (sent w)) = false →
  ∃ all,
    (getUserWorkouts userId w).1 = Fulfilled all
    ∧ (∀ zone ms rows r,
         (getUserWorkoutsByDate zone userId (Instant ms) w).1 = Fulfilled rows →
         r ∈ rows → r ∈ all)
    ∧ (∀ r, r ∈ all →
         ∃ rows,
           (getUserWorkoutsByDate (fixedZone tzOffset) userId
              (Instant (Workout.date r)) w).1
             = Fulfilled rows
           ∧ r ∈ rows).
Proof.
  intros Hf. rewrite getUserWorkouts_run, Hf. eexists. split; [reflexivity|]. split.
  - intros zone ms rows r. rewrite getUserWorkoutsByDate_run, Hf. intros [= <-].
    rewrite !orderBy_elem_of, !list_elem_of_filter. by intros [[Hu _] Hr].
  - intros r. rewrite orderBy_elem_of, list_elem_of_filter. intros [Hu Hr].
    rewrite getUserWorkoutsByDate_fixed, Hf. eexists. split; [reflexivity|].
    rewrite orderBy_elem_of, list_elem_of_filter. split; [|done]. split; [done|].
    pose proof (Z.div_mod (Workout.date r + tzOffset) msPerDay ltac:(done)) as E.
    pose proof (Z.mod_pos_bound (Workout.date r + tzOffset) msPerDay ltac:(done)) as B.
    unfold msPerDay in *. lia.
Qed.

Lemma by_date_within_all_witness :
  ∃ all, (getUserWorkouts bob (request gym (Some bob) 1740900000000)).1 = Fulfilled all
         ∧ late_run ∈ all
         ∧ ∃ rows,
             (getUserWorkoutsByDate (fixedZone 0) bob (Instant (Workout.date late_run))
                (request gym (Some bob) 1740900000000)).1 = Fulfilled rows
             ∧ late_run ∈ rows.
Proof.
  destruct (by_date_within_all 0 bob (request gym (Some bob) 1740900000000) eq_refl)
    as (all & Hall & _ & Hown).
  exists all. split; [exact Hall|].
  assert (late_run ∈ all) as Hin.
  { vm_compute in Hall. injection Hall as <-. left. }
  split; [exact Hin | exact (Hown late_run Hin)].
Defined.

(** ** The children of an aggregate *)

(** X8.  In every aggregate [getUserWorkoutWithExercises] is fulfilled
    with, the workout has the id and the owner that were asked for, every
    exercise refers to that workout and every set refers to the exercise
    it is listed under. *)
Theorem aggregate_children_belong (workoutId : Z) (userId : string) (w : World)
    (a : WorkoutWithExercises) :
  (getUserWorkoutWithExercises workoutId userId w).1 = Fulfilled (Some a) →
  Workout.id (workout_row a) = workoutId
  ∧ Workout.userId (workout_row a) = userId
  ∧ Forall (fun e =>
              Exercise.workoutId (exercise_row e) = workoutId
              ∧ Forall (fun s => Sets.exerciseId s = Exercise.id (exercise_row e))
                       (exercise_sets e))
           (workout_exercises a).
Proof.
  rewrite getUserWorkoutWithExercises_run.
  destruct (refused w _); [done|].
  destruct (head _) as [workout0|] eqn:Hhead; [|done].
  destruct (faulty w _); [done|]. destruct (any_faulty w _ _); [done|].
  intros [= <-]. cbn [workout_row workout_exercises].
  apply head_Some_elem_of, list_elem_of_filter in Hhead as [[Hid Hu] _].
  split; [done|]. split; [done|].
  apply Forall_fmap, Forall_forall. intros e He. cbn. split.
  - by apply orderBy_elem_of, list_elem_of_filter in He as [He _].
  - apply Forall_forall. intros s Hs.
    by apply orderBy_elem_of, list_elem_of_filter in Hs as [Hs _].
Qed.

Lemma aggregate_children_belong_witness :
  ∃ a, (getUserWorkoutWithExercises 1 alice
          (request plan (Some alice) 1740900000000)).1 = Fulfilled (Some a)
       ∧ Workout.userId (workout_row a) = alice
       ∧ Forall (fun e => Exercise.workoutId (exercise_row e) = 1
                          ∧ Forall (fun s => Sets.exerciseId s
                                             = Exercise.id (exercise_row e))
                                   (exercise_sets e))
                (workout_exercises a).
Proof.
  eexists. split; [by vm_compute|].
  by apply (aggregate_children_belong 1 alice
              (request plan (Some alice) 1740900000000)).
Defined.

(** ** The create schema *)

Lemma createWorkoutSchema_fields (input : Input.t) (data : CreateInput.t) :
  createWorkoutSchema input = inr data ↔
  name_schema (Input.name input) = inr (CreateInput.name data)
  ∧ date_schema (Input.date input) = inr (CreateInput.date data)
  ∧ notes_schema (Input.notes input) = inr (CreateInput.notes data).
Proof.
  unfold createWorkoutSchema.
  destruct (name_schema _) as [n|n], (date_schema _) as [d|d],
    (notes_schema _) as [o|o]; destruct data;
    cbn; split; try done; try (by intros (? & ? & ?)).
  - by intros [= -> -> ->].
  - by intros ([= ->] & [= ->] & [= ->]).
Qed.

(** X9.  [createWorkoutSchema] accepts a payload exactly when [name] is a
    string of 1 to 255 characters, [date] is a string of at least one
    character and [notes] is absent or a string of at most 1000
    characters; the validated data are those very strings (nothing is
    trimmed or parsed), a [null] [notes] is not accepted, and whatever the
    payload holds under [id] plays no part. *)
Theorem create_schema_accepts (input : Input.t) (data : CreateInput.t) :
  createWorkoutSchema input = inr data ↔
  (Input.name input = VString (CreateInput.name data)
   ∧ (1 ≤ String.length (CreateInput.name data) ≤ 255)%nat)
  ∧ (Input.date input = VString (CreateInput.date data)
     ∧ (1 ≤ String.length (CreateInput.date data))%nat)
  ∧ (Input.notes input = VUndefined ∧ CreateInput.notes data = None
     ∨ ∃ s, Input.notes input = VString s ∧ CreateInput.notes data = Some s
            ∧ (String.length s ≤ 1000)%nat).
Proof.
  rewrite createWorkoutSchema_fields. unfold name_schema, date_schema.
  rewrite !z_string_accepts, notes_schema_accepts. split.
  - intros ((Hn & Hmin & Hmax) & (Hd & Hmin' & _) & Ho).
    specialize (Hmin _ _ eq_refl). specialize (Hmax _ _ eq_refl).
    specialize (Hmin' _ _ eq_refl). done.
  - intros ((Hn & Hlen) & (Hd & Hlen') & Ho). split; [|split; [|done]].
    + split; [done|]. split; intros ? ? [= <- <-]; lia.
    + split; [done|]. split; [|done]. intros ? ? [= <- <-]. lia.
Qed.

(** ** What the actions do to the world *)

(** X10.  Without a signed-in user (no user id, or an empty one) a
    payload that passes the schema gets ["Unauthorized"] from both actions,
    and nothing has happened: no statement was sent and no path was
    revalidated. *)
Theorem signed_out_mutation_refused (dateFromString : string → JsDate)
    (input : Input.t) (w : World) :
  session w = None ∨ session w = Some "" →
  (∀ data, createWorkoutSchema input = inr data →
     createWorkoutAction dateFromString input w = (Fulfilled (Failure "Unauthorized"), w))
  ∧ (∀ data, updateWorkoutSchema input = inr data →
       updateWorkoutAction dateFromString input w
       = (Fulfilled (Failure "Unauthorized"), w)).
Proof.
  intros Hsession. apply action_unauthorized. by destruct Hsession as [->| ->].
Qed.

Lemma signed_out_mutation_refused_witness :
  updateWorkoutAction dateFromString_2025_03_01 push_day_input
    (request gym (Some "") 1740900000000)
  = (Fulfilled (Failure "Unauthorized"), request gym (Some "") 1740900000000).
Proof.
  destruct (signed_out_mutation_refused dateFromString_2025_03_01 push_day_input
              (request gym (Some "") 1740900000000) (or_intror eq_refl))
    as [_ Hupdate].
  by eapply Hupdate.
Defined.

Lemma create_action_outcome (dateFromString : string → JsDate) (input : Input.t)
    (w : World) (o : option Workout.t) :
  (createWorkoutAction dateFromString input w).1 = Fulfilled (Success o) →
  ∃ data userId ms row,
    createWorkoutSchema input = inr data
    ∧ truthy (session w) = Some userId
    ∧ dateFromString (CreateInput.date data +:+ "T00:00:00") = Instant ms
    ∧ faulty w (length (sent w)) = false
    ∧ o = Some row
    ∧ row = inserted_row w (CreateInput.name data) ms (CreateInput.notes data) userId
    ∧ workouts (db (createWorkoutAction dateFromString input w).2)
      = workouts (db w) ++ [row].
Proof.
  destruct (createWorkoutSchema input) as [issues|data] eqn:Hschema.
  { by rewrite (proj1 (action_rejected _ _ _) _ Hschema). }
  destruct (truthy (session w)) as [userId|] eqn:Hsession.
  2: { by rewrite (proj1 (action_unauthorized _ _ _ Hsession) _ Hschema). }
  rewrite (createWorkoutAction_run _ _ _ _ _ Hschema Hsession).
  destruct (dateFromString (CreateInput.date data +:+ "T00:00:00")) as [ms|] eqn:Hdate.
  - rewrite (createWorkout_run (create_data dateFromString userId data) ms w Hdate).
    cbn zeta. destruct (faulty w (length (sent w))) eqn:Hf; [done|].
    cbn. intros [= <-]. eexists data, userId, ms, _. by repeat split.
  - by rewrite (createWorkout_invalid (create_data dateFromString userId data) w Hdate).
Qed.

(** X11.  [createWorkoutAction] reports success exactly when the payload
    passes the schema, a user is signed in, the runtime parses
    [date + 'T00:00:00'] to a valid date and the store answers the insert.
    The row it then returns has the next id of the sequence, the signed-in
    user as owner, the payload's [name] and [notes], the parsed date and
    the store's [now()] as both timestamps; it has been appended to the
    table, one insert was sent and ["/dashboard"] was revalidated. *)
Theorem create_action_success (dateFromString : string → JsDate) (input : Input.t)
    (w : World) (o : option Workout.t) :
  (createWorkoutAction dateFromString input w).1 = Fulfilled (Success o) ↔
  ∃ data userId ms row,
    createWorkoutSchema input = inr data
    ∧ truthy (session w) = Some userId
    ∧ dateFromString (CreateInput.date data +:+ "T00:00:00") = Instant ms
    ∧ faulty w (length (sent w)) = false
    ∧ o = Some row
    ∧ row = {| Workout.id := workouts_id_seq (db w);
               Workout.userId := userId;
               Workout.name := CreateInput.name data;
               Workout.date := ms;
               Workout.notes := CreateInput.notes data;
               Workout.createdAt := pg_now w;
               Workout.updatedAt := pg_now w |}
    ∧ workouts (db (createWorkoutAction dateFromString input w).2)
      = workouts (db w) ++ [row]
    ∧ sent (createWorkoutAction dateFromString input w).2
      = sent w ++ [Insert Tworkouts]
    ∧ revalidated (createWorkoutAction dateFromString input w).2
      = revalidated w ++ [DashboardPath].
Proof.
  destruct (createWorkoutSchema input) as [issues|data] eqn:Hschema.
  { rewrite (proj1 (action_rejected _ _ _) _ Hschema).
    split; [done | by intros (? & ? & ? & ? & ? & _)]. }
  destruct (truthy (session w)) as [userId|] eqn:Hsession.
  2: { rewrite (proj1 (action_unauthorized _ _ _ Hsession) _ Hschema).
       split; [done | by intros (? & ? & ? & ? & _ & ? & _)]. }
  rewrite (createWorkoutAction_run _ _ _ _ _ Hschema Hsession).
  destruct (dateFromString (CreateInput.date data +:+ "T00:00:00")) as [ms|] eqn:Hdate.
  - rewrite (createWorkout_run (create_data dateFromString userId data) ms w Hdate).
    cbn zeta. destruct (faulty w (length (sent w))) eqn:Hf.
    + split; [done | by intros (? & ? & ? & ? & _ & _ & _ & ? & _)].
    + cbn. split.
      * intros [= <-]. eexists data, userId, ms, _. by repeat split.
      * intros (data' & userId' & ms' & row & ? & ? & ? & _ & -> & -> & _).
        simplify_eq.
        assert (ms = ms') as -> by congruence. done.
  - rewrite (createWorkout_invalid (create_data dateFromString userId data) w Hdate).
    split; [done|]. intros (data' & ? & ? & ? & [= <-] & _ & ? & _). congruence.
Qed.

Lemma create_action_success_witness :
  ∃ row,
    (createWorkoutAction dateFromString_2025_03_01
       {| Input.id := VUndefined; Input.name := VString "Leg Day";
          Input.date := VString "2025-03-01"; Input.notes := VString "" |}
       (request gym (Some alice) 1740900000000)).1
    = Fulfilled (Success (Some row))
    ∧ Workout.userId row = alice
    ∧ Workout.notes row = Some "".
Proof.
  eexists. split; [by vm_compute|].
  match goal with |- Workout.userId ?r = _ ∧ _ => set (row := r) end.
  destruct (proj1 (create_action_success dateFromString_2025_03_01
              {| Input.id := VUndefined; Input.name := VString "Leg Day";
                 Input.date := VString "2025-03-01"; Input.notes := VString "" |}
              (request gym (Some alice) 1740900000000) (Some row)) eq_refl)
    as (data & userId & ms & row' & Hschema & Hsession & _ & _ & [= Hrow] & -> & _).
  apply createWorkoutSchema_fields in Hschema as (_ & _ & Ho).
  apply notes_schema_accepts in Ho as [[? _]|(s & [= <-] & Hnotes & _)]; [done|].
  injection Hsession as <-. rewrite Hrow. cbn. by rewrite Hnotes.
Defined.

Lemma createWorkout_keeps_children (data : CreateData.t) (w : World) :
  exercises (db (createWorkout data w).2) = exercises (db w)
  ∧ sets (db (createWorkout data w).2) = sets (db w).
Proof.
  destruct (CreateData.date data) as [ms|] eqn:Hdate.
  - rewrite (createWorkout_run _ _ _ Hdate). cbn zeta. by destruct (faulty w _).
  - by rewrite (createWorkout_invalid _ _ Hdate).
Qed.

Lemma updateWorkout_keeps_children (workoutId : Z) (userId : string) (data : UpdateData.t)
    (w : World) :
  exercises (db (updateWorkout workoutId userId data w).2) = exercises (db w)
  ∧ sets (db (updateWorkout workoutId userId data w).2) = sets (db w).
Proof.
  destruct (decide (UpdateData.date data = Some InvalidDate)) as [Hd|Hd].
  - by rewrite (updateWorkout_invalid _ _ _ _ Hd).
  - rewrite (updateWorkout_run _ _ _ _ Hd). cbn zeta. by destruct (refused w _).
Qed.

Lemma createWorkoutAction_keeps (dateFromString : string → JsDate)
    (input : Input.t) (w : World) :
  (∀ userId, truthy (session w) = Some userId →
     others userId (db (createWorkoutAction dateFromString input w).2)
     = others userId (db w))
  ∧ (truthy (session w) = None →
     db (createWorkoutAction dateFromString input w).2 = db w)
  ∧ exercises (db (createWorkoutAction dateFromString input w).2) = exercises (db w)
  ∧ sets (db (createWorkoutAction dateFromString input w).2) = sets (db w).
Proof.
  destruct (createWorkoutAction_db dateFromString input w)
    as [->|(data & user & _ & Hsession & ->)]; [done|].
  pose proof (createWorkout_keeps_children (create_data dateFromString user data) w)
    as [He Hs].
  split; [|split; [congruence|done]].
  intros userId Hsession'. assert (userId = user) as -> by congruence.
  apply (keeps_others _ _ _
           (createWorkout_scoped (create_data dateFromString user data))).
Qed.

Lemma updateWorkoutAction_keeps (dateFromString : string → JsDate)
    (input : Input.t) (w : World) :
  (∀ userId, truthy (session w) = Some userId →
     others userId (db (updateWorkoutAction dateFromString input w).2)
     = others userId (db w))
  ∧ (truthy (session w) = None →
     db (updateWorkoutAction dateFromString input w).2 = db w)
  ∧ exercises (db (updateWorkoutAction dateFromString input w).2) = exercises (db w)
  ∧ sets (db (updateWorkoutAction dateFromString input w).2) = sets (db w).
Proof.
  destruct (updateWorkoutAction_db dateFromString input w)
    as [->|(data & user & _ & Hsession & ->)]; [done|].
  pose proof (updateWorkout_keeps_children (UpdateInput.id data) user
                (update_data dateFromString data) w) as [He Hs].
  split; [|split; [congruence|done]].
  intros userId Hsession'. assert (userId = user) as -> by congruence.
  apply (keeps_others _ _ _
           (updateWorkout_scoped (UpdateInput.id data) user
              (update_data dateFromString data))).
Qed.

(** X12.  Neither action can touch another tenant's workouts, whatever the
    payload: with a signed-in user the workouts of every other owner are
    afterwards what they were, and without one the whole database is; the
    exercises and the sets are never touched. *)
Theorem actions_keep_other_tenants (dateFromString : string → JsDate)
    (input : Input.t) (w : World) :
  let created := (createWorkoutAction dateFromString input w).2 in
  let updated := (updateWorkoutAction dateFromString input w).2 in
  (∀ userId, truthy (session w) = Some userId →
     others userId (db created) = others userId (db w)
     ∧ others userId (db updated) = others userId (db w))
  ∧ (truthy (session w) = None → db created = db w ∧ db updated = db w)
  ∧ exercises (db created) = exercises (db w) ∧ sets (db created) = sets (db w)
  ∧ exercises (db updated) = exercises (db w) ∧ sets (db updated) = sets (db w).
Proof.
  intros created updated. unfold created, updated.
  destruct (createWorkoutAction_keeps dateFromString input w) as (Hc1 & Hc2 & Hc3 & Hc4).
  destruct (updateWorkoutAction_keeps dateFromString input w) as (Hu1 & Hu2 & Hu3 & Hu4).
  split; [intros userId Hsession; split; [by apply Hc1 | by apply Hu1]|].
  split; [intros Hnone; split; [by apply Hc2 | by apply Hu2]|].
  done.
Qed.

Lemma actions_keep_other_tenants_witness :
  others alice (db (updateWorkoutAction dateFromString_2025_03_01 (push_day_for 2)
                      (request gym (Some alice) 1740900000000)).2)
  = [late_run].
Proof.
  destruct (actions_keep_other_tenants dateFromString_2025_03_01 (push_day_for 2)
              (request gym (Some alice) 1740900000000)) as (Hothers & _).
  destruct (Hothers alice eq_refl) as [_ ->]. reflexivity.
Defined.

(** X13.  Through [updateWorkoutAction] too, a workout of somebody else
    cannot be told from one that does not exist: for two payloads that pass
    the schema and differ in [id] only, one naming no workout and one
    naming a workout of another owner, the action settles identically and
    leaves identical worlds, provided the id that names no workout is a
    32-bit integer; when the date parses and the store answers, both get
    ["Workout not found"] and nothing is revalidated.  An id beyond the
    [integer] column is told apart: the store rejects it, and the action
    answers ["Failed to update workout"]. *)
Theorem update_action_not_found_indistinguishable
    (dateFromString : string → JsDate) (input1 input2 : Input.t)
    (data1 data2 : UpdateInput.t) (userId : string) (r : Workout.t) (w : World) :
  primary_key (db w) →
  truthy (session w) = Some userId →
  updateWorkoutSchema input1 = inr data1 →
  updateWorkoutSchema input2 = inr data2 →
  UpdateInput.name data1 = UpdateInput.name data2 →
  UpdateInput.date data1 = UpdateInput.date data2 →
  UpdateInput.notes data1 = UpdateInput.notes data2 →
  (∀ x, x ∈ workouts (db w) → Workout.id x ≠ UpdateInput.id data1) →
  r ∈ workouts (db w) → Workout.id r = UpdateInput.id data2 →
  Workout.userId r ≠ userId →
  (int4 (UpdateInput.id data1) →
   updateWorkoutAction dateFromString input1 w
   = updateWorkoutAction dateFromString input2 w
   ∧ (faulty w (length (sent w)) = false →
      dateFromString (UpdateInput.date data1 +:+ "T00:00:00") ≠ InvalidDate →
      (updateWorkoutAction dateFromString input1 w).1
      = Fulfilled (Failure "Workout not found")
      ∧ revalidated (updateWorkoutAction dateFromString input1 w).2 = revalidated w))
  ∧ (¬ int4 (UpdateInput.id data1) →
     faulty w (length (sent w)) = false →
     dateFromString (UpdateInput.date data1 +:+ "T00:00:00") ≠ InvalidDate →
     (updateWorkoutAction dateFromString input1 w).1
     = Fulfilled (Failure "Failed to update workout")
     ∧ (updateWorkoutAction dateFromString input2 w).1
       = Fulfilled (Failure "Workout not found")).
Proof.
  intros Hpk Hsession Hs1 Hs2 Hname Hdate Hnotes Habsent Hr Hid Hu.
  rewrite (updateWorkoutAction_run _ _ _ _ _ Hs1 Hsession),
    (updateWorkoutAction_run _ _ _ _ _ Hs2 Hsession).
  assert (update_data dateFromString data1 = update_data dateFromString data2) as Hdata
    by (unfold update_data; by rewrite Hname, Hdate, Hnotes).
  rewrite <- Hdata, <- Hid.
  pose proof (foreign_id_selects_nothing _ _ _ Hpk Hr Hu) as H2.
  pose proof (absent_id_selects_nothing _ _ userId Habsent) as H1.
  assert (refused w (Workout.id r) = faulty w (length (sent w))) as Hforeign.
  { unfold refused. rewrite bool_decide_eq_false_2; [by rewrite orb_false_r|].
    intros Hno. by apply Hno, stored_column_holds. }
  destruct (dateFromString (UpdateInput.date data1 +:+ "T00:00:00")) as [ms|] eqn:Hparse.
  - assert (UpdateData.date (update_data dateFromString data1) ≠ Some InvalidDate)
      as Hvalid by (cbn; by rewrite Hparse).
    rewrite !(updateWorkout_run _ _ _ _ Hvalid), H1, H2, Hforeign.
    rewrite !update_where_nothing by done. split.
    + intros Hint. rewrite (refused_int4 _ _ Hint).
      destruct (faulty w _); [done|]. by split.
    + intros Hint Hf _. rewrite Hf. unfold refused. rewrite Hf.
      rewrite bool_decide_eq_true_2; [done|].
      intros [Hin|(x & Hx & Hin)%list_elem_of_fmap]; [done|].
      by apply (Habsent x).
  - assert (UpdateData.date (update_data dateFromString data1) = Some InvalidDate)
      as Hinvalid by (cbn; by rewrite Hparse).
    rewrite !(updateWorkout_invalid _ _ _ _ Hinvalid). by split.
Qed.

Lemma update_action_not_found_indistinguishable_witness :
  int4 7
  ∧ updateWorkoutAction dateFromString_2025_03_01 (push_day_for 7)
      (request gym (Some alice) 1740900000000)
    = updateWorkoutAction dateFromString_2025_03_01 (push_day_for 2)
        (request gym (Some alice) 1740900000000)
  ∧ (updateWorkoutAction dateFromString_2025_03_01 (push_day_for 7)
       (request gym (Some alice) 1740900000000)).1
    = Fulfilled (Failure "Workout not found").
Proof.
  assert (int4 7) as Hint by (unfold int4; lia).
  assert (∀ x, x ∈ workouts gym → Workout.id x ≠ 7) as Habsent.
  { intros x Hx. apply elem_of_cons in Hx as [->|Hx]; [done|].
    apply list_elem_of_singleton in Hx as ->. done. }
  assert (late_run ∈ workouts gym) as Hin by (right; left).
  assert (Workout.userId late_run ≠ alice) as Hne by done.
  destruct (update_action_not_found_indistinguishable dateFromString_2025_03_01
              (push_day_for 7) (push_day_for 2)
              (UpdateInput.mk 7 "Push Day" "2025-03-01" None)
              (UpdateInput.mk 2 "Push Day" "2025-03-01" None)
              alice late_run (request gym (Some alice) 1740900000000)
              gym_primary_key eq_refl eq_refl eq_refl eq_refl eq_refl eq_refl
              Habsent Hin eq_refl Hne) as [Hin_range _].
  destruct (Hin_range Hint) as [Hsame Hnot_found].
  split; [exact Hint|]. split; [exact Hsame|]. by apply Hnot_found.
Defined.

Example update_action_beyond_the_column :
  (updateWorkoutAction dateFromString_2025_03_01 (push_day_for 2147483648)
     (request gym (Some alice) 1740900000000)).1
  = Fulfilled (Failure "Failed to update workout")
  ∧ (updateWorkoutAction dateFromString_2025_03_01 (push_day_for 2)
       (request gym (Some alice) 1740900000000)).1
    = Fulfilled (Failure "Workout not found").
Proof. by vm_compute. Qed.

(** X14.  A [date] that passes the schema but that the runtime cannot
    parse is not a validation error: for a signed-in user both actions
    return their generic failure message, and nothing has happened: no
    statement was sent and no path was revalidated. *)
Theorem unparsable_date_fails_early (dateFromString : string → JsDate)
    (input : Input.t) (userId : string) (w : World) :
  truthy (session w) = Some userId →
  (∀ data, createWorkoutSchema input = inr data →
     dateFromString (CreateInput.date data +:+ "T00:00:00") = InvalidDate →
     createWorkoutAction dateFromString input w
     = (Fulfilled (Failure "Failed to create workout"), w))
  ∧ (∀ data, updateWorkoutSchema input = inr data →
       dateFromString (UpdateInput.date data +:+ "T00:00:00") = InvalidDate →
       updateWorkoutAction dateFromString input w
       = (Fulfilled (Failure "Failed to update workout"), w)).
Proof.
  intros Hsession. split; intros data Hschema Hparse.
  - rewrite (createWorkoutAction_run _ _ _ _ _ Hschema Hsession).
    by rewrite (createWorkout_invalid (create_data dateFromString userId data) w Hparse).
  - rewrite (updateWorkoutAction_run _ _ _ _ _ Hschema Hsession).
    rewrite (updateWorkout_invalid _ _ (update_data dateFromString data) w); [done|].
    cbn. by rewrite Hparse.
Qed.

Lemma unparsable_date_fails_early_witness :
  updateWorkoutAction dateFromString_2025_03_01 unparsable_date_input
    (request gym (Some alice) 1740900000000)
  = (Fulfilled (Failure "Failed to update workout"),
     request gym (Some alice) 1740900000000).
Proof.
  destruct (unparsable_date_fails_early dateFromString_2025_03_01
              unparsable_date_input alice
              (request gym (Some alice) 1740900000000) eq_refl) as [_ Hupdate].
  by apply (Hupdate (UpdateInput.mk 1 "Push Day" "tomorrow" None)).
Defined.

(** X15.  When [updateWorkoutAction] reports success, the payload passed
    the schema, a user is signed in and the date parsed; the row it returns
    is a stored workout of that user with the payload's id, carrying the
    payload's [name], the parsed date, the payload's [notes] (or the stored
    ones when the payload has none), the clock reading as [updatedAt] and
    its old [createdAt]; it is in the table afterwards, and ["/dashboard"]
    and the workout's own path were revalidated, in that order. *)
Theorem update_action_success (dateFromString : string → JsDate) (input : Input.t)
    (w : World) (o : option Workout.t) :
  (updateWorkoutAction dateFromString input w).1 = Fulfilled (Success o) →
  ∃ data userId ms r r',
    updateWorkoutSchema input = inr data
    ∧ truthy (session w) = Some userId
    ∧ dateFromString (UpdateInput.date data +:+ "T00:00:00") = Instant ms
    ∧ o = Some r'
    ∧ r ∈ workouts (db w)
    ∧ Workout.id r = UpdateInput.id data ∧ Workout.userId r = userId
    ∧ r' = {| Workout.id := Workout.id r;
              Workout.userId := Workout.userId r;
              Workout.name := UpdateInput.name data;
              Workout.date := ms;
              Workout.notes := match UpdateInput.notes data with
                               | Some notes => Some notes
                               | None => Workout.notes r
                               end;
              Workout.createdAt := Workout.createdAt r;
              Workout.updatedAt := clock w |}
    ∧ r' ∈ workouts (db (updateWorkoutAction dateFromString input w).2)
    ∧ revalidated (updateWorkoutAction dateFromString input w).2
      = revalidated w ++ [DashboardPath; WorkoutPath (UpdateInput.id data)].
Proof.
  destruct (updateWorkoutSchema input) as [issues|data] eqn:Hschema.
  { by rewrite (proj2 (action_rejected _ _ _) _ Hschema). }
  destruct (truthy (session w)) as [userId|] eqn:Hsession.
  2: { by rewrite (proj2 (action_unauthorized _ _ _ Hsession) _ Hschema). }
  rewrite (updateWorkoutAction_run _ _ _ _ _ Hschema Hsession).
  destruct (updateWorkout (UpdateInput.id data) userId
              (update_data dateFromString data) w) as [[[row|]|e] w1] eqn:Hrun;
    [|done..].
  cbn [fst snd]. intros [= <-].
  assert ((updateWorkout (UpdateInput.id data) userId
             (update_data dateFromString data) w).1 = Fulfilled (Some row)) as Hres
    by by rewrite Hrun.
  apply updateWorkout_fulfilled_row in Hres as (Hvalid & r & Hr & [Hid Hu] & Hrow & Hin).
  rewrite Hrun in Hin. cbn [snd] in Hin.
  destruct (dateFromString (UpdateInput.date data +:+ "T00:00:00")) as [ms|] eqn:Hparse.
  2: { exfalso. apply Hvalid. cbn. by rewrite Hparse. }
  exists data, userId, ms, r, row.
  split; [done|]. split; [done|]. split; [done|]. split; [done|]. split; [done|].
  split; [done|]. split; [done|]. split.
  { rewrite Hrow. unfold set_columns, update_data. cbn. by rewrite Hparse. }
  split; [done|]. cbn.
  assert (revalidated w1 = revalidated w) as ->; [|by rewrite <- app_assoc].
  destruct (decide (UpdateData.date (update_data dateFromString data)
                    = Some InvalidDate)) as [Hd|Hd]; [done|].
  rewrite (updateWorkout_run _ _ _ _ Hd) in Hrun. cbn zeta in Hrun.
  destruct (refused w _); by injection Hrun as _ <-.
Qed.

Lemma update_action_success_witness :
  ∃ r', (updateWorkoutAction dateFromString_2025_03_01 push_day_input
           (request gym (Some alice) 1740900000000)).1
        = Fulfilled (Success (Some r'))
        ∧ Workout.name r' = "Push Day"
        ∧ Workout.notes r' = Some "heavy"
        ∧ Workout.userId r' = alice.
Proof.
  eexists. split; [by vm_compute|].
  match goal with |- Workout.name ?r = _ ∧ _ => set (row := r) end.
  destruct (update_action_success dateFromString_2025_03_01 push_day_input
              (request gym (Some alice) 1740900000000) (Some row) eq_refl)
    as (data & userId & ms & r & r' & _ & _ & _ & [= <-] & _).
  done.
Defined.

(** ** The pages *)

Lemma EditWorkoutPage_run (parseInt : string → option Z) (workoutId : string)
    (w : World) :
  EditWorkoutPage parseInt workoutId w =
    match truthy (session w) with
    | None => (Fulfilled (Redirected "/sign-in"), w)
    | Some userId =>
        match parseInt workoutId with
        | None => (Fulfilled (Redirected "/dashboard"), w)
        | Some workoutIdNum =>
            (if refused w workoutIdNum then Rejected StoreError
             else Fulfilled
                    match head (filter (owned workoutIdNum userId)
                                       (workouts (db w))) with
                    | Some workout => Rendered workout
                    | None => Redirected "/dashboard"
                    end,
             log_statement (Select Tworkouts) w)
        end
    end.
Proof.
  unfold EditWorkoutPage, auth, mbind, Async_bind.
  destruct (truthy (session w)) as [userId|]; [|done].
  destruct (parseInt workoutId) as [workoutIdNum|]; [|done].
  rewrite getUserWorkout_run. destruct (refused w _); [done|].
  by destruct (head _).
Qed.

(** X16.  [EditWorkoutPage] renders a workout only to its owner: without a
    signed-in user it redirects to ["/sign-in"], and with a [workoutId]
    that [parseInt] turns into [NaN] to ["/dashboard"], in both cases
    before any statement is sent; a workout it renders is a stored workout
    whose owner is the signed-in user and whose id is the parsed
    [workoutId]; it redirects nowhere else and never changes the
    database. *)
Theorem edit_page_outcomes (parseInt : string → option Z) (workoutId : string)
    (w : World) :
  (truthy (session w) = None →
   EditWorkoutPage parseInt workoutId w = (Fulfilled (Redirected "/sign-in"), w))
  ∧ (∀ userId, truthy (session w) = Some userId → parseInt workoutId = None →
       EditWorkoutPage parseInt workoutId w = (Fulfilled (Redirected "/dashboard"), w))
  ∧ (∀ r, (EditWorkoutPage parseInt workoutId w).1 = Fulfilled (Rendered r) →
       r ∈ workouts (db w)
       ∧ truthy (session w) = Some (Workout.userId r)
       ∧ parseInt workoutId = Some (Workout.id r))
  ∧ (∀ url, (EditWorkoutPage parseInt workoutId w).1 = Fulfilled (Redirected url) →
       url = "/sign-in" ∨ url = "/dashboard")
  ∧ db (EditWorkoutPage parseInt workoutId w).2 = db w.
Proof.
  rewrite EditWorkoutPage_run.
  destruct (truthy (session w)) as [userId|].
  2: { repeat split; try done. intros url [= <-]. by left. }
  destruct (parseInt workoutId) as [workoutIdNum|].
  2: { repeat split; try done. intros url [= <-]. by right. }
  split; [done|]. split; [done|]. split; [|split; [|done]].
  - intros r. destruct (refused w _); [done|]. cbn [fst].
    destruct (head _) as [workout|] eqn:Hhead; [|done]. intros [= <-].
    apply head_Some_elem_of, list_elem_of_filter in Hhead as [[<- <-] Hin]. done.
  - intros url. destruct (refused w _); [done|]. cbn [fst].
    destruct (head _); [done|]. intros [= <-]. by right.
Qed.

Lemma edit_page_outcomes_witness :
  ∃ r, (EditWorkoutPage (fun _ => Some 1) "1"
          (request gym (Some alice) 1740900000000)).1 = Fulfilled (Rendered r)
       ∧ r ∈ workouts gym
       ∧ Workout.userId r = alice.
Proof.
  eexists. split; [by vm_compute|].
  match goal with |- ?r ∈ _ ∧ _ => set (row := r) end.
  destruct (edit_page_outcomes (fun _ => Some 1) "1"
              (request gym (Some alice) 1740900000000)) as (_ & _ & Hrender & _).
  destruct (Hrender row eq_refl) as (Hin & Hsession & _).
  split; [exact Hin|]. change (Some (Workout.userId row) = Some alice) in Hsession.
  congruence.
Defined.

(** X17.  To [EditWorkoutPage] a [workoutId] that names no workout and one
    that names a workout of another owner are the same, provided the first
    parses to a 32-bit integer: the page settles identically and leaves
    identical worlds; when the store answers, both redirect to
    ["/dashboard"], as a [workoutId] that is no number does.  A [workoutId]
    beyond the [integer] column is told apart: the store rejects the
    statement and the page is rejected, where the workout of another owner
    redirects. *)
Theorem edit_page_indistinguishable (parseInt : string → option Z)
    (param1 param2 param3 : string) (id1 id2 : Z) (userId : string)
    (r : Workout.t) (w : World) :
  primary_key (db w) →
  truthy (session w) = Some userId →
  parseInt param1 = Some id1 → parseInt param2 = Some id2 →
  parseInt param3 = None →
  (∀ x, x ∈ workouts (db w) → Workout.id x ≠ id1) →
  r ∈ workouts (db w) → Workout.id r = id2 → Workout.userId r ≠ userId →
  (int4 id1 →
   EditWorkoutPage parseInt param1 w = EditWorkoutPage parseInt param2 w
   ∧ (faulty w (length (sent w)) = false →
      (EditWorkoutPage parseInt param1 w).1 = Fulfilled (Redirected "/dashboard")
      ∧ (EditWorkoutPage parseInt param3 w).1 = Fulfilled (Redirected "/dashboard")))
  ∧ (¬ int4 id1 → faulty w (length (sent w)) = false →
     (EditWorkoutPage parseInt param1 w).1 = Rejected StoreError
     ∧ (EditWorkoutPage parseInt param2 w).1 = Fulfilled (Redirected "/dashboard")).
Proof.
  intros Hpk Hsession Hp1 Hp2 Hp3 Habsent Hr <- Hu.
  rewrite !EditWorkoutPage_run, Hsession, Hp1, Hp2, Hp3.
  rewrite (foreign_id_selects_nothing _ _ _ Hpk Hr Hu).
  rewrite (absent_id_selects_nothing _ _ userId Habsent).
  assert (refused w (Workout.id r) = faulty w (length (sent w))) as ->.
  { unfold refused. rewrite bool_decide_eq_false_2; [by rewrite orb_false_r|].
    intros Hno. by apply Hno, stored_column_holds. }
  split.
  - intros Hint. rewrite (refused_int4 _ _ Hint). split; [done|]. by intros ->.
  - intros Hint Hf. rewrite Hf. unfold refused. rewrite Hf.
    rewrite bool_decide_eq_true_2; [done|].
    intros [Hin|(x & Hx & Hin)%list_elem_of_fmap]; [done|].
    by apply (Habsent x).
Qed.

Lemma edit_page_indistinguishable_witness :
  int4 7
  ∧ EditWorkoutPage parseInt_example "7" (request gym (Some alice) 1740900000000)
    = EditWorkoutPage parseInt_example "2" (request gym (Some alice) 1740900000000)
  ∧ (EditWorkoutPage parseInt_example "abc"
       (request gym (Some alice) 1740900000000)).1
    = Fulfilled (Redirected "/dashboard").
Proof.
  assert (int4 7) as Hint by (unfold int4; lia).
  assert (∀ x, x ∈ workouts gym → Workout.id x ≠ 7) as Habsent.
  { intros x Hx. apply elem_of_cons in Hx as [->|Hx]; [done|].
    apply list_elem_of_singleton in Hx as ->. done. }
  assert (late_run ∈ workouts gym) as Hin by (right; left).
  assert (Workout.userId late_run ≠ alice) as Hne by done.
  destruct (edit_page_indistinguishable parseInt_example "7" "2" "abc" 7 2 alice
              late_run (request gym (Some alice) 1740900000000)
              gym_primary_key eq_refl eq_refl eq_refl eq_refl Habsent Hin eq_refl Hne)
    as [Hin_range _].
  destruct (Hin_range Hint) as [Hsame Hredirect].
  split; [exact Hint|]. split; [exact Hsame|]. by apply Hredirect.
Defined.

Example edit_page_beyond_the_column :
  (EditWorkoutPage (fun _ => Some 2147483648) "2147483648"
     (request gym (Some alice) 1740900000000)).1 = Rejected StoreError
  ∧ (EditWorkoutPage (fun _ => Some 2) "2"
       (request gym (Some alice) 1740900000000)).1
    = Fulfilled (Redirected "/dashboard").
Proof. by vm_compute. Qed.

Lemma DashboardPage_run (dateFromString : string → JsDate) (zone : TimeZone)
    (dateParam : option string) (w : World) :
  DashboardPage dateFromString zone dateParam w =
    match truthy (session w) with
    | None => (Fulfilled (Redirected "/sign-in"), w)
    | Some userId =>
        let selectedDate :=
          match truthy dateParam with
          | Some dateParam => dateFromString (dateParam +:+ "T00:00:00")
          | None => Instant (clock w)
          end in
        match getUserWorkoutsByDate zone userId selectedDate w with
        | (Fulfilled workouts, w1) => (Fulfilled (Rendered (workouts, selectedDate)), w1)
        | (Rejected e, w1) => (Rejected e, w1)
        end
    end.
Proof.
  unfold DashboardPage, auth, newDate, mbind, Async_bind.
  destruct (truthy (session w)) as [userId|]; [|done].
  destruct (truthy dateParam) as [param|]; cbn [mret Async_ret].
  - by destruct (getUserWorkoutsByDate zone userId
                   (dateFromString (param +:+ "T00:00:00")) w) as [[workouts|e] w1].
  - by destruct (getUserWorkoutsByDate zone userId (Instant (clock w)) w)
      as [[workouts|e] w1].
Qed.

(** X18.  What [DashboardPage] renders is the signed-in user's day: the
    selected date is what the runtime parses [date + 'T00:00:00'] to, or
    the current time when the [date] parameter is missing or empty; it is a
    valid date, and the workouts rendered are exactly the stored workouts
    of the signed-in user whose [date] lies between [setHours(0, 0, 0, 0)]
    and [setHours(23, 59, 59, 999)] of the selected date in the server's
    zone, in ascending order of [date]; on a server whose clocks never
    change these are the workouts of the local calendar day of the selected
    date.  Without a signed-in user the page redirects to ["/sign-in"]
    before any statement is sent. *)
Theorem dashboard_page_renders (dateFromString : string → JsDate) (zone : TimeZone)
    (dateParam : option string) (w : World) :
  (truthy (session w) = None →
   DashboardPage dateFromString zone dateParam w
   = (Fulfilled (Redirected "/sign-in"), w))
  ∧ ∀ rows selectedDate,
      (DashboardPage dateFromString zone dateParam w).1
        = Fulfilled (Rendered (rows, selectedDate)) →
      ∃ userId ms lo hi,
        truthy (session w) = Some userId
        ∧ selectedDate = Instant ms
        ∧ match truthy dateParam with
          | Some param => dateFromString (param +:+ "T00:00:00") = Instant ms
          | None => ms = clock w
          end
        ∧ startOfDay zone selectedDate = Instant lo
        ∧ endOfDay zone selectedDate = Instant hi
        ∧ StronglySorted (key_le Workout.date) rows
        ∧ (∀ r, r ∈ rows ↔
                r ∈ workouts (db w) ∧ Workout.userId r = userId
                ∧ lo ≤ Workout.date r ≤ hi)
        ∧ (∀ tzOffset, zone = fixedZone tzOffset →
             ∀ r, r ∈ rows ↔
                  r ∈ workouts (db w) ∧ Workout.userId r = userId
                  ∧ (Workout.date r + tzOffset) `div` msPerDay
                    = (ms + tzOffset) `div` msPerDay).
Proof.
  rewrite DashboardPage_run.
  destruct (truthy (session w)) as [userId|]; [|by split].
  split; [done|]. intros rows selectedDate. cbn zeta.
  set (selected := match truthy dateParam with
                   | Some param => dateFromString (param +:+ "T00:00:00")
                   | None => Instant (clock w)
                   end).
  assert (∀ ms, selected = Instant ms →
                match truthy dateParam with
                | Some param => dateFromString (param +:+ "T00:00:00") = Instant ms
                | None => ms = clock w
                end) as Hselected.
  { unfold selected. intros ms. destruct (truthy dateParam); [done|]. by intros [= <-]. }
  destruct selected as [ms|]; [|done].
  destruct (faulty w (length (sent w))) eqn:Hf.
  { by rewrite getUserWorkoutsByDate_run, Hf. }
  intros Hrun. eexists userId, ms, _, _.
  split; [done|].
  assert (selectedDate = Instant ms) as ->.
  { rewrite getUserWorkoutsByDate_run, Hf in Hrun. by injection Hrun as _ <-. }
  split; [done|]. split; [by apply Hselected|].
  split; [reflexivity|]. split; [reflexivity|].
  split; [|split].
  - rewrite getUserWorkoutsByDate_run, Hf in Hrun. injection Hrun as <-.
    apply orderBy_sorted.
  - rewrite getUserWorkoutsByDate_run, Hf in Hrun. injection Hrun as <-.
    intros r. rewrite orderBy_elem_of, list_elem_of_filter. intuition.
  - intros tzOffset ->. rewrite getUserWorkoutsByDate_fixed, Hf in Hrun.
    injection Hrun as <-.
    intros r. rewrite orderBy_elem_of, list_elem_of_filter.
    pose proof (Z.div_mod (ms + tzOffset) msPerDay ltac:(done)) as E.
    pose proof (Z.mod_pos_bound (ms + tzOffset) msPerDay ltac:(done)) as B.
    pose proof (Z.div_mod (Workout.date r + tzOffset) msPerDay ltac:(done)) as E'.
    pose proof (Z.mod_pos_bound (Workout.date r + tzOffset) msPerDay ltac:(done)) as B'.
    unfold msPerDay in *. split.
    + intros [(Hu & Hlo & Hhi) Hr]. split; [done|]. split; [done|]. lia.
    + intros (Hr & Hu & Hday). split; [|done]. split; [done|]. rewrite <- Hday. lia.
Qed.

Lemma dashboard_page_renders_witness :
  ∃ rows selectedDate,
    (DashboardPage dateFromString_2025_03_01 (fixedZone 0) (Some "2025-03-01")
       (request gym (Some bob) 1740900000000)).1
    = Fulfilled (Rendered (rows, selectedDate))
    ∧ (late_run ∈ rows ↔ late_run ∈ workouts gym ∧ Workout.userId late_run = bob
                          ∧ (Workout.date late_run + 0) `div` msPerDay = 20148).
Proof.
  eexists _, _. split; [by vm_compute|].
  destruct (dashboard_page_renders dateFromString_2025_03_01 (fixedZone 0)
              (Some "2025-03-01") (request gym (Some bob) 1740900000000))
    as [_ Hrender].
  destruct (Hrender _ _ eq_refl)
    as (userId & ms & lo & hi & [= <-] & [= <-] & _ & _ & _ & _ & _ & Hrows).
  apply (Hrows 0 eq_refl).
Defined.

(** X19.  A [date] parameter the runtime cannot parse is not replaced by a
    default: for a signed-in user [DashboardPage] is rejected with the
    [RangeError] of the invalid date, before any statement is sent. *)
Theorem dashboard_page_unparsable (dateFromString : string → JsDate) (zone : TimeZone)
    (dateParam userId : string) (w : World) :
  truthy (session w) = Some userId →
  dateParam ≠ "" →
  dateFromString (dateParam +:+ "T00:00:00") = InvalidDate →
  DashboardPage dateFromString zone (Some dateParam) w = (Rejected RangeError, w).
Proof.
  intros Hsession Hparam Hparse. rewrite DashboardPage_run, Hsession.
  destruct dateParam as [|c s]; [done|]. cbn [truthy]. cbn zeta. by rewrite Hparse.
Qed.

Lemma dashboard_page_unparsable_witness :
  DashboardPage dateFromString_2025_03_01 (fixedZone 0) (Some "yesterday")
    (request gym (Some bob) 1740900000000)
  = (Rejected RangeError, request gym (Some bob) 1740900000000).
Proof.
  by apply (dashboard_page_unparsable dateFromString_2025_03_01 (fixedZone 0)
              "yesterday" bob).
Defined.

(** ** From the calendar to the query *)

Lemma civil_of_doe_round (doe : Z) :
  0 ≤ doe < 146097 →
  0 ≤ (civil_of_doe doe).1.1 < 400
  ∧ 1 ≤ (civil_of_doe doe).1.2 ≤ 12
  ∧ 1 ≤ (civil_of_doe doe).2 ≤ 31
  ∧ doe_of_civil (civil_of_doe doe).1.1 (civil_of_doe doe).1.2 (civil_of_doe doe).2
    = doe.
Proof.
  intros H. unfold civil_of_doe, doe_of_civil. cbv zeta. cbn [fst snd].
  set (yoe := (doe - doe `div` 1460 + doe `div` 36524 - doe `div` 146096) `div` 365).
  set (doy := doe - (365 * yoe + yoe `div` 4 - yoe `div` 100)).
  assert (0 ≤ yoe < 400 ∧ 0 ≤ doy ≤ 365) as [Hy Hd].
  { unfold doy, yoe. clear doy yoe. Z.div_mod_to_equations. lia. }
  assert (doe = doy + (365 * yoe + yoe `div` 4 - yoe `div` 100)) as Hdoe
    by (unfold doy; lia).
  clearbody doy. clearbody yoe. subst doe.
  destruct ((5 * doy + 2) `div` 153 <? 10) eqn:E;
    [apply Z.ltb_lt in E | apply Z.ltb_ge in E];
    Z.div_mod_to_equations; lia.
Qed.

Lemma civil_from_days_eras (z : Z) :
  let era := (z + 719468) `div` 146097 in
  let doe := z + 719468 - era * 146097 in
  civil_from_days z =
    (if (civil_of_doe doe).1.2 <=? 2
     then (civil_of_doe doe).1.1 + era * 400 + 1
     else (civil_of_doe doe).1.1 + era * 400,
     (civil_of_doe doe).1.2, (civil_of_doe doe).2).
Proof. reflexivity. Qed.

Lemma days_from_civil_civil_from_days (z : Z) :
  days_from_civil (civil_from_days z).1.1 (civil_from_days z).1.2
    (civil_from_days z).2 = z
  ∧ 1 ≤ (civil_from_days z).1.2 ≤ 12
  ∧ 1 ≤ (civil_from_days z).2 ≤ 31.
Proof.
  rewrite civil_from_days_eras. cbv zeta. cbn [fst snd].
  set (era := (z + 719468) `div` 146097).
  set (doe := z + 719468 - era * 146097).
  assert (0 ≤ doe < 146097) as Hdoe.
  { unfold doe, era. Z.div_mod_to_equations. lia. }
  destruct (civil_of_doe_round doe Hdoe) as (Hy & Hm & Hd & Hround).
  destruct (civil_of_doe doe) as [[yoe m] d]. cbn [fst snd] in *.
  split; [|done]. unfold days_from_civil. cbv zeta.
  assert ((if m <=? 2
           then (if m <=? 2 then yoe + era * 400 + 1 else yoe + era * 400) - 1
           else (if m <=? 2 then yoe + era * 400 + 1 else yoe + era * 400))
          = yoe + era * 400) as -> by (destruct (m <=? 2); lia).
  rewrite Z.div_add by done. rewrite (Z.div_small yoe 400) by lia.
  replace (yoe + era * 400 - (0 + era) * 400) with yoe by lia.
  unfold doe_of_civil in Hround. cbv zeta in Hround. unfold doe in Hround. lia.
Qed.

Lemma append_dash_nonempty (a b : string) : a +:+ "-" +:+ b ≠ "".
Proof. by destruct a. Qed.

Lemma truthy_nonempty (s : string) : s ≠ "" → truthy (Some s) = Some s.
Proof. by destruct s. Qed.

Lemma handleDateSelect_valid (zone : TimeZone) (ms : Z) :
  handleDateSelect zone (Some (Instant ms))
  = Some ("/dashboard?date=" +:+ dateString_of zone ms).
Proof.
  unfold handleDateSelect, dateString_of, getFullYear, getMonth, getDate, String_of.
  cbn [fmap option_fmap option_map].
  by replace ((localCivil zone ms).1.2 - 1 + 1) with (localCivil zone ms).1.2
    by lia.
Qed.

Lemma zoneInstant_midnight (zone : TimeZone) (y m d : Z) :
  zoneInstant zone y m d 0 0 0 0
  = days_from_civil y m d * msPerDay
    - offsetOfLocal zone (days_from_civil y m d * msPerDay).
Proof.
  unfold zoneInstant. cbv zeta.
  by replace (days_from_civil y m d * msPerDay + 0 * 3600000 + 0 * 60000 + 0 * 1000 + 0)
    with (days_from_civil y m d * msPerDay) by lia.
Qed.



(** A browser ahead of the server: at 2025-03-02T00:30 in a browser on
    UTC+1 the server, on UTC, is still on 2025-03-01.  The pick is sent as
    "2025-03-02", and the page shows the server's 2025-03-02, a day that
    does not hold the picked instant. *)
Example calendar_pick_across_zones :
  let ms := zoneInstant (fixedZone 3600000) 2025 3 2 0 30 0 0 in
  handleDateSelect (fixedZone 3600000) (Some (Instant ms))
  = Some "/dashboard?date=2025-03-02"
  ∧ localCivil (fixedZone 0) ms = (2025, 3, 1)
  ∧ startOfDay (fixedZone 0) (Instant (zoneInstant (fixedZone 0) 2025 3 2 0 0 0 0))
    = Instant (localInstant 0 2025 3 2 0 0 0 0)
  ∧ ms < localInstant 0 2025 3 2 0 0 0 0.
Proof. by vm_compute. Qed.

(** ** The form *)

Lemma submitTransition_run (dateFromString : string → JsDate) (formData : FormData)
    (w : World) :
  submitTransition dateFromString formData w =
    match createWorkoutAction dateFromString
            {| Input.id := VUndefined;
               Input.name := FormData_get formData "name";
               Input.date := FormData_get formData "date";
               Input.notes := FormData_get formData "notes" |} w with
    | (Fulfilled (Success _), w1) => (Fulfilled (mkFormState None ["/dashboard"]), w1)
    | (Fulfilled (Failure error), w1) =>
        (Fulfilled (mkFormState
                      (Some (if decide (error = "") then "Failed to create workout"
                             else error)) []), w1)
    | (Rejected e, w1) => (Rejected e, w1)
    end.
Proof.
  unfold submitTransition, mbind, Async_bind.
  by destruct (createWorkoutAction _ _ w) as [[[o|error]|e] w1].
Qed.

(** X21.  The new-workout form navigates only after an insert.
    [handleSubmit] itself awaits nothing: it clears the error, pushes
    nothing and hands its callback to [startTransition].  When that
    transition is fulfilled it has either pushed ["/dashboard"] with no
    error, and then a workout owned by the signed-in user, named as the
    form's [name] field and with the form's [notes] field as notes (the
    empty string included), was appended to the table; or pushed nothing
    and set a non-empty error message.  The transition, not [handleSubmit],
    is rejected, leaving the error state unset, exactly when the fields
    fail the schema, as they do when the form has no [notes] field at
    all. *)
Theorem form_navigates_after_insert (dateFromString : string → JsDate)
    (formData : FormData) (w : World) :
  let input := {| Input.id := VUndefined;
                  Input.name := FormData_get formData "name";
                  Input.date := FormData_get formData "date";
                  Input.notes := FormData_get formData "notes" |} in
  let transition := (handleSubmit dateFromString formData).2 in
  (handleSubmit dateFromString formData).1 = mkFormState None []
  ∧ (∀ st, (transition w).1 = Fulfilled st →
     (form_pushed st = ["/dashboard"] ∧ form_error st = None
      ∧ ∃ row notes,
          workouts (db (transition w).2) = workouts (db w) ++ [row]
          ∧ truthy (session w) = Some (Workout.userId row)
          ∧ FormData_get formData "name" = VString (Workout.name row)
          ∧ FormData_get formData "notes" = VString notes
          ∧ Workout.notes row = Some notes)
     ∨ (form_pushed st = [] ∧ ∃ message, form_error st = Some message ∧ message ≠ ""))
  ∧ (∀ e, (transition w).1 = Rejected e ↔
          ∃ issues, e = ZodError issues ∧ createWorkoutSchema input = inl issues)
  ∧ (FormData_get formData "notes" = VNull →
     ∃ issues, (transition w).1 = Rejected (ZodError issues)).
Proof.
  intros input transition. unfold transition. cbn [handleSubmit fst snd].
  split; [done|].
  rewrite submitTransition_run. fold input.
  assert (∀ issues, createWorkoutSchema input = inl issues →
            createWorkoutAction dateFromString input w = (Rejected (ZodError issues), w))
    as Hrej by apply action_rejected.
  assert (∀ data, createWorkoutSchema input = inr data →
            ∃ result, (createWorkoutAction dateFromString input w).1 = Fulfilled result)
    as Hret.
  { intros data Hschema.
    destruct (truthy (session w)) as [userId|] eqn:Hsession.
    - rewrite (createWorkoutAction_run _ _ _ _ _ Hschema Hsession).
      destruct (createWorkout _ w) as [[workout|e] w1]; by eexists.
    - rewrite (proj1 (action_unauthorized _ _ _ Hsession) _ Hschema). by eexists. }
  split; [|split].
  - intros st.
    destruct (createWorkoutAction dateFromString input w) as [[[o|error]|e] w1] eqn:Hrun;
      [| |done].
    + intros [= <-]. left. split; [done|]. split; [done|].
      assert ((createWorkoutAction dateFromString input w).1 = Fulfilled (Success o))
        as Hsuccess by by rewrite Hrun.
      apply create_action_outcome in Hsuccess
        as (data & userId & ms & row & Hschema & Hsession & _ & _ & _ & -> & Htable).
      rewrite Hrun in Htable. cbn [snd] in Htable.
      apply createWorkoutSchema_fields in Hschema as (Hn & _ & Ho).
      apply z_string_accepts in Hn as [Hn _].
      cbn [Input.name Input.notes input] in Hn, Ho.
      apply notes_schema_accepts in Ho as [[Ho _]|(s & Ho & Hs & _)].
      * exfalso. unfold FormData_get in Ho. by repeat case_match.
      * exists (inserted_row w (CreateInput.name data) ms (CreateInput.notes data)
                  userId), s.
        cbn. rewrite Hs in Htable |- *. done.
    + intros [= <-]. right. split; [done|]. cbn.
      eexists. split; [done|]. by case_decide.
  - intros e. destruct (createWorkoutSchema input) as [issues|data] eqn:Hschema.
    + rewrite (Hrej _ eq_refl). split.
      * intros [= <-]. by exists issues.
      * by intros (issues' & -> & [= <-]).
    + destruct (Hret _ eq_refl) as [result Hresult].
      destruct (createWorkoutAction dateFromString input w) as [[[o|error]|e'] w1];
        cbn in Hresult; try done; split; try done; by intros (? & _ & ?).
  - intros Hnull.
    destruct (createWorkoutSchema input) as [issues|data] eqn:Hschema.
    + exists issues. by rewrite (Hrej _ eq_refl).
    + exfalso. apply createWorkoutSchema_fields in Hschema as (_ & _ & Ho).
      cbn [Input.notes input] in Ho. rewrite Hnull in Ho. done.
Qed.

Lemma form_navigates_after_insert_witness :
  (∃ st, ((handleSubmit dateFromString_2025_03_01 filled_form).2
            (request gym (Some alice) 1740900000000)).1 = Fulfilled st
         ∧ form_pushed st = ["/dashboard"]
         ∧ ∃ row, workouts (db ((handleSubmit dateFromString_2025_03_01 filled_form).2
                                  (request gym (Some alice) 1740900000000)).2)
                  = workouts gym ++ [row]
                  ∧ Workout.notes row = Some "")
  ∧ ∃ issues, ((handleSubmit dateFromString_2025_03_01 form_without_notes).2
                 (request gym (Some alice) 1740900000000)).1
              = Rejected (ZodError issues).
Proof.
  split.
  - destruct (form_navigates_after_insert dateFromString_2025_03_01 filled_form
                (request gym (Some alice) 1740900000000)) as (_ & Hfulfilled & _).
    eexists. split; [by vm_compute|].
    destruct (Hfulfilled _ eq_refl)
      as [(Hpushed & _ & row & notes & Htable & _ & _ & Hnotes & Hrow)|[Hpushed _]];
      [|discriminate Hpushed].
    split; [exact Hpushed|]. exists row. split; [exact Htable|].
    injection Hnotes as <-. exact Hrow.
  - destruct (form_navigates_after_insert dateFromString_2025_03_01 form_without_notes
                (request gym (Some alice) 1740900000000)) as (_ & _ & _ & Hnull).
    by apply Hnull.
Defined.
